(** * FileSync (client/main.py): a shallow embedding and its properties

    The client keeps a list of local files in step with copies held under
    [.FileSync/] on one remote host.  The program is a single class,
    [FileSync], whose methods read an in-memory configuration
    ([self.config], loaded once by [initConfig]), a persisted configuration
    ([config.json], rewritten by [updateConfig]), the local file system and
    the remote host (through paramiko and scp).

    The embedding follows the source method by method.  Python values are
    the type [value]; the process state is the record [world]; methods are
    functions in the monad [M], whose outcomes are a normal return, a
    [sys.exit], an uncaught exception, or a run that has left what the
    model covers. *)

From Stdlib Require Import ZArith NArith Ascii String List Bool Lia.
From Stdlib Require Import DecimalFacts DecimalPos DecimalN.
From stdpp Require Import gmap strings.

Local Open Scope Z_scope.
Set Warnings "-register-all".

(** * Part I: the model *)

(** ** Python values

    The values the program stores in its configuration and exchanges with
    the [json] module: [None], booleans, integers, strings, lists, and
    dictionaries with string keys.  A [str] is a [string] whose characters
    are the code points below 256.  A dictionary is an association list in
    insertion order, as [json.dumps] prints it; its keys are pairwise
    distinct, which [dict_set] maintains. *)

Inductive value : Type :=
| VNone
| VBool (b : bool)
| VInt (z : Z)
| VStr (s : string)
| VList (l : list value)
| VDict (d : list (string * value)).

(** [IsADirectoryError] is what [open] raises on a directory under POSIX
    (Windows raises [PermissionError] there). *)
Inductive exn : Type :=
| KeyError | TypeError | IndexError | AttributeError | ValueError
| EOFError | FileNotFoundError | IsADirectoryError.

(** [bool(v)], the test an [if v:] performs. *)
Definition truthy (v : value) : bool :=
  match v with
  | VNone => false
  | VBool b => b
  | VInt z => negb (z =? 0)
  | VStr s => negb (String.eqb s "")
  | VList l => match l with [] => false | _ => true end
  | VDict d => match d with [] => false | _ => true end
  end.

Fixpoint dict_get (k : string) (d : list (string * value)) : option value :=
  match d with
  | [] => None
  | (k', v) :: d' => if String.eqb k k' then Some v else dict_get k d'
  end.

(** [d[k] = v]: an existing key keeps its place, a new key goes last. *)
Fixpoint dict_set (k : string) (v : value) (d : list (string * value))
  : list (string * value) :=
  match d with
  | [] => [(k, v)]
  | (k', v') :: d' =>
      if String.eqb k k' then (k, v) :: d' else (k', v') :: dict_set k v d'
  end.

(** [dict(pairs)]: later pairs overwrite earlier ones. *)
Definition dict_of_pairs (ps : list (string * value)) : list (string * value) :=
  fold_left (fun d p => dict_set (fst p) (snd p) d) ps [].

(** [sub in s] on strings. *)
Fixpoint is_substring (sub s : string) : bool :=
  String.prefix sub s ||
  match s with
  | EmptyString => false
  | String _ s' => is_substring sub s'
  end.

(** [k in c] for a string [k]. *)
Definition py_contains (k : string) (c : value) : exn + bool :=
  match c with
  | VDict d => inr (match dict_get k d with Some _ => true | None => false end)
  | VList l =>
      inr (existsb (fun e => match e with
                             | VStr s => String.eqb k s
                             | _ => false
                             end) l)
  | VStr s => inr (is_substring k s)
  | _ => inl TypeError
  end.

(** [c[k]] for a string [k]. *)
Definition py_getitem (c : value) (k : string) : exn + value :=
  match c with
  | VDict d => match dict_get k d with
               | Some v => inr v
               | None => inl KeyError
               end
  | _ => inl TypeError
  end.

(** [c[k] = v] for a string [k]. *)
Definition py_setitem (c : value) (k : string) (v : value) : exn + value :=
  match c with
  | VDict d => inr (VDict (dict_set k v d))
  | _ => inl TypeError
  end.

(** ** Strings *)

Definition chr (n : N) : ascii := ascii_of_N n.
Definition ord (c : ascii) : N := N_of_ascii c.

Definition quote : ascii := chr 34.
Definition backslash : ascii := chr 92.

Fixpoint chars (s : string) : list ascii :=
  match s with
  | EmptyString => []
  | String c s' => c :: chars s'
  end.

Fixpoint text (l : list ascii) : string :=
  match l with
  | [] => EmptyString
  | c :: l' => String c (text l')
  end.

(** [s.split(sep)] for a one-character separator: never the empty list. *)
Fixpoint split_on (sep : ascii) (s : string) : list string :=
  match s with
  | EmptyString => [EmptyString]
  | String c r =>
      if Ascii.eqb c sep then EmptyString :: split_on sep r
      else match split_on sep r with
           | h :: t => String c h :: t
           | [] => [String c EmptyString]
           end
  end.

(** Whitespace as [str.split()] sees it, among the code points below 256. *)
Definition is_py_space (c : ascii) : bool :=
  let n := ord c in
  ((9 <=? n) && (n <=? 13) || (28 <=? n) && (n <=? 32)
   || (n =? 133) || (n =? 160))%N.

Fixpoint drop_spaces (s : string) : string :=
  match s with
  | EmptyString => EmptyString
  | String c r => if is_py_space c then drop_spaces r else s
  end.

Fixpoint take_word (s : string) : string :=
  match s with
  | EmptyString => EmptyString
  | String c r => if is_py_space c then EmptyString else String c (take_word r)
  end.

(** [s.split()[0]]; [None] stands for the [IndexError] on an empty split. *)
Definition first_token (s : string) : option string :=
  match take_word (drop_spaces s) with
  | EmptyString => None
  | w => Some w
  end.

(** [s.lower()] on the code points below 256. *)
Definition lower_char (c : ascii) : ascii :=
  let n := ord c in
  if ((65 <=? n) && (n <=? 90)
      || (192 <=? n) && (n <=? 222) && negb (n =? 215))%N
  then chr (n + 32) else c.

Fixpoint lower (s : string) : string :=
  match s with
  | EmptyString => EmptyString
  | String c r => String (lower_char c) (lower r)
  end.

Definition is_decimal (c : ascii) : bool := ((48 <=? ord c) && (ord c <=? 57))%N.

(** [str.isdigit] also accepts the superscripts U+00B2, U+00B3, U+00B9. *)
Definition is_digit_char (c : ascii) : bool :=
  is_decimal c || ((ord c =? 178) || (ord c =? 179) || (ord c =? 185))%N.

Fixpoint all_chars (p : ascii -> bool) (s : string) : bool :=
  match s with
  | EmptyString => true
  | String c r => p c && all_chars p r
  end.

Definition isdigit (s : string) : bool :=
  negb (String.eqb s "") && all_chars is_digit_char s.

Fixpoint decimal_value (acc : N) (s : string) : N :=
  match s with
  | EmptyString => acc
  | String c r => decimal_value (acc * 10 + (ord c - 48)) r
  end.

(** [int(s)] on a string that passed [isdigit]: the superscripts are
    digits for [isdigit] but not for [int]. *)
Definition py_int (s : string) : exn + Z :=
  if negb (String.eqb s "") && all_chars is_decimal s
  then inr (Z.of_N (decimal_value 0 s))
  else inl ValueError.

(** ** The remote command line

    Lines 352 and 461 hand [f'md5sum {remote_path}'] to the remote shell
    with the name as it is, unquoted.  [argv] are the words the shell makes
    of a line of plain characters (letters, digits, [-], [.], [/] and [_])
    and spaces; a line with any other character (a quote, [;], [$], a
    wildcard, a tab, ...) is interpreted by the shell in ways the model
    does not follow, and has no [argv]. *)

Definition is_plain (c : ascii) : bool :=
  let n := ord c in
  ((48 <=? n) && (n <=? 57) || (65 <=? n) && (n <=? 90)
   || (97 <=? n) && (n <=? 122)
   || (n =? 45) || (n =? 46) || (n =? 47) || (n =? 95))%N.

Definition is_blank (c : ascii) : bool := (ord c =? 32)%N.

Definition argv (line : string) : option (list string) :=
  if all_chars (fun c => is_plain c || is_blank c) line
  then Some (List.filter (fun word => negb (String.eqb word ""))
                         (split_on " " line))
  else None.

(** ** [secure_compare] (lines 31-50) *)

Definition secure_compare (hash1 hash2 : string) : bool :=
  if negb (String.length hash1 =? String.length hash2)%nat
  then false
  else String.eqb hash1 hash2.

(** ** The [json] module

    [json_dumps] is [json.dumps] with its default arguments: separators
    [", "] and [": "], and [ensure_ascii], which writes every character
    outside the printable ASCII range as an escape.  [json_loads] is
    [json.loads]: [DecodeError] is a [JSONDecodeError]; [Unmodelled] marks
    the documents whose value lies outside [value] (a number with a
    fraction or an exponent, [NaN], [Infinity], an escape above code point
    255).  The limits of the interpreter (recursion depth, digits of an
    integer) are not part of the model. *)

Definition hex_digit (n : N) : ascii :=
  if (n <? 10)%N then chr (48 + n) else chr (87 + n).

Definition escape_char (c : ascii) : list ascii :=
  let n := ord c in
  if (n =? 34)%N then [backslash; quote]
  else if (n =? 92)%N then [backslash; backslash]
  else if (n =? 10)%N then [backslash; "n"%char]
  else if (n =? 13)%N then [backslash; "r"%char]
  else if (n =? 9)%N then [backslash; "t"%char]
  else if (n =? 8)%N then [backslash; "b"%char]
  else if (n =? 12)%N then [backslash; "f"%char]
  else if ((32 <=? n) && (n <=? 126))%N then [c]
  else [backslash; "u"%char; "0"%char; "0"%char;
        hex_digit (n / 16); hex_digit (n mod 16)].

Fixpoint escape (s : string) : list ascii :=
  match s with
  | EmptyString => []
  | String c r => escape_char c ++ escape r
  end.

Definition dumps_str (s : string) : list ascii := quote :: escape s ++ [quote].

Fixpoint uint_chars (u : Decimal.uint) : list ascii :=
  match u with
  | Decimal.Nil => []
  | Decimal.D0 u' => chr 48 :: uint_chars u'
  | Decimal.D1 u' => chr 49 :: uint_chars u'
  | Decimal.D2 u' => chr 50 :: uint_chars u'
  | Decimal.D3 u' => chr 51 :: uint_chars u'
  | Decimal.D4 u' => chr 52 :: uint_chars u'
  | Decimal.D5 u' => chr 53 :: uint_chars u'
  | Decimal.D6 u' => chr 54 :: uint_chars u'
  | Decimal.D7 u' => chr 55 :: uint_chars u'
  | Decimal.D8 u' => chr 56 :: uint_chars u'
  | Decimal.D9 u' => chr 57 :: uint_chars u'
  end.

Definition dumps_int (z : Z) : list ascii :=
  if z <? 0 then "-"%char :: uint_chars (N.to_uint (Z.abs_N z))
  else uint_chars (N.to_uint (Z.abs_N z)).

Fixpoint dumps_chars (v : value) : list ascii :=
  match v with
  | VNone => chars "null"
  | VBool true => chars "true"
  | VBool false => chars "false"
  | VInt z => dumps_int z
  | VStr s => dumps_str s
  | VList l =>
      "["%char ::
      (fix items (l : list value) : list ascii :=
         match l with
         | [] => []
         | [x] => dumps_chars x
         | x :: l' => dumps_chars x ++ chars ", " ++ items l'
         end) l ++ ["]"%char]
  | VDict d =>
      "{"%char ::
      (fix members (d : list (string * value)) : list ascii :=
         match d with
         | [] => []
         | [(k, x)] => dumps_str k ++ chars ": " ++ dumps_chars x
         | (k, x) :: d' =>
             dumps_str k ++ chars ": " ++ dumps_chars x ++ chars ", " ++ members d'
         end) d ++ ["}"%char]
  end.

Definition json_dumps (v : value) : string := text (dumps_chars v).

(** The elements of a list and the members of a dictionary as
    [dumps_chars] prints them between the brackets. *)
Fixpoint dumps_items (l : list value) : list ascii :=
  match l with
  | [] => []
  | [x] => dumps_chars x
  | x :: l' => dumps_chars x ++ chars ", " ++ dumps_items l'
  end.

Fixpoint dumps_members (d : list (string * value)) : list ascii :=
  match d with
  | [] => []
  | [(k, x)] => dumps_str k ++ chars ": " ++ dumps_chars x
  | (k, x) :: d' =>
      dumps_str k ++ chars ": " ++ dumps_chars x ++ chars ", " ++ dumps_members d'
  end.

(** A value is a valid state when the keys of each of its dictionaries
    are pairwise distinct, as the keys of a Python [dict] are. *)
Fixpoint distinct (ks : list string) : bool :=
  match ks with
  | [] => true
  | k :: ks' => negb (existsb (String.eqb k) ks') && distinct ks'
  end.

Fixpoint valid (v : value) : bool :=
  match v with
  | VList l =>
      (fix all (l : list value) : bool :=
         match l with
         | [] => true
         | x :: l' => valid x && all l'
         end) l
  | VDict d =>
      distinct (map fst d) &&
      (fix all (d : list (string * value)) : bool :=
         match d with
         | [] => true
         | (_, x) :: d' => valid x && all d'
         end) d
  | _ => true
  end.

Definition valid_items (l : list value) : bool := forallb valid l.
Definition valid_members (d : list (string * value)) : bool :=
  forallb (fun p => valid (snd p)) d.

(** The number of nested calls the scanner makes on the printed value. *)
Fixpoint weight (v : value) : nat :=
  match v with
  | VList l =>
      S ((fix sz (l : list value) : nat :=
            match l with
            | [] => O
            | x :: l' => S (weight x + sz l')
            end) l)
  | VDict d =>
      S ((fix sz (d : list (string * value)) : nat :=
            match d with
            | [] => O
            | (_, x) :: d' => S (weight x + sz d')
            end) d)
  | _ => 1%nat
  end.

Fixpoint weight_items (l : list value) : nat :=
  match l with
  | [] => O
  | x :: l' => S (weight x + weight_items l')
  end.

Fixpoint weight_members (d : list (string * value)) : nat :=
  match d with
  | [] => O
  | (_, x) :: d' => S (weight x + weight_members d')
  end.

(** What may follow a value inside a document. *)
Definition delimited (rest : list ascii) : bool :=
  match rest with
  | [] => true
  | c :: _ => Ascii.eqb c "," || Ascii.eqb c "]" || Ascii.eqb c "}"
  end.

Inductive parsed (A : Type) : Type :=
| Parsed (a : A)
| DecodeError
| Unmodelled.
Arguments Parsed {A} a.
Arguments DecodeError {A}.
Arguments Unmodelled {A}.

Definition parsed_bind {A B} (p : parsed A) (k : A -> parsed B) : parsed B :=
  match p with
  | Parsed a => k a
  | DecodeError => DecodeError
  | Unmodelled => Unmodelled
  end.

(** JSON whitespace: space, tab, line feed, carriage return. *)
Definition is_json_space (c : ascii) : bool :=
  let n := ord c in ((n =? 32) || (n =? 9) || (n =? 10) || (n =? 13))%N.

Fixpoint skip_ws (s : list ascii) : list ascii :=
  match s with
  | c :: r => if is_json_space c then skip_ws r else s
  | [] => []
  end.

Definition hex_value (c : ascii) : option N :=
  let n := ord c in
  if ((48 <=? n) && (n <=? 57))%N then Some (n - 48)%N
  else if ((97 <=? n) && (n <=? 102))%N then Some (n - 87)%N
  else if ((65 <=? n) && (n <=? 70))%N then Some (n - 55)%N
  else None.

Definition hex4 (a b c d : ascii) : option N :=
  match hex_value a, hex_value b, hex_value c, hex_value d with
  | Some x, Some y, Some z, Some w => Some (((x * 16 + y) * 16 + z) * 16 + w)%N
  | _, _, _, _ => None
  end.

Definition cons_char (c : ascii) (p : parsed (string * list ascii))
  : parsed (string * list ascii) :=
  parsed_bind p (fun '(s, r) => Parsed (String c s, r)).

(** The body of a string literal, after its opening quote (strict mode:
    a raw control character is an error). *)
Fixpoint scanstring (s : list ascii) : parsed (string * list ascii) :=
  match s with
  | [] => DecodeError
  | c :: r =>
      if Ascii.eqb c quote then Parsed (EmptyString, r)
      else if Ascii.eqb c backslash then
        match r with
        | [] => DecodeError
        | e :: r1 =>
            if Ascii.eqb e quote then cons_char quote (scanstring r1)
            else if Ascii.eqb e backslash then cons_char backslash (scanstring r1)
            else if Ascii.eqb e "/" then cons_char "/" (scanstring r1)
            else if Ascii.eqb e "b" then cons_char (chr 8) (scanstring r1)
            else if Ascii.eqb e "f" then cons_char (chr 12) (scanstring r1)
            else if Ascii.eqb e "n" then cons_char (chr 10) (scanstring r1)
            else if Ascii.eqb e "r" then cons_char (chr 13) (scanstring r1)
            else if Ascii.eqb e "t" then cons_char (chr 9) (scanstring r1)
            else if Ascii.eqb e "u" then
              match r1 with
              | h1 :: h2 :: h3 :: h4 :: r2 =>
                  match hex4 h1 h2 h3 h4 with
                  | Some n =>
                      if (n <? 256)%N then cons_char (chr n) (scanstring r2)
                      else Unmodelled
                  | None => DecodeError
                  end
              | _ => DecodeError
              end
            else DecodeError
        end
      else if (ord c <? 32)%N then DecodeError
      else cons_char c (scanstring r)
  end.

(** The longest run of decimal digits at the head of [s]. *)
Fixpoint scan_digits (s : list ascii) : Decimal.uint * list ascii :=
  match s with
  | c :: r =>
      if is_decimal c then
        let '(u, r') := scan_digits r in
        let n := ord c in
        ((if (n =? 48)%N then Decimal.D0 else if (n =? 49)%N then Decimal.D1
          else if (n =? 50)%N then Decimal.D2 else if (n =? 51)%N then Decimal.D3
          else if (n =? 52)%N then Decimal.D4 else if (n =? 53)%N then Decimal.D5
          else if (n =? 54)%N then Decimal.D6 else if (n =? 55)%N then Decimal.D7
          else if (n =? 56)%N then Decimal.D8 else Decimal.D9) u, r')
      else (Decimal.Nil, s)
  | [] => (Decimal.Nil, [])
  end.

Definition starts_with_digit (s : list ascii) : bool :=
  match s with c :: _ => is_decimal c | [] => false end.

(** What follows the integer part makes the number a float: a dot and a
    digit, or an exponent mark, an optional sign and a digit. *)
Definition float_tail (s : list ascii) : bool :=
  match s with
  | c :: r =>
      if Ascii.eqb c "." then starts_with_digit r
      else if Ascii.eqb c "e" || Ascii.eqb c "E" then
        match r with
        | g :: r' =>
            if Ascii.eqb g "+" || Ascii.eqb g "-" then starts_with_digit r'
            else is_decimal g
        | [] => false
        end
      else false
  | [] => false
  end.

(** The integer part at the head of [s]: a lone zero, or a non-zero digit
    and the digits that follow it. *)
Definition scan_natural (s : list ascii) : option (N * list ascii) :=
  match s with
  | c :: r =>
      if Ascii.eqb c "0" then Some (0%N, r)
      else if is_decimal c then
        let '(u, r') := scan_digits s in Some (N.of_uint u, r')
      else None
  | [] => None
  end.

Fixpoint strip_prefix (p s : list ascii) : option (list ascii) :=
  match p, s with
  | [], _ => Some s
  | a :: p', b :: s' => if Ascii.eqb a b then strip_prefix p' s' else None
  | _ :: _, [] => None
  end.

Definition scan_number (s : list ascii) : parsed (value * list ascii) :=
  let '(neg, body) :=
    match s with
    | c :: r => if Ascii.eqb c "-" then (true, r) else (false, s)
    | [] => (false, s)
    end in
  match scan_natural body with
  | Some (n, r) =>
      if float_tail r then Unmodelled
      else Parsed (VInt (if neg then - Z.of_N n else Z.of_N n), r)
  | None =>
      match strip_prefix (chars "NaN") s, strip_prefix (chars "Infinity") s,
            strip_prefix (chars "-Infinity") s with
      | None, None, None => DecodeError
      | _, _, _ => Unmodelled
      end
  end.

(** [scan_once]: the value at the head of [s], which has no leading
    whitespace.  [scan_array] and [scan_members] read the elements of a
    non-empty array and the members of a non-empty object. *)
Fixpoint scan_value (fuel : nat) (s : list ascii) {struct fuel}
  : parsed (value * list ascii) :=
  match fuel with
  | O => Unmodelled
  | S fuel =>
      match s with
      | [] => DecodeError
      | c :: r =>
          if Ascii.eqb c quote then
            parsed_bind (scanstring r) (fun '(str, r') => Parsed (VStr str, r'))
          else if Ascii.eqb c "{" then
            match skip_ws r with
            | c' :: r' =>
                if Ascii.eqb c' "}" then Parsed (VDict [], r')
                else if Ascii.eqb c' quote then
                  parsed_bind (scan_members fuel (c' :: r'))
                    (fun '(ps, r'') => Parsed (VDict (dict_of_pairs ps), r''))
                else DecodeError
            | [] => DecodeError
            end
          else if Ascii.eqb c "[" then
            match skip_ws r with
            | c' :: r' =>
                if Ascii.eqb c' "]" then Parsed (VList [], r')
                else parsed_bind (scan_array fuel (c' :: r'))
                       (fun '(vs, r'') => Parsed (VList vs, r''))
            | [] => DecodeError
            end
          else
            match strip_prefix (chars "null") s, strip_prefix (chars "true") s,
                  strip_prefix (chars "false") s with
            | Some r', _, _ => Parsed (VNone, r')
            | None, Some r', _ => Parsed (VBool true, r')
            | None, None, Some r' => Parsed (VBool false, r')
            | None, None, None => scan_number s
            end
      end
  end
with scan_array (fuel : nat) (s : list ascii) {struct fuel}
  : parsed (list value * list ascii) :=
  match fuel with
  | O => Unmodelled
  | S fuel =>
      parsed_bind (scan_value fuel s) (fun '(v, r) =>
        match skip_ws r with
        | c :: r' =>
            if Ascii.eqb c "]" then Parsed ([v], r')
            else if Ascii.eqb c "," then
              parsed_bind (scan_array fuel (skip_ws r'))
                (fun '(vs, r'') => Parsed (v :: vs, r''))
            else DecodeError
        | [] => DecodeError
        end)
  end
with scan_members (fuel : nat) (s : list ascii) {struct fuel}
  : parsed (list (string * value) * list ascii) :=
  match fuel with
  | O => Unmodelled
  | S fuel =>
      match s with
      | c :: r =>
          if Ascii.eqb c quote then
            parsed_bind (scanstring r) (fun '(k, r1) =>
              match skip_ws r1 with
              | c1 :: r2 =>
                  if Ascii.eqb c1 ":" then
                    parsed_bind (scan_value fuel (skip_ws r2)) (fun '(v, r3) =>
                      match skip_ws r3 with
                      | c3 :: r4 =>
                          if Ascii.eqb c3 "}" then Parsed ([(k, v)], r4)
                          else if Ascii.eqb c3 "," then
                            parsed_bind (scan_members fuel (skip_ws r4))
                              (fun '(ps, r5) => Parsed ((k, v) :: ps, r5))
                          else DecodeError
                      | [] => DecodeError
                      end)
                  else DecodeError
              | [] => DecodeError
              end)
          else DecodeError
      | [] => DecodeError
      end
  end.

(** [json.loads]: one value, surrounded by optional whitespace, and
    nothing after it. *)
Definition json_loads (doc : string) : parsed value :=
  let s := chars doc in
  parsed_bind (scan_value (S (2 * List.length s)) (skip_ws s)) (fun '(v, r) =>
    match skip_ws r with
    | [] => Parsed v
    | _ :: _ => DecodeError
    end).

(** ** The process and its surroundings

    The local file system: [files] are its regular files by path (among
    them [config.json] in the working directory), [dirs] the paths that
    are directories, and [creatable p] tells whether a file can be created
    at a path [p] where nothing exists yet (the directory of [p] exists and
    can be written).  The program creates and removes no directory, and
    the permissions of the files that exist are not part of the model.

    The remote host is reachable when [ssh_up]; it accepts an [scp.put]
    when [remote_writable]; [remote_files] are its files by path relative
    to the login directory.  [remote_sh cmd] is what the host's shell does
    to those files when it runs a command line that the model does not
    read itself (see [sh_effect]).

    [stdin] holds the lines [input()] will return and [env_username] is
    the environment variable [USERNAME].  [trace] records, in order, the
    transfers and remote commands attempted and the messages [sync]
    logs. *)

Inductive level : Type := DEBUG | INFO | WARNING | ERROR | CRITICAL.

(** The messages of [sync], by the line that logs them. *)
Inductive sync_msg : Type :=
| LocalChangedUpload (file : string)     (* lines 504, 513 *)
| RemoteCopyUpdated (file : string)      (* lines 508, 518 *)
| LocalHashNotFound (file : string)      (* line 510 *)
| RemoteChangedDownload (file : string)  (* lines 521, 531 *)
| LocalCopyUpdated (file : string)       (* lines 525, 536 *)
| RemoteHashNotFound (file : string)     (* line 527 *)
| AlreadyUpToDate (file : string)        (* line 539 *)
| LocalCopyNotFound (file : string)      (* line 542 *)
| FileCopied                             (* line 546 *)
| NotFoundRemoteAndLocal (file : string) (* line 549 *)
| StartSyncing                           (* line 497 *)
| StartChecking                          (* line 499 *)
| AllChecked.                            (* line 550 *)

Inductive event : Type :=
| Log (lvl : level) (msg : sync_msg)
| ScpPut (local_path remote_path : string)
| ScpGet (remote_path local_path : string)
| SshExec (command : string).

Record world : Type := World {
  files : gmap string string;
  dirs : list string;
  creatable : string -> bool;
  ssh_up : bool;
  remote_writable : bool;
  remote_files : gmap string string;
  remote_sh : string -> gmap string string -> gmap string string;
  stdin : list string;
  env_username : option string;
  trace : list event
}.

Definition set_files (f : gmap string string) (w : world) : world :=
  World f (dirs w) (creatable w) (ssh_up w) (remote_writable w)
        (remote_files w) (remote_sh w) (stdin w) (env_username w) (trace w).

Definition set_remote_files (f : gmap string string) (w : world) : world :=
  World (files w) (dirs w) (creatable w) (ssh_up w) (remote_writable w)
        f (remote_sh w) (stdin w) (env_username w) (trace w).

Definition set_stdin (l : list string) (w : world) : world :=
  World (files w) (dirs w) (creatable w) (ssh_up w) (remote_writable w)
        (remote_files w) (remote_sh w) l (env_username w) (trace w).

Definition add_event (e : event) (w : world) : world :=
  World (files w) (dirs w) (creatable w) (ssh_up w) (remote_writable w)
        (remote_files w) (remote_sh w) (stdin w) (env_username w)
        (trace w ++ [e]).

(** A path that is a directory, a path at which something exists
    ([os.path.exists]), and a path that [open(path, 'w')] opens: a regular
    file is overwritten, a directory is refused, a new file needs
    [creatable]. *)
Definition is_dir (w : world) (path : string) : bool :=
  match files w !! path with
  | Some _ => false
  | None => existsb (String.eqb path) (dirs w)
  end.

Definition path_exists (w : world) (path : string) : bool :=
  match files w !! path with
  | Some _ => true
  | None => is_dir w path
  end.

Definition can_write (w : world) (path : string) : bool :=
  match files w !! path with
  | Some _ => true
  | None => negb (is_dir w path) && creatable w path
  end.

(** How a call ends: it returns, the process exits ([sys.exit]), an
    exception escapes, or the run has left the model ([Beyond]: the
    persisted file holds a document that [json_loads] does not cover, the
    list of tracked files holds something other than strings, or a
    download is aimed at a directory). *)
Inductive outcome (A : Type) : Type :=
| Ret (a : A) (w : world)
| Exit (code : Z) (w : world)
| Raise (e : exn) (w : world)
| Beyond (w : world).
Arguments Ret {A} a w.
Arguments Exit {A} code w.
Arguments Raise {A} e w.
Arguments Beyond {A} w.

Definition M (A : Type) : Type := world -> outcome A.

Definition ret {A} (a : A) : M A := fun w => Ret a w.

Definition bind {A B} (m : M A) (k : A -> M B) : M B := fun w =>
  match m w with
  | Ret a w' => k a w'
  | Exit c w' => Exit c w'
  | Raise e w' => Raise e w'
  | Beyond w' => Beyond w'
  end.

Notation "'let*' x ':=' m 'in' k" := (bind m (fun x => k))
  (at level 10, x name, m at level 100, k at level 200).
Notation "m1 '>>' m2" := (bind m1 (fun _ => m2))
  (at level 100, m2 at level 200, right associativity).

Definition final_world {A} (o : outcome A) : world :=
  match o with
  | Ret _ w | Exit _ w | Raise _ w | Beyond w => w
  end.

Definition sys_exit {A} (code : Z) : M A := fun w => Exit code w.
Definition raise {A} (e : exn) : M A := fun w => Raise e w.
Definition beyond {A} : M A := fun w => Beyond w.

(** An operation on values, whose exception escapes. *)
Definition lift {A} (r : exn + A) : M A :=
  match r with
  | inl e => raise e
  | inr a => ret a
  end.

Definition emit (e : event) : M unit := fun w => Ret tt (add_event e w).
Definition log (lvl : level) (msg : sync_msg) : M unit := emit (Log lvl msg).

(** [try: m] with [except Exception: self.log.critical(...); sys.exit(1)]
    (lines 82-86, 128-133, 416-420, 436-441). *)
Definition or_exit {A} (m : M A) : M A := fun w =>
  match m w with
  | Raise _ w' => Exit 1 w'
  | o => o
  end.

Definition os_path_exists (path : string) : M bool := fun w =>
  Ret (path_exists w path) w.

(** [open(path, 'r').read()] *)
Definition read_file (path : string) : M string := fun w =>
  match files w !! path with
  | Some data => Ret data w
  | None =>
      Raise (if is_dir w path then IsADirectoryError else FileNotFoundError) w
  end.

(** [open(path, 'w').write(data)] *)
Definition write_file (path data : string) : M unit := fun w =>
  match files w !! path with
  | Some _ => Ret tt (set_files (<[path := data]> (files w)) w)
  | None =>
      if is_dir w path then Raise IsADirectoryError w
      else if creatable w path
           then Ret tt (set_files (<[path := data]> (files w)) w)
           else Raise FileNotFoundError w
  end.

(** [input()] *)
Definition input : M string := fun w =>
  match stdin w with
  | line :: rest => Ret line (set_stdin rest w)
  | [] => Raise EOFError w
  end.

Definition nonempty (s : string) : bool := negb (String.eqb s "").

Definition is_dict (v : value) : bool :=
  match v with VDict _ => true | _ => false end.

(** [secure_compare(h, v)] where [v] comes out of the configuration and
    need not be a string: [len] fails on [None], a boolean or an integer,
    and a string never equals a list or a dictionary. *)
Definition secure_compare_value (h : string) (v : value) : exn + bool :=
  match v with
  | VStr s => inr (secure_compare h s)
  | VList _ | VDict _ => inr false
  | VNone | VBool _ | VInt _ => inl TypeError
  end.

Definition NAME : string := "FileSync".
Definition VERSION : string := "0.1".
Definition REMOTE_PATH : string := "." +:+ NAME.
Definition newline : string := String (chr 10) EmptyString.

Definition CONFIG_TEMPLATE : list (string * value) :=
  [("hostname", VStr ""); ("port", VInt 22); ("username", VStr "");
   ("password", VStr ""); ("local_files", VList []);
   ("local_hashes", VDict []); ("remote_hashes", VDict [])].

Section FileSync.

(** [os.path.sep] and the digest [hashlib.md5(...).hexdigest()]. *)
Variable sep : ascii.
Variable md5 : string -> string.

(** The remote name of a file:
    [f'{self.REMOTE_PATH}/{filepath.split(os.path.sep)[::-1][0]}']
    (lines 295, 320, 351, 460). *)
Definition last_component (filepath : string) : string :=
  hd EmptyString (rev (split_on sep filepath)).

Definition remote_path (filepath : string) : string :=
  REMOTE_PATH +:+ "/" +:+ last_component filepath.

(** [getMD5] (lines 138-150) *)
Definition getMD5 (filepath : string) : M string :=
  let* data := read_file filepath in
  ret (md5 data).

(** [getSSHClient] (lines 200-221): whether a connected client came back. *)
Definition getSSHClient : M bool := fun w => Ret (ssh_up w) w.

(** [getSCPClient] (lines 223-234) *)
Definition getSCPClient : M bool :=
  let* cli := getSSHClient in
  if cli then ret true else ret false.

(** [scp.put(filepath, remote_path)], which quotes the remote name: a
    local path that cannot be read is an [OSError] of the caller; a refusal
    by the remote side is an [SCPException], here the result [false]. *)
Definition scp_put (filepath rpath : string) : M bool := fun w =>
  let w := add_event (ScpPut filepath rpath) w in
  match files w !! filepath with
  | None =>
      Raise (if is_dir w filepath then IsADirectoryError else FileNotFoundError) w
  | Some data =>
      if remote_writable w
      then Ret true (set_remote_files (<[rpath := data]> (remote_files w)) w)
      else Ret false w
  end.

(** [scp.get(remote_filepath, filepath)], which quotes the remote name:
    [false] when it raises, because the remote file is missing or because
    the local path cannot be opened for writing.  Into a directory, [scp]
    stores the file under its remote name, joined by [os.path.join]: the
    model does not follow it there. *)
Definition scp_get (rpath filepath : string) : M bool := fun w =>
  let w := add_event (ScpGet rpath filepath) w in
  match remote_files w !! rpath with
  | None => Ret false w
  | Some data =>
      if is_dir w filepath then Beyond w
      else if can_write w filepath
           then Ret true (set_files (<[filepath := data]> (files w)) w)
           else Ret false w
  end.

(** What a command line leaves of the remote files: [md5sum] on words
    only reads; any other line is the host's business. *)
Definition sh_effect (sh : string -> gmap string string -> gmap string string)
    (line : string) (remote : gmap string string) : gmap string string :=
  match argv line with
  | Some (prog :: _) =>
      if String.eqb prog "md5sum" then remote else sh line remote
  | _ => sh line remote
  end.

(** Lines 352-355 and 461-464:
    [_, stdout, stderr = ssh.exec_command(command)], then [ssh.close()],
    and only then [stdout.read()] and [stderr.read()].  [exec_command]
    returns as soon as the host has accepted the command; closing the
    client closes the channel, and [read] on a closed channel returns what
    had arrived before: nothing.  The host has the command all the same. *)
Definition exec_close_read (command : string) : M (string * string) := fun w =>
  let w := add_event (SshExec command) w in
  Ret (EmptyString, EmptyString)
      (set_remote_files (sh_effect (remote_sh w) command (remote_files w)) w).

(** [stdout.split()[0]] (lines 360, 470) *)
Definition first_field (stdout : string) : M string :=
  match first_token stdout with
  | Some h => ret h
  | None => raise IndexError
  end.

(** [upload] (lines 284-307) *)
Definition upload (filepath : string) : M bool :=
  let* scp := getSCPClient in
  if scp then
    let remote_path := remote_path filepath in
    let* sent := scp_put filepath remote_path in
    if sent then ret true else ret false
  else ret false.

(** [download] (lines 309-338) *)
Definition download (filepath : string) : M bool :=
  let* scp := getSCPClient in
  if scp then
    let remote_filepath := remote_path filepath in
    let* got := scp_get remote_filepath filepath in
    if got then
      let* present := os_path_exists filepath in
      if present then ret true else ret false
    else ret false
  else ret false.

(** [checkRemoteFile] (lines 340-377).  The result is [True], [False], or
    [None] when the function falls off its end (neither output is
    non-empty).  The debug message of line 363 hashes the local file
    whatever the logging level. *)
Definition checkRemoteFile (config : value) (filepath : string) : M value :=
  let* ssh := getSSHClient in
  if ssh then
    let remote_path := remote_path filepath in
    let* out := exec_close_read ("md5sum " +:+ remote_path) in
    let '(stdout, stderr) := out in
    if nonempty stderr then ret (VBool false)
    else if nonempty stdout then
      let* hash := first_field stdout in
      let* remote_hashes := lift (py_getitem config "remote_hashes") in
      let* known :=
        (if truthy remote_hashes then
           let* stored := lift (py_getitem remote_hashes remote_path) in
           ret (truthy stored)
         else ret false) in
      if known then
        let* _ := getMD5 filepath in
        let* stored := lift (py_getitem remote_hashes remote_path) in
        let* same := lift (secure_compare_value hash stored) in
        if same then ret (VBool true) else ret (VBool false)
      else ret (VBool false)
    else ret VNone
  else ret (VBool false).

(** [checkLocalFile] (lines 379-403) *)
Definition checkLocalFile (config : value) (filepath : string) : M bool :=
  let* present := os_path_exists filepath in
  if present then
    let* local_hashes := lift (py_getitem config "local_hashes") in
    if truthy local_hashes then
      let* tracked := lift (py_contains filepath local_hashes) in
      if tracked then
        let* _ := getMD5 filepath in
        let* _ := lift (py_getitem local_hashes filepath) in
        let* h := getMD5 filepath in
        let* stored := lift (py_getitem local_hashes filepath) in
        let* same := lift (secure_compare_value h stored) in
        if same then ret true else ret false
      else ret false
    else ret false
  else ret false.

(** [updateConfig] (lines 405-447).  On line 431 the right-hand side
    [config[key].update(value)] is the result of [dict.update], which is
    [None]; on anything but a dictionary the attribute is missing. *)
Definition updateConfig (key : string) (val : value) : M bool :=
  let* present := os_path_exists "config.json" in
  if present then
    let* data := or_exit (read_file "config.json") in
    match json_loads data with
    | DecodeError => sys_exit 1
    | Unmodelled => beyond
    | Parsed config =>
        let* has_key := lift (py_contains key config) in
        let* config :=
          (if has_key then
             let* current := lift (py_getitem config key) in
             if truthy current && is_dict val then
               let* updated :=
                 (if is_dict current then ret VNone else raise AttributeError) in
               lift (py_setitem config key updated)
             else lift (py_setitem config key val)
           else lift (py_setitem config key val)) in
        or_exit (write_file "config.json" (json_dumps config)) >>
        ret true
    end
  else sys_exit 1.

(** [updateRemoteHash] (lines 449-475) *)
Definition updateRemoteHash (filepath : string) : M value :=
  let* ssh := getSSHClient in
  if ssh then
    let remote_path := remote_path filepath in
    let* out := exec_close_read ("md5sum " +:+ remote_path) in
    let '(stdout, stderr) := out in
    if nonempty stderr then ret (VBool false)
    else if nonempty stdout then
      let* hash := first_field stdout in
      updateConfig "remote_hashes" (VDict [(remote_path, VStr hash)]) >>
      ret (VBool true)
    else ret VNone
  else ret (VBool false).

(** [updateLocalHash] (lines 477-492) *)
Definition updateLocalHash (filepath : string) : M bool :=
  let* present := os_path_exists filepath in
  if present then
    let* hash := getMD5 filepath in
    updateConfig "local_hashes" (VDict [(filepath, VStr hash)]) >>
    ret true
  else ret false.

(** [A and file in A] for [A = self.config[key]] (lines 503, 520) *)
Definition recorded_in (config : value) (key file : string) : M bool :=
  let* hashes := lift (py_getitem config key) in
  if truthy hashes then lift (py_contains file hashes) else ret false.

(** The body of the [for] loop of [sync] (lines 501-549), for one
    [file] of [self.config['local_files']]. *)
Definition sync_file (config : value) (file : string) : M unit :=
  let* present := os_path_exists file in
  if present then
    let* local_ok := checkLocalFile config file in
    if negb local_ok then
      let* recorded := recorded_in config "local_hashes" file in
      if recorded then
        log INFO (LocalChangedUpload file) >>
        upload file >>
        updateLocalHash file >>
        updateRemoteHash file >>
        log INFO (RemoteCopyUpdated file)
      else
        log WARNING (LocalHashNotFound file) >>
        updateLocalHash file >>
        let* local_ok := checkLocalFile config file in
        if negb local_ok then
          log INFO (LocalChangedUpload file) >>
          upload file >>
          updateLocalHash file >>
          updateRemoteHash file >>
          log INFO (RemoteCopyUpdated file)
        else ret tt
    else
      let* remote_ok := checkRemoteFile config file in
      if negb (truthy remote_ok) then
        let* recorded := recorded_in config "remote_hashes" file in
        if recorded then
          log INFO (RemoteChangedDownload file) >>
          download file >>
          updateRemoteHash file >>
          updateLocalHash file >>
          log INFO (LocalCopyUpdated file)
        else
          log WARNING (RemoteHashNotFound file) >>
          updateRemoteHash file >>
          let* local_ok := checkLocalFile config file in
          if negb local_ok then
            log INFO (RemoteChangedDownload file) >>
            download file >>
            updateRemoteHash file >>
            updateLocalHash file >>
            log INFO (LocalCopyUpdated file)
          else ret tt
      else log INFO (AlreadyUpToDate file)
  else
    log INFO (LocalCopyNotFound file) >>
    let* copied := download file in
    if copied then
      updateLocalHash file >>
      updateRemoteHash file >>
      log INFO FileCopied
    else log ERROR (NotFoundRemoteAndLocal file).

(** [for file in self.config['local_files']] (line 500): a list yields its
    elements, a dictionary its keys, a string its characters.  An element
    that is not a string is outside the model. *)
Fixpoint strings_of (l : list value) : option (list string) :=
  match l with
  | [] => Some []
  | VStr s :: l' => option_map (cons s) (strings_of l')
  | _ :: _ => None
  end.

Definition iterate (v : value) : M (list string) :=
  match v with
  | VList l => match strings_of l with
               | Some fs => ret fs
               | None => beyond
               end
  | VDict d => ret (map fst d)
  | VStr s => ret (map (fun c => String c EmptyString) (chars s))
  | VNone | VBool _ | VInt _ => raise TypeError
  end.

Fixpoint for_each (l : list string) (body : string -> M unit) : M unit :=
  match l with
  | [] => ret tt
  | x :: l' => body x >> for_each l' body
  end.

(** One pass of the [while True] loop of [sync] (lines 499-551). *)
Definition sync_cycle (config : value) : M unit :=
  log INFO StartChecking >>
  let* local_files := lift (py_getitem config "local_files") in
  let* todo := iterate local_files in
  for_each todo (sync_file config) >>
  log INFO AllChecked.

(** The first [cycles] passes of the loop, which itself has no exit;
    [time.sleep(10)] between two passes changes nothing in the world. *)
Fixpoint sync_loop (cycles : nat) (config : value) : M unit :=
  match cycles with
  | O => ret tt
  | S n => sync_cycle config >> sync_loop n config
  end.

(** [sync] (lines 494-551), cut after [cycles] passes. *)
Definition sync (cycles : nat) (config : value) : M unit :=
  log INFO StartSyncing >>
  sync_loop cycles config.

(** The port dialogue of [initConfig] (lines 100-107), over the lines
    [input()] has yet to return; [None] keeps the port of the template. *)
Fixpoint ask_port (lines : list string) : M (option Z) := fun w =>
  match lines with
  | [] => Raise EOFError w
  | port :: rest =>
      let w := set_stdin rest w in
      if nonempty port && isdigit port then
        match py_int port with
        | inr n => Ret (Some n) w
        | inl e => Raise e w
        end
      else if negb (nonempty port) then Ret None w
      else ask_port rest w
  end.

(** The file dialogue of [initConfig] (lines 112-125).  The test of line
    116 is [len(config['local_files']) < 0]. *)
Fixpoint ask_files (lines : list string) (local_files : list string)
    (stop_count : Z) : M (list string) := fun w =>
  match lines with
  | [] => Raise EOFError w
  | file :: rest =>
      let w := set_stdin rest w in
      if String.eqb (lower file) "stop" then
        if Z.of_nat (List.length local_files) <? 0 then
          if stop_count >? 1 then Exit 1 w
          else ask_files rest local_files (stop_count + 1) w
        else Ret local_files w
      else
        if path_exists w file
        then ask_files rest (local_files ++ [file]) stop_count w
        else ask_files rest local_files stop_count w
  end.

(** Lines 126-127: one digest per listed file. *)
Fixpoint hash_files (local_files : list string)
    (local_hashes : list (string * value)) : M (list (string * value)) :=
  match local_files with
  | [] => ret local_hashes
  | file :: rest =>
      let* h := getMD5 file in
      hash_files rest (dict_set file (VStr h) local_hashes)
  end.

(** Lines 128-136 of [initConfig]: the configuration goes to
    [config.json] as one JSON document. *)
Definition save_config (config : value) : M value :=
  or_exit (write_file "config.json" (json_dumps config)) >>
  ret config.

(** [initConfig] (lines 75-136) *)
Definition initConfig : M value :=
  let* present := os_path_exists "config.json" in
  if present then
    let* data := or_exit (read_file "config.json") in
    match json_loads data with
    | DecodeError => sys_exit 1
    | Unmodelled => beyond
    | Parsed data => ret data
    end
  else
    let config := CONFIG_TEMPLATE in
    let* hostname := input in
    let config := dict_set "hostname" (VStr hostname) config in
    let* port := (fun w => ask_port (stdin w) w) in
    let config := match port with
                  | Some n => dict_set "port" (VInt n) config
                  | None => config
                  end in
    let* username := input in
    let* username :=
      (if nonempty username then ret (VStr username)
       else fun w => Ret (match env_username w with
                          | Some u => VStr u
                          | None => VNone
                          end) w) in
    let config := dict_set "username" username config in
    let* password := input in
    let config := dict_set "password" (VStr password) config in
    let* local_files := (fun w => ask_files (stdin w) [] 0 w) in
    let config := dict_set "local_files" (VList (map VStr local_files)) config in
    let* local_hashes := hash_files local_files [] in
    let config := dict_set "local_hashes" (VDict local_hashes) config in
    save_config (VDict config).

End FileSync.

(** ** Vocabulary of the properties *)

(** The digest map held in a field of a configuration; [null] holds no
    digest. *)
Definition hashes_of (config : value) (field : string)
  : option (list (string * value)) :=
  match py_getitem config field with
  | inr (VDict d) => Some d
  | inr VNone => Some []
  | _ => None
  end.

(** The digest recorded for a local file, and for its remote copy. *)
Definition stored_local (config : value) (file : string) : option value :=
  match hashes_of config "local_hashes" with
  | Some d => dict_get file d
  | None => None
  end.

Definition stored_remote (sep : ascii) (config : value) (file : string)
  : option value :=
  match hashes_of config "remote_hashes" with
  | Some d => dict_get (remote_path sep file) d
  | None => None
  end.

(** The digests of the two copies as they are now. *)
Definition local_digest_now (md5 : string -> string) (file : string)
    (w : world) : option string :=
  option_map md5 (files w !! file).

Definition remote_digest_now (sep : ascii) (md5 : string -> string)
    (file : string) (w : world) : option string :=
  option_map md5 (remote_files w !! remote_path sep file).

(** The configuration that [config.json] holds, when it parses. *)
Definition persisted (w : world) : option value :=
  match files w !! "config.json" with
  | Some doc => match json_loads doc with
                | Parsed v => Some v
                | _ => None
                end
  | None => None
  end.

(** Line 431 finds an [update] method in the field: it is absent, falsy,
    or a dictionary. *)
Definition updatable (d : list (string * value)) (field : string) : bool :=
  match dict_get field d with
  | None => true
  | Some v => negb (truthy v) || is_dict v
  end.

(** [config.json] is a document the program wrote: the print of a
    dictionary with distinct keys whose digest fields are updatable. *)
Definition store_written (w : world) : Prop :=
  exists d, files w !! "config.json" = Some (json_dumps (VDict d)) /\
            valid (VDict d) = true /\
            updatable d "local_hashes" = true /\
            updatable d "remote_hashes" = true.

(** The same, as a test on the file: it parses to a dictionary whose print
    it is. *)
Definition store_ok (w : world) : bool :=
  match files w !! "config.json" with
  | Some doc =>
      match json_loads doc with
      | Parsed (VDict d) =>
          String.eqb doc (json_dumps (VDict d)) && valid (VDict d) &&
          updatable d "local_hashes" && updatable d "remote_hashes"
      | _ => false
      end
  | None => false
  end.

(** From [w] to [w'] nothing but [config.json] was written. *)
Definition config_only (w w' : world) : Prop :=
  (forall p, p <> "config.json" -> files w' !! p = files w !! p) /\
  (forall p, is_Some (files w !! p) -> is_Some (files w' !! p)) /\
  remote_files w' = remote_files w /\
  ssh_up w' = ssh_up w /\ remote_writable w' = remote_writable w /\
  dirs w' = dirs w /\ creatable w' = creatable w /\ remote_sh w' = remote_sh w.

(** The command line of the remote probe of a file (lines 352, 461), and
    the world once the host has been sent it. *)
Definition probe_line (sep : ascii) (file : string) : string :=
  "md5sum " +:+ remote_path sep file.

Definition probed (sep : ascii) (file : string) (w : world) : world :=
  set_remote_files
    (sh_effect (remote_sh w) (probe_line sep file) (remote_files w))
    (add_event (SshExec (probe_line sep file)) w).

(** What lines 429-435 of [updateConfig] leave in the field. *)
Definition field_after (field : string) (val : value) (d : list (string * value))
  : value :=
  match dict_get field d with
  | Some current => if truthy current then VNone else val
  | None => val
  end.

(** [m] returns from [w], with a result and a final world that satisfy
    [Q]. *)
Definition returns {A} (m : M A) (w : world) (Q : A -> world -> Prop) : Prop :=
  exists a w', m w = Ret a w' /\ Q a w'.

Definition is_transfer (e : event) : bool :=
  match e with
  | ScpPut _ _ | ScpGet _ _ => true
  | _ => false
  end.

(** ** Sample data

    A digest that can be run: two hexadecimal digits per character.  It
    stands in for MD5 in the closed examples below; the general theorems
    hold for every digest function. *)

Definition sample_md5 (s : string) : string :=
  text (flat_map (fun c => [hex_digit (ord c / 16); hex_digit (ord c mod 16)])
                 (chars s)).

Definition sample_config (local_hashes remote_hashes : value) : value :=
  VDict [("hostname", VStr "example.org"); ("port", VInt 22);
         ("username", VStr "alice"); ("password", VStr "secret");
         ("local_files", VList [VStr "docs/a.txt"; VStr "b.txt"]);
         ("local_hashes", local_hashes); ("remote_hashes", remote_hashes)].

(** A host whose shell, given a line the model does not read, leaves no
    file behind: the worst a command line can do. *)
Definition wiping_sh (line : string) (remote : gmap string string)
  : gmap string string := ∅.

(** No directory is involved and every path can be created. *)
Definition sample_world (local remote : list (string * string))
    (up writable : bool) : world :=
  World (list_to_map local) [] (fun _ => true) up writable
        (list_to_map remote) wiping_sh [] None [].

Definition recorded_config : value :=
  sample_config (VDict [("docs/a.txt", VStr (sample_md5 "old"))])
                (VDict [(".FileSync/a.txt", VStr (sample_md5 "old"))]).

Definition fresh_config : value := sample_config (VDict []) (VDict []).

(** Both copies of [docs/a.txt] have changed since the recorded digests,
    and to different contents. *)
Definition double_change_world : world :=
  sample_world [("config.json", json_dumps recorded_config); ("docs/a.txt", "new")]
               [(".FileSync/a.txt", "other")] true true.

(** The local copy has changed, the remote host refuses the upload, and
    [config.json] records no digest (as an earlier pass left it); and the
    same with a host that accepts the upload. *)
Definition refused_world : world :=
  sample_world [("config.json", json_dumps (sample_config VNone VNone));
                ("docs/a.txt", "new")]
               [(".FileSync/a.txt", "old")] true false.

Definition accepted_world : world :=
  sample_world [("config.json", json_dumps (sample_config VNone VNone));
                ("docs/a.txt", "new")]
               [(".FileSync/a.txt", "old")] true true.

(** Both copies of [docs/a.txt] are as recorded. *)
Definition verified_world : world :=
  sample_world [("config.json", json_dumps recorded_config); ("docs/a.txt", "old")]
               [(".FileSync/a.txt", "old")] true true.

(** [config.json] has been damaged while the loop runs. *)
Definition corrupt_world : world :=
  sample_world [("config.json", "{"); ("docs/a.txt", "new")]
               [(".FileSync/a.txt", "old")] true true.

(** Nothing is recorded yet for the local file [docs/a.txt]. *)
Definition fresh_world : world :=
  sample_world [("config.json", json_dumps fresh_config); ("docs/a.txt", "new")]
               [(".FileSync/a.txt", "other")] true true.

(** [b.txt] has a remote copy whose digest was never recorded, while the
    digest of another file was. *)
Definition probe_world : world :=
  sample_world [("config.json", json_dumps recorded_config); ("b.txt", "bee")]
               [(".FileSync/b.txt", "bee")] true true.

(** ** Vocabulary of the further properties *)

(** What lines 429-435 of [updateConfig] leave in the field, for any
    value. *)
Definition value_after (field : string) (val : value) (d : list (string * value))
  : value :=
  match dict_get field d with
  | Some current => if truthy current && is_dict val then VNone else val
  | None => val
  end.

(** A file whose remote name the shell takes as one word. *)
Definition plain_name (sep : ascii) (file : string) : bool :=
  all_chars is_plain (last_component sep file).

(** The model has followed the call to its end. *)
Definition completed {A} (o : outcome A) : bool :=
  match o with
  | Beyond _ => false
  | _ => true
  end.

(** Every run of [m] ends in a world related to the one it started in,
    however it ends. *)
Definition within (R : world -> world -> Prop) {A} (m : M A) : Prop :=
  forall w, R w (final_world (m w)).

(** Among the local files only [file] and [config.json] may differ, none
    has gone, and the trace has only grown. *)
Definition local_frame (file : string) (w w' : world) : Prop :=
  (forall p, p <> file -> p <> "config.json" -> files w' !! p = files w !! p) /\
  (forall p, is_Some (files w !! p) -> is_Some (files w' !! p)) /\
  exists evs, trace w' = trace w ++ evs.

(** Among the remote files only the copy of [file] may differ, and none
    has gone. *)
Definition remote_frame (sep : ascii) (file : string) (w w' : world) : Prop :=
  (forall r, r <> remote_path sep file ->
             remote_files w' !! r = remote_files w !! r) /\
  (forall r, is_Some (remote_files w !! r) -> is_Some (remote_files w' !! r)).

(** No local file has gone and the trace has only grown; no remote file
    has gone. *)
Definition local_kept (w w' : world) : Prop :=
  (forall p, is_Some (files w !! p) -> is_Some (files w' !! p)) /\
  exists evs, trace w' = trace w ++ evs.

Definition remote_kept (w w' : world) : Prop :=
  forall r, is_Some (remote_files w !! r) -> is_Some (remote_files w' !! r).

(** The trace has grown by events among which no file is reported up to
    date (the message of line 539). *)
Definition quiet (w w' : world) : Prop :=
  exists evs, trace w' = trace w ++ evs /\
              forall f, ~ In (Log INFO (AlreadyUpToDate f)) evs.

(** The files a pass of [sync] goes through (line 500), when they are
    strings. *)
Definition tracked (config : value) : list string :=
  match py_getitem config "local_files" with
  | inr (VList l) => match strings_of l with
                     | Some fs => fs
                     | None => []
                     end
  | inr (VDict d) => map fst d
  | inr (VStr s) => map (fun c => String c EmptyString) (chars s)
  | _ => []
  end.

(** The paths of [paths] at which something exists, in order, and one
    digest per path that is a regular file, as lines 124-127 of
    [initConfig] collect them. *)
Definition existing (w : world) (paths : list string) : list string :=
  List.filter (path_exists w) paths.

Definition digests (md5 : string -> string) (fs : gmap string string)
    (paths : list string) (acc : list (string * value)) : list (string * value) :=
  fold_left (fun d p => match fs !! p with
                        | Some data => dict_set p (VStr (md5 data)) d
                        | None => d
                        end) paths acc.

(** [getTempFileName] (lines 152-158), for the value [bits] that
    [secrets.randbits(6)] draws. *)
Definition getTempFileName (bits : N) : string :=
  "sunc_temp_" +:+ text (uint_chars (N.to_uint bits)).

Definition no_separator (sep : ascii) (s : string) : bool :=
  all_chars (fun c => negb (Ascii.eqb c sep)) s.

(** The characters [json.dumps] may write under [ensure_ascii]. *)
Definition is_printable (c : ascii) : bool := ((32 <=? ord c) && (ord c <=? 126))%N.

(** The members of a configuration. *)
Definition fields (v : value) : list (string * value) :=
  match v with
  | VDict d => d
  | _ => []
  end.

(** [config.json] holds a JSON list, and a string where digests go. *)
Definition list_document_world : world :=
  sample_world [("config.json", "[1, 2]")] [] true true.

Definition odd_store_world : world :=
  sample_world [("config.json", json_dumps (VDict [("local_hashes", VStr "oops")]))]
               [] true true.

(** The local copy of [docs/a.txt] is gone. *)
Definition lost_world : world :=
  sample_world [("config.json", json_dumps recorded_config)]
               [(".FileSync/a.txt", "old")] true true.

(** The local copy of [docs/a.txt] is gone and so is its directory: no
    file can be created at that path. *)
Definition orphan_world : world :=
  World (list_to_map [("config.json", json_dumps recorded_config)]) []
        (fun p => negb (String.eqb p "docs/a.txt")) true true
        (list_to_map [(".FileSync/a.txt", "old")]) wiping_sh [] None [].

(** Only the remote copy of [docs/a.txt] has changed. *)
Definition remote_change_world : world :=
  sample_world [("config.json", json_dumps recorded_config); ("docs/a.txt", "old")]
               [(".FileSync/a.txt", "other")] true true.

(** Before the first run: no [config.json], and the answers typed at the
    prompts. *)
Definition setup_world : world :=
  World (list_to_map [("x.txt", "hello"); ("y.txt", "bye")]) ["docs"]
        (fun _ => true) true true ∅ wiping_sh
        ["example.org"; "2222"; ""; "secret"; "x.txt"; "nope.txt"; "y.txt";
         "x.txt"; "stop"; "later"]
        (Some "alice") [].

(** The same, with the directory [docs] typed at the file prompt. *)
Definition setup_dir_world : world :=
  World (list_to_map [("x.txt", "hello"); ("y.txt", "bye")]) ["docs"]
        (fun _ => true) true true ∅ wiping_sh
        ["example.org"; "2222"; ""; "secret"; "x.txt"; "docs"; "stop"; "later"]
        (Some "alice") [].

Definition setup_config : value :=
  VDict [("hostname", VStr "example.org"); ("port", VInt 2222);
         ("username", VStr "alice"); ("password", VStr "secret");
         ("local_files", VList [VStr "x.txt"; VStr "y.txt"; VStr "x.txt"]);
         ("local_hashes", VDict [("x.txt", VStr (sample_md5 "hello"));
                                 ("y.txt", VStr (sample_md5 "bye"))]);
         ("remote_hashes", VDict [])].

(** A configuration that tracks one file. *)
Definition single_config : value :=
  VDict [("hostname", VStr "example.org"); ("port", VInt 22);
         ("username", VStr "alice"); ("password", VStr "secret");
         ("local_files", VList [VStr "docs/a.txt"]);
         ("local_hashes", VDict [("docs/a.txt", VStr (sample_md5 "old"))]);
         ("remote_hashes", VDict [(".FileSync/a.txt", VStr (sample_md5 "old"))])].

(** Unfolds the monad and the file primitives, leaving the methods and the
    [json] functions folded. *)
Ltac run :=
  cbv beta iota delta [bind ret lift raise sys_exit beyond or_exit
                       os_path_exists path_exists read_file write_file
                       emit log].

(** * Part II: properties *)

(** ** The definitions at work *)

Example remote_path_posix : remote_path "/" "docs/a.txt" = ".FileSync/a.txt".
Proof. reflexivity. Qed.

Example remote_path_windows : remote_path "\" "C:\docs\a.txt" = ".FileSync/a.txt".
Proof. reflexivity. Qed.

Example remote_path_trailing_separator : remote_path "/" "docs/" = ".FileSync/".
Proof. reflexivity. Qed.

Example split_on_keeps_empty_fields : split_on "/" "a//b/" = ["a"; ""; "b"; ""].
Proof. reflexivity. Qed.

Example first_token_of_md5sum :
  first_token ("0cc175b9c0f1b6a8  .FileSync/a.txt" +:+ newline)
  = Some "0cc175b9c0f1b6a8".
Proof. reflexivity. Qed.

Example first_token_of_blank : first_token ("  " +:+ newline) = None.
Proof. reflexivity. Qed.

Example secure_compare_same : secure_compare "6e6577" "6e6577" = true.
Proof. reflexivity. Qed.

Example secure_compare_prefix : secure_compare "6e65" "6e6577" = false.
Proof. reflexivity. Qed.

Example isdigit_accepts_superscript_two :
  isdigit (String (chr 178) EmptyString) = true /\
  py_int (String (chr 178) EmptyString) = inl ValueError.
Proof. split; reflexivity. Qed.

Example loads_nested :
  json_loads " [1, [true, null], -20, {}] "
  = Parsed (VList [VInt 1; VList [VBool true; VNone]; VInt (-20); VDict []]).
Proof. reflexivity. Qed.

Example loads_trailing_comma : json_loads "[1,]" = DecodeError.
Proof. reflexivity. Qed.

Example loads_leading_zero : json_loads "[01]" = DecodeError.
Proof. reflexivity. Qed.

Example loads_float : json_loads "[1.5]" = Unmodelled.
Proof. reflexivity. Qed.

Example dumps_then_loads_sample :
  json_loads (json_dumps recorded_config) = Parsed recorded_config.
Proof. reflexivity. Qed.

Example sample_md5_of_new : sample_md5 "new" = "6e6577".
Proof. reflexivity. Qed.

(** A pass that uploads a changed file leaves the local digest field of
    [config.json] at [null] and the remote one as it was, while
    [self.config] keeps the digests it was loaded with. *)
Example pass_after_local_change :
  persisted (final_world (sync_file "/" sample_md5 recorded_config "docs/a.txt"
                            double_change_world))
  = Some (sample_config VNone
            (VDict [(".FileSync/a.txt", VStr (sample_md5 "old"))])).
Proof. vm_compute. reflexivity. Qed.

(** One pass of [sync] over a damaged [config.json] ends the process. *)
Example sync_exits_on_damaged_store :
  exists w', sync "/" sample_md5 1 recorded_config corrupt_world = Exit 1 w'.
Proof. eexists. vm_compute. reflexivity. Qed.

(** An unchanged file whose remote copy is unchanged too: the answer to
    the probe is never read, so the pass warns and probes again. *)
Example pass_over_verified_file :
  let w := sample_world [("config.json", json_dumps recorded_config);
                         ("docs/a.txt", "old")]
                        [(".FileSync/a.txt", "old")] true true in
  sync_file "/" sample_md5 recorded_config "docs/a.txt" w
  = Ret tt (add_event (SshExec "md5sum .FileSync/a.txt")
              (add_event (Log WARNING (RemoteHashNotFound "docs/a.txt"))
                 (add_event (SshExec "md5sum .FileSync/a.txt") w))).
Proof. vm_compute. reflexivity. Qed.

(** The words of the probe: one name for a plain name, two for a name
    with a space, and none that the model can tell for a name with a
    shell metacharacter. *)
Example argv_plain_name :
  argv ("md5sum " +:+ remote_path "/" "docs/a.txt")
  = Some ["md5sum"; ".FileSync/a.txt"].
Proof. reflexivity. Qed.

Example argv_name_with_space :
  argv ("md5sum " +:+ remote_path "/" "docs/my file.txt")
  = Some ["md5sum"; ".FileSync/my"; "file.txt"].
Proof. reflexivity. Qed.

Example argv_name_with_semicolon :
  argv ("md5sum " +:+ remote_path "/" "x;rm -r .FileSync") = None.
Proof. reflexivity. Qed.

(** ** The [json] module: loading what was dumped *)

Lemma chars_text l : chars (text l) = l.
Proof. induction l as [|c l IH]; simpl; congruence. Qed.

Lemma scanstring_escape_char c tl :
  scanstring (escape_char c ++ tl) = cons_char c (scanstring tl).
Proof.
  destruct c as [[] [] [] [] [] [] [] []]; reflexivity.
Qed.

Lemma scanstring_escape s rest :
  scanstring (escape s ++ quote :: rest) = Parsed (s, rest).
Proof.
  induction s as [|c s IH]; simpl.
  - reflexivity.
  - rewrite <- app_assoc, scanstring_escape_char, IH. reflexivity.
Qed.

Lemma scan_digits_uint u rest :
  starts_with_digit rest = false ->
  scan_digits (uint_chars u ++ rest) = (u, rest).
Proof.
  intros H. induction u; simpl; try (rewrite IHu; reflexivity).
  destruct rest as [|c r]; simpl in *; [reflexivity|]. rewrite H. reflexivity.
Qed.

Lemma to_uint_head p u : Pos.to_uint p <> Decimal.D0 u.
Proof.
  intros E.
  assert (N : Decimal.unorm (Pos.to_uint p) = Pos.to_uint p).
  { rewrite <- (DecimalPos.Unsigned.to_of (Pos.to_uint p)).
    rewrite DecimalPos.Unsigned.of_to. reflexivity. }
  assert (Z : Decimal.nzhead (Pos.to_uint p) <> Decimal.Nil).
  { intros Hn. apply unorm_0 in Hn. rewrite N in Hn.
    exact (DecimalPos.Unsigned.to_uint_nonzero p Hn). }
  rewrite (unorm_nzhead _ Z) in N.
  apply (nzhead_nonzero (Pos.to_uint p) u). congruence.
Qed.

Lemma scan_natural_to_uint n rest :
  starts_with_digit rest = false ->
  scan_natural (uint_chars (N.to_uint n) ++ rest) = Some (n, rest).
Proof.
  intros H. destruct n as [|p].
  - reflexivity.
  - change (N.to_uint (N.pos p)) with (Pos.to_uint p).
    pose proof (to_uint_head p) as Hh.
    pose proof (DecimalPos.Unsigned.to_uint_nonnil p) as Hn.
    pose proof (scan_digits_uint (Pos.to_uint p) rest H) as Hs.
    pose proof (DecimalPos.Unsigned.of_to p) as Hv.
    destruct (Pos.to_uint p) as [|u|u|u|u|u|u|u|u|u|u];
      try congruence; try (exfalso; eapply Hh; reflexivity);
      unfold scan_natural;
      cbn [uint_chars app]; 
      match goal with |- context [Ascii.eqb ?a ?b] => change (Ascii.eqb a b) with false end;
      match goal with |- context [is_decimal ?a] => change (is_decimal a) with true end;
      cbv iota; cbn [uint_chars app] in Hs; rewrite Hs;
      unfold N.of_uint; rewrite Hv; reflexivity.
Qed.

Lemma dumps_list l : dumps_chars (VList l) = "["%char :: dumps_items l ++ ["]"%char].
Proof. reflexivity. Qed.

Lemma dumps_dict d : dumps_chars (VDict d) = "{"%char :: dumps_members d ++ ["}"%char].
Proof. reflexivity. Qed.

Lemma valid_list l : valid (VList l) = valid_items l.
Proof. induction l as [|x l IH]; simpl in *; [reflexivity|]. rewrite IH. reflexivity. Qed.

Lemma valid_dict d : valid (VDict d) = distinct (map fst d) && valid_members d.
Proof.
  simpl. f_equal. induction d as [|[k x] d IH]; simpl in *; [reflexivity|].
  rewrite IH. reflexivity.
Qed.

Lemma weight_list l : weight (VList l) = S (weight_items l).
Proof. reflexivity. Qed.

Lemma weight_dict d : weight (VDict d) = S (weight_members d).
Proof. reflexivity. Qed.

Lemma uint_chars_head n :
  exists c r, uint_chars (N.to_uint n) = c :: r /\ is_decimal c = true.
Proof.
  destruct n as [|p]; [eexists _, _; split; reflexivity|].
  change (N.to_uint (N.pos p)) with (Pos.to_uint p).
  pose proof (DecimalPos.Unsigned.to_uint_nonnil p) as Hn.
  destruct (Pos.to_uint p); try congruence;
    eexists _, _; split; reflexivity.
Qed.

Lemma decimal_not_special c :
  is_decimal c = true ->
  is_json_space c = false /\ Ascii.eqb c "-" = false /\
  Ascii.eqb c "]" = false /\ Ascii.eqb c quote = false /\
  Ascii.eqb c "{" = false /\ Ascii.eqb c "[" = false /\
  Ascii.eqb c "n" = false /\ Ascii.eqb c "t" = false /\ Ascii.eqb c "f" = false.
Proof.
  destruct c as [[] [] [] [] [] [] [] []]; cbv; intros; try discriminate; repeat split.
Qed.

Lemma delimited_tail rest :
  delimited rest = true ->
  starts_with_digit rest = false /\ float_tail rest = false /\ skip_ws rest = rest.
Proof.
  destruct rest as [|c r]; [repeat split|].
  unfold delimited. intros H.
  destruct (Ascii.eqb_spec c ",") as [->|]; [repeat split|].
  destruct (Ascii.eqb_spec c "]") as [->|]; [repeat split|].
  destruct (Ascii.eqb_spec c "}") as [->|]; [repeat split|].
  discriminate.
Qed.

Lemma scan_number_int z rest :
  delimited rest = true ->
  scan_number (dumps_int z ++ rest) = Parsed (VInt z, rest).
Proof.
  intros Hd. destruct (delimited_tail rest Hd) as (Hs & Hf & _).
  unfold dumps_int, scan_number.
  destruct (Z.ltb_spec z 0) as [Hz|Hz].
  - cbn [app]. change (Ascii.eqb "-" "-") with true. cbv iota.
    rewrite scan_natural_to_uint by exact Hs. rewrite Hf.
    rewrite N2Z.inj_abs_N. replace (- Z.abs z) with z by lia. reflexivity.
  - pose proof (scan_natural_to_uint (Z.abs_N z) rest Hs) as Hn.
    destruct (uint_chars_head (Z.abs_N z)) as (c & r & E & Hc).
    rewrite E in *. cbn [app] in *.
    destruct (decimal_not_special c Hc) as (_ & -> & _).
    rewrite Hn, Hf. rewrite N2Z.inj_abs_N. replace (Z.abs z) with z by lia. reflexivity.
Qed.

Lemma scan_value_number fuel c r :
  is_decimal c || Ascii.eqb c "-" = true ->
  scan_value (S fuel) (c :: r) = scan_number (c :: r).
Proof.
  destruct c as [[] [] [] [] [] [] [] []]; cbv [is_decimal ord N_of_ascii N_of_digits N.leb N.compare Pos.compare Pos.compare_cont N.add N.mul andb orb Ascii.eqb Bool.eqb Pos.add Pos.mul Pos.succ];
    intros H; try discriminate H; reflexivity.
Qed.

Lemma dumps_head v :
  exists c r, dumps_chars v = c :: r /\
              is_json_space c = false /\ Ascii.eqb c "]" = false.
Proof.
  destruct v as [|[]|z|s|l|d]; try (eexists _, _; repeat split; reflexivity).
  unfold dumps_chars, dumps_int.
  destruct (z <? 0); [eexists _, _; repeat split; reflexivity|].
  destruct (uint_chars_head (Z.abs_N z)) as (c & r & E & Hc).
  exists c, r. destruct (decimal_not_special c Hc) as (? & ? & ? & _). auto.
Qed.

Lemma skip_ws_dumps v rest : skip_ws (dumps_chars v ++ rest) = dumps_chars v ++ rest.
Proof.
  destruct (dumps_head v) as (c & r & E & Hs & _). rewrite E. simpl. rewrite Hs. reflexivity.
Qed.

Lemma dumps_items_head x l :
  exists c r, dumps_items (x :: l) = c :: r /\
              is_json_space c = false /\ Ascii.eqb c "]" = false.
Proof.
  destruct (dumps_head x) as (c & r & E & Hs & Hb).
  destruct l as [|y l].
  - exists c, r. auto.
  - exists c, (r ++ chars ", " ++ dumps_items (y :: l)).
    split; [|auto]. cbn [dumps_items]. rewrite E. reflexivity.
Qed.

Lemma dict_set_fresh k v d :
  existsb (String.eqb k) (map fst d) = false -> dict_set k v d = d ++ [(k, v)].
Proof.
  induction d as [|[k' v'] d IH]; simpl; [reflexivity|].
  intros H. apply orb_false_elim in H as [H1 H2]. rewrite H1, IH by exact H2.
  reflexivity.
Qed.

Lemma dict_of_pairs_distinct d : distinct (map fst d) = true -> dict_of_pairs d = d.
Proof.
  unfold dict_of_pairs.
  enough (G : forall acc, distinct (map fst (acc ++ d)) = true ->
                          fold_left (fun d p => dict_set (fst p) (snd p) d) d acc = acc ++ d).
  { intros H. apply (G []). exact H. }
  induction d as [|[k v] d IH]; intros acc H; simpl.
  - rewrite app_nil_r. reflexivity.
  - rewrite dict_set_fresh.
    + rewrite IH; rewrite <- app_assoc; [reflexivity | exact H].
    + clear IH. induction acc as [|[k' v'] acc IHa]; simpl in *.
      * reflexivity.
      * apply andb_prop in H as [H1 H2]. rewrite IHa by exact H2.
        rewrite orb_false_r.
        rewrite map_app, existsb_app in H1. simpl in H1.
        apply negb_true_iff in H1.
        apply orb_false_elim in H1 as [_ H1]. apply orb_false_elim in H1 as [H1 _].
        rewrite String.eqb_sym. exact H1.
Qed.

Lemma weight_pos v : (1 <= weight v)%nat.
Proof. destruct v; simpl; lia. Qed.

Lemma skip_ws_items x l rest :
  skip_ws (dumps_items (x :: l) ++ rest) = dumps_items (x :: l) ++ rest.
Proof.
  destruct (dumps_items_head x l) as (c & r & E & Hs & _).
  rewrite E. simpl. rewrite Hs. reflexivity.
Qed.

Lemma dumps_members_head k x d :
  exists r, dumps_members ((k, x) :: d) = quote :: r.
Proof. destruct d as [|[k' x'] d]; eexists; reflexivity. Qed.

Lemma skip_ws_members p d rest :
  skip_ws (dumps_members (p :: d) ++ rest) = dumps_members (p :: d) ++ rest.
Proof.
  destruct p as [k x]. destruct (dumps_members_head k x d) as (r & E).
  rewrite E. reflexivity.
Qed.

Lemma scan_roundtrip fuel :
  (forall v rest, valid v = true -> (weight v <= fuel)%nat -> delimited rest = true ->
     scan_value fuel (dumps_chars v ++ rest) = Parsed (v, rest)) /\
  (forall x l rest, valid_items (x :: l) = true ->
     (weight_items (x :: l) <= fuel)%nat ->
     scan_array fuel (dumps_items (x :: l) ++ "]"%char :: rest)
     = Parsed (x :: l, rest)) /\
  (forall p d rest, valid_members (p :: d) = true ->
     (weight_members (p :: d) <= fuel)%nat ->
     scan_members fuel (dumps_members (p :: d) ++ "}"%char :: rest)
     = Parsed (p :: d, rest)).
Proof.
  induction fuel as [|fuel (IHv & IHa & IHm)].
  { repeat split.
    - intros v rest _ H. pose proof (weight_pos v). lia.
    - intros x l rest _ H. simpl in H. lia.
    - intros [k x] d rest _ H. simpl in H. lia. }
  repeat split.
  - intros v rest Hv Hw Hd. destruct v as [|[]|z|s|l|d].
    + reflexivity.
    + reflexivity.
    + reflexivity.
    + cbn [dumps_chars].
      destruct (uint_chars_head (Z.abs_N z)) as (c & r & E & Hc).
      assert (Hh : exists c r, dumps_int z ++ rest = c :: r /\
                               is_decimal c || Ascii.eqb c "-" = true).
      { unfold dumps_int. destruct (z <? 0).
        - eexists _, _. split; reflexivity.
        - rewrite E. exists c, (r ++ rest). rewrite Hc. split; reflexivity. }
      destruct Hh as (c' & r' & E' & Hc').
      rewrite <- (scan_number_int z rest Hd). rewrite E'.
      apply scan_value_number. exact Hc'.
    + cbn [dumps_chars]. unfold dumps_str. cbn [app].
      rewrite <- app_assoc. cbn [app].
      cbn [scan_value]. change (Ascii.eqb quote quote) with true. cbv iota.
      rewrite scanstring_escape. reflexivity.
    + rewrite dumps_list. cbn [app]. rewrite <- app_assoc. cbn [app].
      destruct l as [|x l]; [reflexivity|].
      rewrite valid_list in Hv. rewrite weight_list in Hw.
      cbn [scan_value].
      change (Ascii.eqb "[" quote) with false.
      change (Ascii.eqb "[" "{") with false.
      change (Ascii.eqb "[" "[") with true. cbv iota.
      rewrite skip_ws_items.
      specialize (IHa x l rest Hv ltac:(lia)).
      destruct (dumps_items_head x l) as (c & r & E & _ & Hb).
      rewrite E in *. cbn [app] in *. rewrite Hb, IHa. reflexivity.
    + rewrite dumps_dict. cbn [app]. rewrite <- app_assoc. cbn [app].
      destruct d as [|[k x] d]; [reflexivity|].
      rewrite valid_dict in Hv. apply andb_prop in Hv as [Hk Hv].
      rewrite weight_dict in Hw.
      cbn [scan_value].
      change (Ascii.eqb "{" quote) with false.
      change (Ascii.eqb "{" "{") with true. cbv iota.
      specialize (IHm (k, x) d rest Hv ltac:(lia)).
      destruct (dumps_members_head k x d) as (r & E).
      rewrite E in *. cbn [app] in *.
      change (skip_ws (quote :: r ++ "}"%char :: rest)) with (quote :: r ++ "}"%char :: rest).
      cbv iota.
      change (Ascii.eqb quote "}") with false.
      change (Ascii.eqb quote quote) with true. cbv iota.
      rewrite IHm. cbn [parsed_bind].
      rewrite dict_of_pairs_distinct by exact Hk. reflexivity.
  - intros x l rest Hv Hw.
    cbn [valid_items forallb] in Hv. apply andb_prop in Hv as [Hx Hl].
    cbn [weight_items] in Hw. cbn [scan_array].
    destruct l as [|y l].
    + cbn [dumps_items]. rewrite IHv by first [exact Hx | lia | reflexivity]. reflexivity.
    + change (dumps_items (x :: y :: l))
        with (dumps_chars x ++ chars ", " ++ dumps_items (y :: l)).
      rewrite <- !app_assoc. cbn [chars app].
      rewrite IHv by first [exact Hx | lia | reflexivity]. cbn [parsed_bind].
      change (skip_ws (","%char :: " "%char :: ?t)) with (","%char :: " "%char :: t).
      cbv iota. change (Ascii.eqb "," "]") with false.
      change (Ascii.eqb "," ",") with true. cbv iota.
      change (skip_ws (" "%char :: ?t)) with (skip_ws t).
      rewrite skip_ws_items. rewrite (IHa y l rest Hl ltac:(lia)). reflexivity.
  - intros [k x] d rest Hv Hw.
    cbn [valid_members forallb snd] in Hv. apply andb_prop in Hv as [Hx Hd].
    cbn [weight_members] in Hw. cbn [scan_members].
    destruct d as [|[k' y] d].
    + cbn [dumps_members]. unfold dumps_str. cbn [app].
      rewrite <- !app_assoc. cbn [chars app].
      change (Ascii.eqb quote quote) with true. cbv iota.
      rewrite scanstring_escape. cbn [parsed_bind].
      change (skip_ws (":"%char :: " "%char :: ?t)) with (":"%char :: " "%char :: t).
      cbv iota. change (Ascii.eqb ":" ":") with true. cbv iota.
      change (skip_ws (" "%char :: ?t)) with (skip_ws t).
      rewrite skip_ws_dumps.
      rewrite IHv by first [exact Hx | lia | reflexivity]. reflexivity.
    + change (dumps_members ((k, x) :: (k', y) :: d))
        with (dumps_str k ++ chars ": " ++ dumps_chars x ++ chars ", "
              ++ dumps_members ((k', y) :: d)).
      unfold dumps_str at 1. cbn [app].
      rewrite <- !app_assoc. cbn [chars app].
      change (Ascii.eqb quote quote) with true. cbv iota.
      rewrite scanstring_escape. cbn [parsed_bind].
      change (skip_ws (":"%char :: " "%char :: ?t)) with (":"%char :: " "%char :: t).
      cbv iota. change (Ascii.eqb ":" ":") with true. cbv iota.
      change (skip_ws (" "%char :: ?t)) with (skip_ws t).
      rewrite skip_ws_dumps.
      rewrite IHv by first [exact Hx | lia | reflexivity]. cbn [parsed_bind].
      change (skip_ws (","%char :: " "%char :: ?t)) with (","%char :: " "%char :: t).
      cbv iota. change (Ascii.eqb "," "}") with false.
      change (Ascii.eqb "," ",") with true. cbv iota.
      change (skip_ws (" "%char :: ?t)) with (skip_ws t).
      rewrite skip_ws_members.
      rewrite (IHm (k', y) d rest Hd ltac:(lia)). reflexivity.
Qed.

Lemma length_dumps v : (weight v <= List.length (dumps_chars v))%nat.
Proof.
  revert v. fix IH 1. intros v. destruct v as [|[]|z|s|l|d]; try (simpl; lia).
  - simpl. destruct (dumps_head (VInt z)) as (c & r & E & _). simpl in E.
    rewrite E. simpl. lia.
  - rewrite dumps_list, weight_list. cbn [List.length]. rewrite length_app.
    cbn [List.length].
    enough (weight_items l <= List.length (dumps_items l) + 1)%nat by lia.
    induction l as [|x l IHl]; [simpl; lia|].
    pose proof (IH x). destruct l as [|y l].
    + simpl. lia.
    + change (dumps_items (x :: y :: l))
        with (dumps_chars x ++ chars ", " ++ dumps_items (y :: l)).
      rewrite !length_app. cbn [weight_items] in *. cbn [chars List.length]. lia.
  - rewrite dumps_dict, weight_dict. cbn [List.length]. rewrite length_app.
    cbn [List.length].
    enough (weight_members d <= List.length (dumps_members d) + 1)%nat by lia.
    induction d as [|[k x] d IHd]; [simpl; lia|].
    pose proof (IH x). destruct d as [|[k' y] d].
    + cbn [dumps_members weight_members]. rewrite !length_app. lia.
    + change (dumps_members ((k, x) :: (k', y) :: d))
        with (dumps_str k ++ chars ": " ++ dumps_chars x ++ chars ", "
              ++ dumps_members ((k', y) :: d)).
      rewrite !length_app. cbn [weight_members] in *. cbn [chars List.length]. lia.
Qed.

(** Loading what [json_dumps] wrote gives the value back. *)
Lemma loads_dumps v : valid v = true -> json_loads (json_dumps v) = Parsed v.
Proof.
  intros Hv. unfold json_loads, json_dumps. rewrite chars_text.
  rewrite <- (app_nil_r (dumps_chars v)) at 2. rewrite skip_ws_dumps.
  destruct (scan_roundtrip (S (2 * List.length (dumps_chars v)))) as (H & _).
  rewrite H; [reflexivity | exact Hv | | reflexivity].
  pose proof (length_dumps v). lia.
Qed.

(** ** Dictionaries, the monad and the methods *)

Lemma secure_compare_eqb h1 h2 : secure_compare h1 h2 = String.eqb h1 h2.
Proof.
  unfold secure_compare.
  destruct (String.length h1 =? String.length h2)%nat eqn:L; [reflexivity|].
  simpl. symmetry. apply String.eqb_neq. intros ->.
  rewrite Nat.eqb_refl in L. discriminate.
Qed.

(** *** Dictionaries *)

Lemma dict_get_set_eq k v d : dict_get k (dict_set k v d) = Some v.
Proof.
  induction d as [|[k' v'] d IH]; simpl.
  - rewrite String.eqb_refl. reflexivity.
  - destruct (String.eqb k k') eqn:E; simpl.
    + rewrite String.eqb_refl. reflexivity.
    + rewrite E. exact IH.
Qed.

Lemma dict_get_set_ne k k' v d :
  k <> k' -> dict_get k' (dict_set k v d) = dict_get k' d.
Proof.
  intros Hne. induction d as [|[k0 v0] d IH]; simpl.
  - apply String.eqb_neq in Hne. rewrite String.eqb_sym, Hne. reflexivity.
  - destruct (String.eqb k k0) eqn:E; simpl.
    + apply String.eqb_eq in E. subst k0.
      destruct (String.eqb k' k) eqn:E'; [|reflexivity].
      apply String.eqb_eq in E'. congruence.
    + rewrite IH. reflexivity.
Qed.

Lemma existsb_keys_set k0 k v d :
  existsb (String.eqb k0) (map fst (dict_set k v d))
  = existsb (String.eqb k0) (map fst d) || (String.eqb k0 k).
Proof.
  induction d as [|[k' v'] d IH]; simpl.
  - rewrite orb_false_r. reflexivity.
  - destruct (String.eqb k k') eqn:E; simpl.
    + apply String.eqb_eq in E. subst k'.
      destruct (String.eqb k0 k); simpl; [reflexivity|]. rewrite orb_false_r. reflexivity.
    + rewrite IH. rewrite orb_assoc. reflexivity.
Qed.

Lemma distinct_set k v d :
  distinct (map fst d) = true -> distinct (map fst (dict_set k v d)) = true.
Proof.
  induction d as [|[k' v'] d IH]; simpl; [reflexivity|].
  intros H. apply andb_prop in H as [H1 H2].
  destruct (String.eqb k k') eqn:E; simpl.
  - apply String.eqb_eq in E. subst k'. rewrite H1, H2. reflexivity.
  - rewrite existsb_keys_set, IH by exact H2.
    apply negb_true_iff in H1. rewrite H1. simpl.
    rewrite String.eqb_sym, E. reflexivity.
Qed.

Lemma valid_members_set k v d :
  valid v = true -> valid_members d = true -> valid_members (dict_set k v d) = true.
Proof.
  intros Hv. induction d as [|[k' v'] d IH]; simpl.
  - rewrite Hv. reflexivity.
  - intros H. apply andb_prop in H as [H1 H2].
    destruct (String.eqb k k'); simpl.
    + rewrite Hv. exact H2.
    + rewrite H1. apply IH. exact H2.
Qed.

Lemma valid_dict_set k v d :
  valid v = true -> valid (VDict d) = true -> valid (VDict (dict_set k v d)) = true.
Proof.
  rewrite !valid_dict. intros Hv H. apply andb_prop in H as [H1 H2].
  rewrite distinct_set by exact H1. rewrite valid_members_set; auto.
Qed.

(** *** The monad *)

Lemma store_ok_written w : store_ok w = true -> store_written w.
Proof.
  unfold store_ok, store_written.
  destruct (files w !! "config.json") as [doc|]; [|discriminate].
  destruct (json_loads doc) as [[| | | | |d]| |]; try discriminate.
  intros H. apply andb_prop in H as [H Hr]. apply andb_prop in H as [H Hl].
  apply andb_prop in H as [He Hv]. apply String.eqb_eq in He.
  exists d. rewrite <- He. auto.
Qed.

Lemma store_written_same_config w w' :
  files w' !! "config.json" = files w !! "config.json" -> store_written w -> store_written w'.
Proof. intros E (d & H & Hr). exists d. rewrite E. auto. Qed.

(** *** [updateConfig] on a digest field *)

Lemma updatable_set field field' v d :
  negb (truthy v) || is_dict v = true ->
  updatable d field' = true -> updatable (dict_set field v d) field' = true.
Proof.
  intros Hv H. unfold updatable in *.
  destruct (String.eqb_spec field field') as [->|Hne].
  - rewrite dict_get_set_eq. exact Hv.
  - rewrite dict_get_set_ne by exact Hne. exact H.
Qed.


Lemma updateConfig_digest field k h d w :
  files w !! "config.json" = Some (json_dumps (VDict d)) ->
  valid (VDict d) = true ->
  updatable d field = true ->
  updateConfig field (VDict [(k, VStr h)]) w
  = Ret true (set_files
                (<["config.json" :=
                    json_dumps (VDict (dict_set field
                                  (field_after field (VDict [(k, VStr h)]) d) d))]>
                   (files w)) w).
Proof.
  intros Hf Hv Hu. unfold updateConfig. run. rewrite Hf. run. rewrite Hf. run.
  rewrite loads_dumps by exact Hv.
  unfold updatable, field_after in *. cbn [py_contains py_getitem py_setitem].
  destruct (dict_get field d) as [current|] eqn:Hg.
  - run. cbn [is_dict]. rewrite andb_true_r.
    destruct (truthy current) eqn:Ht.
    + simpl in Hu. rewrite Hu. run. rewrite Hf. reflexivity.
    + run. rewrite Hf. reflexivity.
  - run. rewrite Hf. reflexivity.
Qed.

Lemma config_only_write doc w :
  config_only w (set_files (<["config.json" := doc]> (files w)) w).
Proof.
  repeat split; cbn [files set_files].
  - intros p Hp. apply lookup_insert_ne. congruence.
  - intros p Hp. destruct (decide ("config.json" = p)) as [<-|Hne].
    + rewrite lookup_insert_eq. eauto.
    + rewrite lookup_insert_ne by exact Hne. exact Hp.
Qed.

Lemma updateConfig_spec field k h w :
  store_written w -> field = "local_hashes" \/ field = "remote_hashes" ->
  returns (updateConfig field (VDict [(k, VStr h)])) w
    (fun _ w' => store_written w' /\ config_only w w' /\ trace w' = trace w).
Proof.
  intros (d & Hf & Hv & Hl & Hr) Hfield.
  assert (Hu : updatable d field = true) by (destruct Hfield; subst; assumption).
  eexists _, _. split; [apply (updateConfig_digest field k h d w Hf Hv Hu)|].
  assert (Hok : negb (truthy (field_after field (VDict [(k, VStr h)]) d))
                || is_dict (field_after field (VDict [(k, VStr h)]) d) = true).
  { unfold field_after. destruct (dict_get field d) as [c|]; [|reflexivity].
    destruct (truthy c); reflexivity. }
  split; [|split; [apply config_only_write | reflexivity]].
  eexists. split; [cbn [files set_files]; apply lookup_insert_eq|].
  split; [|split; apply updatable_set; assumption].
  apply valid_dict_set; [|exact Hv].
  unfold field_after. destruct (dict_get field d) as [c|]; [|reflexivity].
  destruct (truthy c); reflexivity.
Qed.

Lemma updateLocalHash_spec md5 file w :
  store_written w -> is_Some (files w !! file) ->
  returns (updateLocalHash md5 file) w
    (fun _ w' => store_written w' /\ config_only w w' /\ trace w' = trace w).
Proof.
  intros Hs [data Hd]. unfold returns, updateLocalHash, getMD5. run. rewrite Hd. run. rewrite Hd. run.
  destruct (updateConfig_spec "local_hashes" file (md5 data) w Hs (or_introl eq_refl))
    as (b & w' & E & H).
  rewrite E. eexists _, _. split; [reflexivity | exact H].
Qed.

Lemma store_written_event e w : store_written w -> store_written (add_event e w).
Proof. apply store_written_same_config. reflexivity. Qed.

Lemma config_only_event e w : config_only w (add_event e w).
Proof. repeat split; auto. Qed.

(** *** The remote probe

    Both reads deliver nothing, so neither method looks at what follows
    its two tests. *)

Lemma updateRemoteHash_run sep file w :
  updateRemoteHash sep file w
  = if ssh_up w then Ret VNone (probed sep file w) else Ret (VBool false) w.
Proof.
  unfold updateRemoteHash, getSSHClient, exec_close_read. run.
  destruct (ssh_up w); reflexivity.
Qed.

Lemma checkRemoteFile_run sep md5 config file w :
  checkRemoteFile sep md5 config file w
  = if ssh_up w then Ret VNone (probed sep file w) else Ret (VBool false) w.
Proof.
  unfold checkRemoteFile, getSSHClient, exec_close_read. run.
  destruct (ssh_up w); reflexivity.
Qed.

Lemma store_written_probed sep file w :
  store_written w -> store_written (probed sep file w).
Proof. apply store_written_same_config. reflexivity. Qed.

Lemma bind_Ret {A B} (m : M A) (k : A -> M B) w a w' :
  m w = Ret a w' -> bind m k w = k a w'.
Proof. intros E. unfold bind. rewrite E. reflexivity. Qed.

Lemma hashes_of_cases config field d :
  hashes_of config field = Some d ->
  py_getitem config field = inr (VDict d) \/
  (py_getitem config field = inr VNone /\ d = []).
Proof.
  unfold hashes_of. destruct (py_getitem config field) as [e|[]]; try discriminate.
  - intros [= <-]. auto.
  - intros [= <-]. auto.
Qed.

Lemma checkLocalFile_unrecorded md5 config file d w :
  hashes_of config "local_hashes" = Some d -> dict_get file d = None ->
  checkLocalFile md5 config file w = Ret false w.
Proof.
  intros Hh Hg. unfold checkLocalFile.
  cbv beta iota delta [bind ret lift raise os_path_exists].
  destruct (path_exists w file); [|reflexivity].
  destruct (hashes_of_cases _ _ _ Hh) as [E|[E _]]; rewrite E; run.
  - cbn [py_contains]. rewrite Hg. destruct d; reflexivity.
  - reflexivity.
Qed.

Lemma recorded_in_unrecorded config field file d w :
  hashes_of config field = Some d -> dict_get file d = None ->
  recorded_in config field file w = Ret false w.
Proof.
  intros Hh Hg. unfold recorded_in. run.
  destruct (hashes_of_cases _ _ _ Hh) as [E|[E _]]; rewrite E; run.
  - cbn [py_contains]. rewrite Hg. destruct d; reflexivity.
  - reflexivity.
Qed.

Lemma stored_local_dict config file v :
  stored_local config file = Some v ->
  exists d, py_getitem config "local_hashes" = inr (VDict d) /\
            dict_get file d = Some v /\ truthy (VDict d) = true.
Proof.
  unfold stored_local. destruct (hashes_of config "local_hashes") as [d|] eqn:Hh;
    [|discriminate].
  intros Hg. destruct (hashes_of_cases _ _ _ Hh) as [E|[E ->]]; [|discriminate].
  exists d. repeat split; try assumption. destruct d; [discriminate | reflexivity].
Qed.

Lemma checkLocalFile_changed md5 config file data h0 w :
  files w !! file = Some data ->
  stored_local config file = Some (VStr h0) ->
  md5 data <> h0 ->
  checkLocalFile md5 config file w = Ret false w.
Proof.
  intros Hf Hs Hne. destruct (stored_local_dict _ _ _ Hs) as (d & E & Hg & Ht).
  unfold checkLocalFile, getMD5. run. rewrite Hf. run. rewrite E. run. rewrite Ht.
  cbn [py_contains py_getitem]. rewrite Hg. run. rewrite Hf. run.
  rewrite ?Hg. run. rewrite ?Hf. run. rewrite ?Hg. run.
  cbn [secure_compare_value]. rewrite secure_compare_eqb.
  apply String.eqb_neq in Hne. rewrite Hne. reflexivity.
Qed.

Lemma recorded_in_recorded config file v w :
  stored_local config file = Some v ->
  recorded_in config "local_hashes" file w = Ret true w.
Proof.
  intros Hs. destruct (stored_local_dict _ _ _ Hs) as (d & E & Hg & Ht).
  unfold recorded_in. run. rewrite E. run. rewrite Ht.
  cbn [py_contains]. rewrite Hg. reflexivity.
Qed.

Lemma upload_spec sep file data w :
  files w !! file = Some data ->
  returns (upload sep file) w (fun _ w' =>
    files w' = files w /\ ssh_up w' = ssh_up w /\
    remote_writable w' = remote_writable w /\ remote_sh w' = remote_sh w /\
    trace w' = trace w ++
      (if ssh_up w then [ScpPut file (remote_path sep file)] else []) /\
    remote_files w' =
      (if ssh_up w && remote_writable w
       then <[remote_path sep file := data]> (remote_files w)
       else remote_files w)).
Proof.
  intros Hf. unfold returns, upload, getSCPClient, getSSHClient, scp_put. run.
  destruct (ssh_up w) eqn:Hup; run.
  - cbn [files add_event]. rewrite Hf. cbn [remote_writable add_event].
    destruct (remote_writable w) eqn:Hw; run;
      eexists _, _; (split; [reflexivity|]); cbn; rewrite ?Hup, ?Hw; auto 10.
  - eexists _, _. split; [reflexivity|]. rewrite app_nil_r. auto 10.
Qed.

(** Lines 505-508 and 515-518: the upload, the two digest updates and
    the closing message. *)
Lemma upload_block_spec sep md5 file data w :
  store_written w -> files w !! file = Some data ->
  returns (upload sep file >> updateLocalHash md5 file >>
           updateRemoteHash sep file >> log INFO (RemoteCopyUpdated file)) w
    (fun _ w' =>
       store_written w' /\
       trace w' = trace w ++
         (if ssh_up w
          then [ScpPut file (remote_path sep file);
                SshExec ("md5sum " +:+ remote_path sep file)]
          else []) ++ [Log INFO (RemoteCopyUpdated file)] /\
       remote_files w' =
         (if ssh_up w
          then sh_effect (remote_sh w) (probe_line sep file)
                 (if remote_writable w
                  then <[remote_path sep file := data]> (remote_files w)
                  else remote_files w)
          else remote_files w) /\
       (forall p, p <> "config.json" -> files w' !! p = files w !! p) /\
       (forall p, is_Some (files w !! p) -> is_Some (files w' !! p)) /\
       ssh_up w' = ssh_up w).
Proof.
  intros Hs Hf.
  destruct (upload_spec sep file data w Hf)
    as (b1 & w1 & E1 & F1 & U1 & W1 & S1 & T1 & R1).
  assert (Hs1 : store_written w1) by (apply (store_written_same_config w); [rewrite F1|]; auto).
  destruct (updateLocalHash_spec md5 file w1 Hs1) as (b2 & w2 & E2 & Hs2 & C2 & T2).
  { rewrite F1, Hf. eauto. }
  destruct C2 as (A2 & B2 & R2 & U2 & W2 & _ & _ & S2).
  unfold returns.
  rewrite (bind_Ret _ _ _ _ _ E1), (bind_Ret _ _ _ _ _ E2).
  rewrite (bind_Ret _ _ w2 (if ssh_up w2 then VNone else VBool false)
             (if ssh_up w2 then probed sep file w2 else w2))
    by (rewrite updateRemoteHash_run; destruct (ssh_up w2); reflexivity).
  eexists _, _. split; [reflexivity|].
  rewrite U2, U1. unfold probed.
  destruct (ssh_up w) eqn:Hup;
    cbn [trace remote_files files ssh_up add_event set_remote_files andb] in *.
  - split; [apply store_written_event, store_written_probed, Hs2|].
    rewrite T2, T1, R2, R1, S2, S1. rewrite <- !app_assoc.
    split; [reflexivity|]. split; [reflexivity|]. split; [|split].
    + intros p Hp. rewrite A2, F1 by exact Hp. reflexivity.
    + intros p Hp. apply B2. rewrite F1. exact Hp.
    + congruence.
  - split; [apply store_written_event, Hs2|].
    rewrite T2, T1, R2, R1. rewrite <- !app_assoc.
    split; [reflexivity|]. split; [reflexivity|]. split; [|split].
    + intros p Hp. rewrite A2, F1 by exact Hp. reflexivity.
    + intros p Hp. apply B2. rewrite F1. exact Hp.
    + congruence.
Qed.


(** *** The first run and the next start *)

Lemma bind_Ret_inv {A B} (m : M A) (k : A -> M B) w b w' :
  bind m k w = Ret b w' -> exists a w1, m w = Ret a w1 /\ k a w1 = Ret b w'.
Proof. unfold bind. destruct (m w); intros H; try discriminate H; eauto. Qed.

Lemma valid_strings fs : valid (VList (map VStr fs)) = true.
Proof. rewrite valid_list. induction fs; simpl; auto. Qed.

Lemma hash_files_valid md5 fs acc w lh w' :
  hash_files md5 fs acc w = Ret lh w' ->
  valid (VDict acc) = true -> valid (VDict lh) = true.
Proof.
  revert acc w. induction fs as [|f fs IH]; intros acc w H Hv.
  - injection H as <- _. exact Hv.
  - cbn [hash_files] in H. apply bind_Ret_inv in H as (h & w1 & _ & H).
    apply (IH _ _ H). apply valid_dict_set; [reflexivity | exact Hv].
Qed.

Lemma write_file_Ret path data w u w' :
  write_file path data w = Ret u w' ->
  w' = set_files (<[path := data]> (files w)) w.
Proof.
  unfold write_file. destruct (files w !! path).
  - intros [= _ <-]. reflexivity.
  - destruct (is_dir w path); [discriminate|].
    destruct (creatable w path); [|discriminate]. intros [= _ <-]. reflexivity.
Qed.

(** X23: Whatever configuration the first run of initConfig builds and saves,
    the next start loads exactly that configuration from config.json. *)
Lemma first_run_then_restart md5 w config w' :
  files w !! "config.json" = None ->
  initConfig md5 w = Ret config w' ->
  initConfig md5 w' = Ret config w'.
Proof.
  intros Hnone H. unfold initConfig in H.
  apply bind_Ret_inv in H as (present & w1 & E & H).
  unfold os_path_exists in E. injection E as <- <-.
  destruct (path_exists w "config.json") eqn:Hex.
  { exfalso. unfold path_exists in Hex. rewrite Hnone in Hex.
    apply bind_Ret_inv in H as (data & w2 & E & _).
    unfold or_exit, read_file in E. rewrite Hnone in E. discriminate E. }
  apply bind_Ret_inv in H as (hostname & w2 & _ & H).
  apply bind_Ret_inv in H as (port & w3 & _ & H).
  apply bind_Ret_inv in H as (name & w4 & _ & H).
  apply bind_Ret_inv in H as (username & w5 & Hu & H).
  apply bind_Ret_inv in H as (password & w6 & _ & H).
  apply bind_Ret_inv in H as (local_files & w7 & _ & H).
  apply bind_Ret_inv in H as (local_hashes & w8 & Hh & H).
  unfold save_config in H. apply bind_Ret_inv in H as (u & w9 & Hw & H).
  injection H as <- <-.
  assert (Hw' : exists u', write_file "config.json"
            (json_dumps (VDict
               (dict_set "local_hashes" (VDict local_hashes)
                  (dict_set "local_files" (VList (map VStr local_files))
                     (dict_set "password" (VStr password)
                        (dict_set "username" username
                           (match port with
                            | Some n => dict_set "port" (VInt n)
                                          (dict_set "hostname" (VStr hostname) CONFIG_TEMPLATE)
                            | None => dict_set "hostname" (VStr hostname) CONFIG_TEMPLATE
                            end))))))) w8 = Ret u' w9).
  { unfold or_exit in Hw. destruct (write_file _ _ w8); try discriminate Hw.
    injection Hw as <- <-. eauto. }
  destruct Hw' as (u' & Hw'). apply write_file_Ret in Hw'. subst w9.
  assert (Hname : valid username = true).
  { destruct (nonempty name).
    - injection Hu as <- _. reflexivity.
    - injection Hu as <- _. destruct (env_username w4); reflexivity. }
  apply hash_files_valid in Hh; [|reflexivity].
  unfold initConfig. run. cbn [files set_files]. rewrite lookup_insert_eq. run.
  cbn [files set_files]. rewrite ?lookup_insert_eq. run.
  rewrite loads_dumps; [reflexivity|].
  repeat (apply valid_dict_set; [first [exact Hh | exact Hname | apply valid_strings
                                       | destruct port; reflexivity | reflexivity]|]).
  destruct port; reflexivity.
Qed.

(** *** The words of the probe *)

Lemma all_chars_app p a b :
  all_chars p (a +:+ b) = all_chars p a && all_chars p b.
Proof.
  induction a as [|c a IH]; [reflexivity|].
  change (String c a +:+ b) with (String c (a +:+ b)).
  cbn [all_chars]. rewrite IH. apply andb_assoc.
Qed.

Lemma all_chars_weaken (p q : ascii -> bool) s :
  (forall c, p c = true -> q c = true) ->
  all_chars p s = true -> all_chars q s = true.
Proof.
  intros Hpq. induction s as [|c s IH]; [reflexivity|].
  cbn [all_chars]. intros H. apply andb_prop in H as [Hc Hs].
  rewrite (Hpq c Hc), (IH Hs). reflexivity.
Qed.

Lemma plain_not_blank c : is_plain c = true -> Ascii.eqb c " " = false.
Proof. destruct c as [[] [] [] [] [] [] [] []]; vm_compute; congruence. Qed.

Lemma split_on_whole sep s :
  all_chars (fun c => negb (Ascii.eqb c sep)) s = true -> split_on sep s = [s].
Proof.
  induction s as [|c s IH]; [reflexivity|].
  cbn [all_chars split_on]. intros H. apply andb_prop in H as [Hc Hs].
  apply negb_true_iff in Hc. rewrite Hc, (IH Hs). reflexivity.
Qed.

Lemma split_on_two sep a b :
  all_chars (fun c => negb (Ascii.eqb c sep)) a = true ->
  all_chars (fun c => negb (Ascii.eqb c sep)) b = true ->
  split_on sep (a +:+ String sep b) = [a; b].
Proof.
  intros Ha Hb. induction a as [|c a IH].
  - change (EmptyString +:+ String sep b) with (String sep b).
    cbn [split_on]. rewrite Ascii.eqb_refl, (split_on_whole _ _ Hb). reflexivity.
  - change (String c a +:+ String sep b) with (String c (a +:+ String sep b)).
    cbn [all_chars] in Ha. apply andb_prop in Ha as [Hc Ha].
    apply negb_true_iff in Hc.
    cbn [split_on]. rewrite Hc, (IH Ha). reflexivity.
Qed.

Lemma argv_probe sep file :
  plain_name sep file = true ->
  argv (probe_line sep file) = Some ["md5sum"; remote_path sep file].
Proof.
  unfold plain_name. intros Hp.
  assert (Hr : all_chars is_plain (remote_path sep file) = true).
  { change (remote_path sep file) with (".FileSync/" +:+ last_component sep file).
    rewrite all_chars_app, Hp. reflexivity. }
  assert (Hn : all_chars (fun c => negb (Ascii.eqb c " ")) (remote_path sep file) = true).
  { revert Hr. apply all_chars_weaken. intros c Hc.
    rewrite (plain_not_blank c Hc). reflexivity. }
  unfold argv, probe_line.
  change ("md5sum " +:+ remote_path sep file)
    with ("md5sum" +:+ String " " (remote_path sep file)).
  rewrite all_chars_app. cbn [all_chars].
  rewrite (all_chars_weaken is_plain (fun c => is_plain c || is_blank c) _
             (fun c H => eq_trans (f_equal (fun b => b || is_blank c) H) eq_refl) Hr).
  replace (all_chars (fun c => is_plain c || is_blank c) "md5sum") with true
    by reflexivity.
  cbn [andb orb]. replace (is_plain " " || is_blank " ") with true by reflexivity.
  cbn [andb]. rewrite (split_on_two " " "md5sum" _ eq_refl Hn).
  reflexivity.
Qed.

Lemma sh_effect_plain sh sep file remote :
  plain_name sep file = true -> sh_effect sh (probe_line sep file) remote = remote.
Proof. intros Hp. unfold sh_effect. rewrite (argv_probe _ _ Hp). reflexivity. Qed.

(** ** The properties of the specification *)

(** C5: [secure_compare h1 h2] is [True] exactly when [h1] and [h2] are the
    same string; the length test that runs first changes nothing, so the
    function is extensionally the plain string equality [h1 == h2]. *)
Theorem secure_compare_is_equality (h1 h2 : string) :
  (secure_compare h1 h2 = true <-> h1 = h2) /\
  secure_compare h1 h2 = String.eqb h1 h2.
Proof.
  split; [|apply secure_compare_eqb].
  rewrite secure_compare_eqb. apply String.eqb_eq.
Qed.

(** C6: for every valid state, saving it (lines 128-136 of [initConfig])
    and then loading it (lines 81-95 of [initConfig], at the next start)
    returns exactly that state; [config.json] holds its JSON print.  Where
    [config.json] cannot be written the save ends the process (lines
    131-133) and nothing is loaded. *)
Theorem saved_state_loads_back md5 (state : value) (w : world) :
  valid state = true ->
  (save_config state >> initConfig md5) w
  = if can_write w "config.json"
    then Ret state (set_files (<["config.json" := json_dumps state]> (files w)) w)
    else Exit 1 w.
Proof.
  intros Hv. unfold save_config, initConfig, can_write. run.
  destruct (files w !! "config.json") as [old|] eqn:Hf.
  - cbn [files set_files]. rewrite lookup_insert_eq. run.
    cbn [files set_files]. rewrite ?lookup_insert_eq. run.
    rewrite loads_dumps by exact Hv. reflexivity.
  - destruct (is_dir w "config.json"); [reflexivity|].
    destruct (creatable w "config.json"); [|reflexivity].
    cbn [negb andb]. run.
    cbn [files set_files]. rewrite lookup_insert_eq. run.
    cbn [files set_files]. rewrite ?lookup_insert_eq. run.
    rewrite loads_dumps by exact Hv. reflexivity.
Qed.

Lemma saved_state_loads_back_witness :
  valid recorded_config = true /\
  (save_config recorded_config >> initConfig sample_md5) fresh_world
  = Ret recorded_config
        (set_files (<["config.json" := json_dumps recorded_config]>
                      (files fresh_world)) fresh_world).
Proof.
  split; [reflexivity|].
  exact (saved_state_loads_back sample_md5 recorded_config fresh_world eq_refl).
Defined.

(** C7, amended: a [config.json] that does not parse is fatal (exit code
    1) when [initConfig] loads it at startup, and it is just as fatal
    while the loop runs: [updateConfig], which every digest update goes
    through, reads the file again and exits with code 1. *)
Theorem corrupt_state_is_fatal md5 (w : world) (doc : string) :
  files w !! "config.json" = Some doc ->
  json_loads doc = DecodeError ->
  initConfig md5 w = Exit 1 w /\
  (forall key val, updateConfig key val w = Exit 1 w) /\
  (forall file, is_Some (files w !! file) -> updateLocalHash md5 file w = Exit 1 w).
Proof.
  intros Hf Hd. repeat split.
  - unfold initConfig. run. rewrite Hf. run. rewrite Hf. run. rewrite Hd. reflexivity.
  - intros key val. unfold updateConfig. run. rewrite Hf. run. rewrite Hf. run.
    rewrite Hd. reflexivity.
  - intros file [data Hfile]. unfold updateLocalHash, getMD5, updateConfig. run.
    rewrite Hfile. run. rewrite Hfile. run. rewrite Hf. run. rewrite Hf. run.
    rewrite Hd. reflexivity.
Qed.

Lemma corrupt_state_is_fatal_witness :
  initConfig sample_md5 corrupt_world = Exit 1 corrupt_world /\
  (forall key val, updateConfig key val corrupt_world = Exit 1 corrupt_world) /\
  (forall file, is_Some (files corrupt_world !! file) ->
                updateLocalHash sample_md5 file corrupt_world = Exit 1 corrupt_world).
Proof.
  apply (corrupt_state_is_fatal sample_md5 corrupt_world "{"); reflexivity.
Defined.

(** C7 as stated fails: with an unparsable [config.json], a pass of the
    loop over a changed file ends the process with exit code 1. *)
Lemma parse_failure_in_loop_is_fatal :
  ~ (forall sep md5 config file w doc,
       files w !! "config.json" = Some doc ->
       json_loads doc = DecodeError ->
       forall code w', sync_file sep md5 config file w <> Exit code w').
Proof.
  intros H.
  apply (H "/"%char sample_md5 recorded_config "docs/a.txt" corrupt_world "{"
           eq_refl eq_refl 1
           (final_world (sync_file "/" sample_md5 recorded_config "docs/a.txt"
                           corrupt_world))).
  vm_compute. reflexivity.
Qed.

(** C8: a tracked file that is absent locally and absent on the remote
    host is reported (the error message of line 549) and skipped: the
    pass returns, no file changes on either side, and the digests stored
    in [config.json] are the same as before. *)
Theorem missing_on_both_sides_is_skipped sep md5 config file w :
  path_exists w file = false ->
  remote_files w !! remote_path sep file = None ->
  returns (sync_file sep md5 config file) w (fun _ w' =>
    trace w' = trace w ++ [Log INFO (LocalCopyNotFound file)] ++
      (if ssh_up w then [ScpGet (remote_path sep file) file] else []) ++
      [Log ERROR (NotFoundRemoteAndLocal file)] /\
    files w' = files w /\ remote_files w' = remote_files w /\
    persisted w' = persisted w).
Proof.
  intros Hl Hr.
  unfold returns, sync_file, download, getSCPClient, getSSHClient, scp_get.
  cbv beta iota delta [bind ret lift raise sys_exit beyond os_path_exists emit log].
  rewrite Hl. cbn [ssh_up add_event].
  destruct (ssh_up w); cbv beta iota.
  - cbn [remote_files add_event]. rewrite Hr.
    eexists _, _. split; [reflexivity|]. cbn. rewrite <- !app_assoc. auto.
  - eexists _, _. split; [reflexivity|]. cbn. rewrite <- !app_assoc. auto.
Qed.

Lemma missing_on_both_sides_is_skipped_witness :
  returns (sync_file "/" sample_md5 recorded_config "b.txt") double_change_world
    (fun _ w' =>
       trace w' = [Log INFO (LocalCopyNotFound "b.txt");
                   ScpGet ".FileSync/b.txt" "b.txt";
                   Log ERROR (NotFoundRemoteAndLocal "b.txt")] /\
       files w' = files double_change_world /\
       remote_files w' = remote_files double_change_world /\
       persisted w' = persisted double_change_world).
Proof.
  apply (missing_on_both_sides_is_skipped "/" sample_md5 recorded_config "b.txt"
           double_change_world); reflexivity.
Defined.

(** C1 as stated fails: both copies of [docs/a.txt] have changed since the
    recorded digests and differ from each other, and the pass uploads the
    local copy over the remote one. *)
Lemma double_change_is_uploaded :
  ~ (forall sep md5 config file w dl dr hl hr,
       trace w = [] ->
       local_digest_now md5 file w = Some dl ->
       remote_digest_now sep md5 file w = Some dr ->
       stored_local config file = Some (VStr hl) ->
       stored_remote sep config file = Some (VStr hr) ->
       dl <> hl -> dr <> hr -> dl <> dr ->
       Forall (fun e => is_transfer e = false)
              (trace (final_world (sync_file sep md5 config file w)))).
Proof.
  intros H.
  specialize (H "/"%char sample_md5 recorded_config "docs/a.txt" double_change_world
                (sample_md5 "new") (sample_md5 "other")
                (sample_md5 "old") (sample_md5 "old")
                eq_refl eq_refl eq_refl eq_refl eq_refl
                ltac:(discriminate) ltac:(discriminate) ltac:(discriminate)).
  vm_compute in H.
  inversion H as [|e1 t1 _ H1]. inversion H1 as [|e2 t2 Hput _]. discriminate Hput.
Qed.

(** C1, amended: for every tracked file whose local content has changed
    since its stored local digest, the sync decision is Upload, whatever
    the remote side holds (in particular when the remote content has
    changed too and differs): the remote side is not probed before the
    transfer, no conflict is reported, and when the host is reachable and
    accepts the transfer the remote copy becomes the local content, to
    which the probe that follows is then applied.  The only files written
    locally are [config.json]. *)
Theorem local_change_is_uploaded sep md5 config file data h0 w :
  files w !! file = Some data ->
  stored_local config file = Some (VStr h0) ->
  md5 data <> h0 ->
  store_ok w = true ->
  returns (sync_file sep md5 config file) w (fun _ w' =>
    trace w' = trace w ++ [Log INFO (LocalChangedUpload file)] ++
      (if ssh_up w
       then [ScpPut file (remote_path sep file);
             SshExec ("md5sum " +:+ remote_path sep file)]
       else []) ++ [Log INFO (RemoteCopyUpdated file)] /\
    remote_files w' =
      (if ssh_up w
       then sh_effect (remote_sh w) (probe_line sep file)
              (if remote_writable w
               then <[remote_path sep file := data]> (remote_files w)
               else remote_files w)
       else remote_files w) /\
    (forall p, p <> "config.json" -> files w' !! p = files w !! p)).
Proof.
  intros Hf Hs Hne Hok. apply store_ok_written in Hok.
  destruct (upload_block_spec sep md5 file data
              (add_event (Log INFO (LocalChangedUpload file)) w)
              (store_written_event _ _ Hok) Hf) as (u & w' & E & _ & T & R & F & _).
  exists tt, w'. split.
  - unfold sync_file.
    rewrite (bind_Ret _ _ w true w)
      by (unfold os_path_exists, path_exists; rewrite Hf; reflexivity).
    rewrite (bind_Ret _ _ w false w)
      by exact (checkLocalFile_changed md5 config file data h0 w Hf Hs Hne).
    cbv beta iota delta [negb].
    rewrite (bind_Ret _ _ w true w) by exact (recorded_in_recorded config file _ w Hs).
    cbv beta iota.
    rewrite (bind_Ret _ _ w tt (add_event (Log INFO (LocalChangedUpload file)) w))
      by reflexivity.
    destruct u. exact E.
  - cbn [trace ssh_up remote_writable remote_files remote_sh files add_event] in T, R, F.
    rewrite T, R. rewrite <- !app_assoc. auto.
Qed.

Lemma local_change_is_uploaded_witness :
  returns (sync_file "/" sample_md5 recorded_config "docs/a.txt") double_change_world
    (fun _ w' =>
       trace w' = [Log INFO (LocalChangedUpload "docs/a.txt");
                   ScpPut "docs/a.txt" ".FileSync/a.txt";
                   SshExec "md5sum .FileSync/a.txt";
                   Log INFO (RemoteCopyUpdated "docs/a.txt")] /\
       remote_files w' = <[".FileSync/a.txt" := "new"]> (remote_files double_change_world) /\
       (forall p, p <> "config.json" ->
                  files w' !! p = files double_change_world !! p)).
Proof.
  apply (local_change_is_uploaded "/" sample_md5 recorded_config "docs/a.txt" "new"
           (sample_md5 "old") double_change_world).
  - reflexivity.
  - reflexivity.
  - discriminate.
  - reflexivity.
Defined.

(** C3: a file that exists locally and has no stored local digest is
    uploaded, whatever the remote digest is (so also when it does not
    match the stored remote digest): its digest is first written to
    [config.json], then the file goes to the remote host; nothing is
    downloaded and no local file other than [config.json] is written.
    [config.json] is assumed to hold a configuration the program wrote. *)
Theorem untracked_local_file_is_uploaded sep md5 config file data d w :
  files w !! file = Some data ->
  hashes_of config "local_hashes" = Some d ->
  dict_get file d = None ->
  store_ok w = true ->
  returns (sync_file sep md5 config file) w (fun _ w' =>
    trace w' = trace w ++
      [Log WARNING (LocalHashNotFound file); Log INFO (LocalChangedUpload file)] ++
      (if ssh_up w
       then [ScpPut file (remote_path sep file);
             SshExec ("md5sum " +:+ remote_path sep file)]
       else []) ++ [Log INFO (RemoteCopyUpdated file)] /\
    (file <> "config.json" ->
     remote_files w' =
       (if ssh_up w
        then sh_effect (remote_sh w) (probe_line sep file)
               (if remote_writable w
                then <[remote_path sep file := data]> (remote_files w)
                else remote_files w)
        else remote_files w)) /\
    (forall p, p <> "config.json" -> files w' !! p = files w !! p)).
Proof.
  intros Hf Hh Hg Hok. apply store_ok_written in Hok.
  set (w0 := add_event (Log WARNING (LocalHashNotFound file)) w).
  destruct (updateLocalHash_spec md5 file w0 (store_written_event _ _ Hok))
    as (b1 & w1 & E1 & Hok1 & (A1 & B1 & R1 & U1 & W1 & _ & _ & S1) & T1).
  { cbn [files add_event w0]. rewrite Hf. eauto. }
  set (w2 := add_event (Log INFO (LocalChangedUpload file)) w1).
  destruct (B1 file) as [data1 Hf1]; [cbn [files add_event w0]; rewrite Hf; eauto|].
  destruct (upload_block_spec sep md5 file data1 w2 (store_written_event _ _ Hok1) Hf1)
    as (u & w' & E & _ & T & R & F & _).
  exists tt, w'. split.
  - unfold sync_file.
    rewrite (bind_Ret _ _ w true w)
      by (unfold os_path_exists, path_exists; rewrite Hf; reflexivity).
    rewrite (bind_Ret _ _ w false w)
      by exact (checkLocalFile_unrecorded md5 config file d w Hh Hg).
    cbv beta iota delta [negb].
    rewrite (bind_Ret _ _ w false w)
      by exact (recorded_in_unrecorded config "local_hashes" file d w Hh Hg).
    cbv beta iota.
    rewrite (bind_Ret _ _ w tt w0) by reflexivity.
    rewrite (bind_Ret _ _ w0 b1 w1) by exact E1.
    rewrite (bind_Ret _ _ w1 false w1)
      by exact (checkLocalFile_unrecorded md5 config file d w1 Hh Hg).
    cbv beta iota delta [negb].
    rewrite (bind_Ret _ _ w1 tt w2) by reflexivity.
    destruct u. exact E.
  - cbn [trace ssh_up remote_writable remote_files remote_sh files add_event w0 w2]
      in T, R, F, T1, R1, U1, W1, A1, S1.
    rewrite T, R, T1, R1, U1, W1, S1. rewrite <- !app_assoc.
    split; [reflexivity|]. split.
    + intros Hne. rewrite A1 in Hf1 by exact Hne.
      unfold w0 in Hf1. cbn [files add_event] in Hf1.
      rewrite Hf in Hf1. injection Hf1 as <-. reflexivity.
    + intros p Hp. rewrite F, A1 by exact Hp. reflexivity.
Qed.

Lemma untracked_local_file_is_uploaded_witness :
  returns (sync_file "/" sample_md5 fresh_config "docs/a.txt") fresh_world
    (fun _ w' =>
       trace w' = [Log WARNING (LocalHashNotFound "docs/a.txt");
                   Log INFO (LocalChangedUpload "docs/a.txt");
                   ScpPut "docs/a.txt" ".FileSync/a.txt";
                   SshExec "md5sum .FileSync/a.txt";
                   Log INFO (RemoteCopyUpdated "docs/a.txt")] /\
       ("docs/a.txt" <> "config.json" ->
        remote_files w' = <[".FileSync/a.txt" := "new"]> (remote_files fresh_world)) /\
       (forall p, p <> "config.json" -> files w' !! p = files fresh_world !! p)).
Proof.
  apply (untracked_local_file_is_uploaded "/" sample_md5 fresh_config "docs/a.txt"
           "new" [] fresh_world).
  - reflexivity.
  - reflexivity.
  - reflexivity.
  - reflexivity.
Defined.

(** C2, at two failing inputs.  The upload is refused, so nothing is
    transferred, and still the local digest field of [config.json] is
    rewritten (lines 505-507 do not test the result of [upload]).  The
    upload is accepted, the remote copy is the new content, and the remote
    digest field is not updated: [updateRemoteHash] reads the answer of
    [md5sum] after it has closed the connection (lines 462-464), gets
    nothing and records nothing. *)
Theorem transfer_and_digests_disagree :
  let refused := final_world (sync_file "/" sample_md5 recorded_config "docs/a.txt"
                                refused_world) in
  let accepted := final_world (sync_file "/" sample_md5 recorded_config "docs/a.txt"
                                 accepted_world) in
  persisted refused_world = Some (sample_config VNone VNone) /\
  remote_files refused = remote_files refused_world /\
  persisted refused
  = Some (sample_config (VDict [("docs/a.txt", VStr (sample_md5 "new"))]) VNone) /\
  persisted accepted_world = Some (sample_config VNone VNone) /\
  remote_files accepted !! ".FileSync/a.txt" = Some "new" /\
  persisted accepted
  = Some (sample_config (VDict [("docs/a.txt", VStr (sample_md5 "new"))]) VNone).
Proof. vm_compute. repeat split; reflexivity. Qed.

(** C4, at a failing input: updating the digest of [b.txt] in a mapping
    that holds the digest of [docs/a.txt] leaves [null] in the field
    (line 431 stores the result of [dict.update]); both entries are gone.
    The other keys of [config.json] are as before. *)
Theorem update_drops_the_mapping :
  let w' := final_world (updateConfig "local_hashes"
                           (VDict [("b.txt", VStr (sample_md5 "bee"))])
                           double_change_world) in
  persisted double_change_world = Some recorded_config /\
  persisted w'
  = Some (sample_config VNone (VDict [(".FileSync/a.txt", VStr (sample_md5 "old"))])).
Proof. vm_compute. split; reflexivity. Qed.

(** C9, at two failing inputs: the host is reachable and holds the remote
    copy, whose digest is the recorded one ([docs/a.txt]) or was never
    recorded ([b.txt]).  Either way the answer of [md5sum] is read after
    the connection has been closed (lines 353-355), both reads are empty,
    and [checkRemoteFile] falls off its end: it returns [None], not the
    [True] or [False] its docstring promises.  No exception escapes. *)
Theorem probe_answer_is_never_read :
  checkRemoteFile "/" sample_md5 recorded_config "docs/a.txt" verified_world
  = Ret VNone (add_event (SshExec "md5sum .FileSync/a.txt") verified_world) /\
  checkRemoteFile "/" sample_md5 recorded_config "b.txt" probe_world
  = Ret VNone (add_event (SshExec "md5sum .FileSync/b.txt") probe_world).
Proof. vm_compute. split; reflexivity. Qed.

(** C10 as stated fails: two distinct tracked files with the same last
    path component have the same remote key. *)
Lemma same_name_same_remote_key :
  ~ (forall sep f1 f2, f1 <> f2 -> remote_path sep f1 <> remote_path sep f2).
Proof.
  intros H.
  apply (H "/"%char "docs/a.txt" "work/a.txt"); [discriminate | reflexivity].
Qed.

Lemma remote_path_inj sep f1 f2 :
  remote_path sep f1 = remote_path sep f2 ->
  last_component sep f1 = last_component sep f2.
Proof. unfold remote_path. cbn. intros H. injection H as H. exact H. Qed.

Lemma checkRemoteFile_trace sep md5 config f w :
  ssh_up w = true ->
  trace (final_world (checkRemoteFile sep md5 config f w))
  = trace w ++ [SshExec ("md5sum " +:+ remote_path sep f)].
Proof. intros Hup. rewrite checkRemoteFile_run, Hup. reflexivity. Qed.

(** C10, amended: upload and download of a tracked file address the same
    remote key, [.FileSync/] followed by the last component of the file's
    path, and the remote digest probe names that key in its command line.
    The probe hands the name to the remote shell unquoted, so it addresses
    that key when the last component is made of plain characters, which
    the shell takes as one word.  Two tracked files whose last path
    components differ have distinct remote keys (files that share a last
    component share one key). *)
Theorem remote_key_is_last_component sep md5 config (f1 f2 : string) (w : world) :
  last_component sep f1 <> last_component sep f2 ->
  ssh_up w = true ->
  remote_path sep f1 <> remote_path sep f2 /\
  (forall f,
     remote_path sep f = ".FileSync/" +:+ last_component sep f /\
     trace (final_world (upload sep f w))
     = trace w ++ [ScpPut f (remote_path sep f)] /\
     trace (final_world (download sep f w))
     = trace w ++ [ScpGet (remote_path sep f) f] /\
     trace (final_world (checkRemoteFile sep md5 config f w))
     = trace w ++ [SshExec ("md5sum " +:+ remote_path sep f)] /\
     (plain_name sep f = true ->
      argv ("md5sum " +:+ remote_path sep f) = Some ["md5sum"; remote_path sep f])).
Proof.
  intros Hne Hup. split.
  - intros E. apply Hne, (remote_path_inj sep), E.
  - intros f. split; [reflexivity|]. split; [|split; [|split]].
    + unfold upload, getSCPClient, getSSHClient, scp_put. run. rewrite Hup. run.
      cbn [files remote_writable add_event].
      destruct (files w !! f); [destruct (remote_writable w)|]; reflexivity.
    + unfold download, getSCPClient, getSSHClient, scp_get, can_write, is_dir. run.
      rewrite Hup. run. cbn [remote_files files dirs creatable add_event].
      destruct (remote_files w !! remote_path sep f); run; [|reflexivity].
      destruct (files w !! f) eqn:Hf.
      * cbn [files set_files]. rewrite lookup_insert_eq. reflexivity.
      * destruct (existsb (String.eqb f) (dirs w)); [reflexivity|].
        cbn [negb andb]. destruct (creatable w f); [|reflexivity].
        cbn [files set_files]. rewrite lookup_insert_eq. reflexivity.
    + apply checkRemoteFile_trace, Hup.
    + apply argv_probe.
Qed.

Lemma remote_key_is_last_component_witness :
  remote_path "/" "docs/a.txt" <> remote_path "/" "b.txt" /\
  (forall f,
     remote_path "/" f = ".FileSync/" +:+ last_component "/" f /\
     trace (final_world (upload "/" f probe_world))
     = trace probe_world ++ [ScpPut f (remote_path "/" f)] /\
     trace (final_world (download "/" f probe_world))
     = trace probe_world ++ [ScpGet (remote_path "/" f) f] /\
     trace (final_world (checkRemoteFile "/" sample_md5 recorded_config f probe_world))
     = trace probe_world ++ [SshExec ("md5sum " +:+ remote_path "/" f)] /\
     (plain_name "/" f = true ->
      argv ("md5sum " +:+ remote_path "/" f) = Some ["md5sum"; remote_path "/" f])).
Proof.
  apply (remote_key_is_last_component "/" sample_md5 recorded_config
           "docs/a.txt" "b.txt" probe_world).
  - discriminate.
  - reflexivity.
Defined.
(** * Part III: further properties *)

(** ** [updateConfig] *)

Lemma store_written_ok w : store_written w -> store_ok w = true.
Proof.
  intros (d & Hf & Hv & Hl & Hr). unfold store_ok. rewrite Hf.
  rewrite loads_dumps by exact Hv. rewrite String.eqb_refl, Hv, Hl, Hr. reflexivity.
Qed.

Lemma persisted_written doc w d :
  valid (VDict d) = true ->
  persisted (set_files (<["config.json" := json_dumps (VDict d)]> doc) w)
  = Some (VDict d).
Proof.
  intros Hv. unfold persisted. cbn [files set_files].
  rewrite lookup_insert_eq, loads_dumps by exact Hv. reflexivity.
Qed.

Lemma updateConfig_written field val d w :
  files w !! "config.json" = Some (json_dumps (VDict d)) ->
  valid (VDict d) = true ->
  (is_dict val = true -> updatable d field = true) ->
  updateConfig field val w
  = Ret true (set_files
                (<["config.json" :=
                    json_dumps (VDict (dict_set field (value_after field val d) d))]>
                   (files w)) w).
Proof.
  intros Hf Hv Hu. unfold updateConfig. run. rewrite Hf. run. rewrite Hf. run.
  rewrite loads_dumps by exact Hv.
  unfold updatable, value_after in *. cbn [py_contains py_getitem py_setitem].
  destruct (dict_get field d) as [current|] eqn:Hg; run;
    [|rewrite Hf; reflexivity].
  destruct (truthy current) eqn:Ht; cbn [andb]; [|run; rewrite Hf; reflexivity].
  destruct (is_dict val) eqn:Hd; [|run; rewrite Hf; reflexivity].
  specialize (Hu eq_refl). simpl in Hu. rewrite Hu. run. rewrite Hf. reflexivity.
Qed.

Lemma valid_value_after field val d :
  valid val = true -> valid (value_after field val d) = true.
Proof.
  intros Hv. unfold value_after. destruct (dict_get field d) as [c|]; [|exact Hv].
  destruct (truthy c && is_dict val); [reflexivity | exact Hv].
Qed.

(** X1: When config.json holds a JSON object the program wrote, updateConfig
    returns True, leaves every other key of the object as it was, and
    leaves in the updated key the given value, except that a non-empty
    mapping updated with a mapping ends as null. No other local file, no
    remote file and no log entry changes. *)
Theorem updateConfig_effect field val d w :
  files w !! "config.json" = Some (json_dumps (VDict d)) ->
  valid (VDict d) = true ->
  valid val = true ->
  (is_dict val = true -> updatable d field = true) ->
  exists d',
    returns (updateConfig field val) w (fun b w' =>
      b = true /\ persisted w' = Some (VDict d') /\ config_only w w' /\
      trace w' = trace w) /\
    dict_get field d' = Some (value_after field val d) /\
    (forall k, k <> field -> dict_get k d' = dict_get k d).
Proof.
  intros Hf Hv Hval Hu.
  exists (dict_set field (value_after field val d) d). split; [|split].
  - eexists _, _. split; [apply (updateConfig_written field val d w Hf Hv Hu)|].
    split; [reflexivity|]. split; [|split; [apply config_only_write | reflexivity]].
    apply persisted_written, valid_dict_set; [|exact Hv].
    apply valid_value_after, Hval.
  - apply dict_get_set_eq.
  - intros k Hk. apply dict_get_set_ne. congruence.
Qed.

(** X2: When config.json parses to something other than a JSON object (a list,
    a string, a number, true, false or null), updateConfig raises
    TypeError and leaves the file untouched. *)
Theorem updateConfig_rejects_non_object field val doc v w :
  files w !! "config.json" = Some doc ->
  json_loads doc = Parsed v ->
  is_dict v = false ->
  updateConfig field val w = Raise TypeError w.
Proof.
  intros Hf Hd Hv. unfold updateConfig. run. rewrite Hf. run. rewrite Hf. run.
  rewrite Hd.
  destruct v as [| | | s | l | d]; try discriminate Hv; cbn [py_contains]; run;
    try reflexivity.
  - destruct (is_substring field s); reflexivity.
  - destruct (existsb _ l); reflexivity.
Qed.

(** X3: When the key holds a truthy value that is not a mapping (a non-empty
    string, say) and the new value is a mapping, updateConfig raises
    AttributeError (line 431 calls .update on it) and writes nothing. *)
Theorem updateConfig_needs_a_mapping field val d current w :
  files w !! "config.json" = Some (json_dumps (VDict d)) ->
  valid (VDict d) = true ->
  dict_get field d = Some current ->
  truthy current = true -> is_dict current = false ->
  is_dict val = true ->
  updateConfig field val w = Raise AttributeError w.
Proof.
  intros Hf Hv Hg Ht Hc Hd. unfold updateConfig. run. rewrite Hf. run. rewrite Hf. run.
  rewrite loads_dumps by exact Hv. cbn [py_contains py_getitem]. rewrite Hg. run.
  rewrite Ht, Hd, Hc. reflexivity.
Qed.

(** ** The two checks *)

(** X4: With local digests stored as strings, checkLocalFile returns True
    exactly when the file is a regular file whose stored digest equals the
    MD5 of its current content; in every other case it returns False, and
    it changes nothing.  The one exception is a recorded path that is a
    directory: hashing it raises IsADirectoryError. *)
Theorem checkLocalFile_verifies md5 config file d w :
  hashes_of config "local_hashes" = Some d ->
  (forall v, dict_get file d = Some v -> exists h, v = VStr h) ->
  exists b,
    checkLocalFile md5 config file w
    = (if is_dir w file && match dict_get file d with Some _ => true | None => false end
       then Raise IsADirectoryError w
       else Ret b w) /\
    (b = true <->
     exists data, files w !! file = Some data /\
                  dict_get file d = Some (VStr (md5 data))).
Proof.
  intros Hh Hs. unfold checkLocalFile, getMD5, is_dir. run.
  destruct (files w !! file) as [data|] eqn:Hf; run.
  - cbn [andb].
    destruct (hashes_of_cases _ _ _ Hh) as [E|[E ->]]; rewrite E; run.
    2:{ exists false. split; [reflexivity|]. split; [discriminate|].
        intros (x & _ & Hx). discriminate Hx. }
    destruct (truthy (VDict d)) eqn:Ht.
    2:{ exists false. split; [reflexivity|]. split; [discriminate|].
        intros (x & _ & Hx). destruct d; discriminate. }
    cbn [py_contains py_getitem]. destruct (dict_get file d) as [v|] eqn:Hg; run.
    2:{ exists false. split; [reflexivity|]. split; [discriminate|].
        intros (x & _ & Hx). discriminate Hx. }
    destruct (Hs v eq_refl) as [h ->]. rewrite Hf. run. rewrite Hf. run.
    cbn [secure_compare_value]. rewrite secure_compare_eqb.
    destruct (String.eqb_spec (md5 data) h) as [<-|Hne].
    + exists true. split; [reflexivity|]. split; [eauto | reflexivity].
    + exists false. split; [reflexivity|]. split; [discriminate|].
      intros (x & Hx & Hy). congruence.
  - exists false. split.
    + unfold is_dir. rewrite Hf.
      destruct (existsb (String.eqb file) (dirs w)) eqn:Hd; [|reflexivity].
      cbn [andb].
      destruct (hashes_of_cases _ _ _ Hh) as [E|[E ->]]; rewrite E; run;
        [|reflexivity].
      cbn [py_contains py_getitem].
      destruct (dict_get file d) as [v|] eqn:Hg.
      * assert (Ht : truthy (VDict d) = true) by (destruct d; [discriminate|reflexivity]).
        rewrite Ht. run. unfold is_dir. rewrite ?Hf, ?Hd. reflexivity.
      * destruct (truthy (VDict d)); reflexivity.
    + split; [discriminate|]. intros (x & Hx & _). discriminate Hx.
Qed.

(** X5: As the program runs, checkRemoteFile never returns True and never
    raises: it returns None when the host is reachable (the answer of
    md5sum is read after ssh.close() and is empty, so lines 359-374 never
    run) and False when it is not.  It consults neither self.config nor
    the local file, changes no local file, and changes no remote file
    when the remote name is one plain word. *)
Theorem checkRemoteFile_never_verifies sep md5 config file w :
  exists r w',
    checkRemoteFile sep md5 config file w = Ret r w' /\
    r = (if ssh_up w then VNone else VBool false) /\
    truthy r = false /\
    files w' = files w /\
    trace w' = trace w ++ (if ssh_up w then [SshExec (probe_line sep file)] else []) /\
    (plain_name sep file = true -> remote_files w' = remote_files w).
Proof.
  rewrite checkRemoteFile_run. destruct (ssh_up w); eexists _, _;
    (split; [reflexivity|]); (split; [reflexivity|]); (split; [reflexivity|]);
    (split; [reflexivity|]); split; try reflexivity.
  - intros Hp. unfold probed. cbn [remote_files set_remote_files].
    apply sh_effect_plain, Hp.
  - symmetry. apply app_nil_r.
Qed.

(** X7: However they end, checkLocalFile and checkRemoteFile leave every
    local file as it was; checkLocalFile leaves the remote files as they
    were, and so does checkRemoteFile when the remote name is one plain
    word (any other name is interpreted by the remote shell). *)
Theorem checks_never_write sep md5 config file w :
  files (final_world (checkLocalFile md5 config file w)) = files w /\
  remote_files (final_world (checkLocalFile md5 config file w)) = remote_files w /\
  files (final_world (checkRemoteFile sep md5 config file w)) = files w /\
  (plain_name sep file = true ->
   remote_files (final_world (checkRemoteFile sep md5 config file w))
   = remote_files w).
Proof.
  assert (L : final_world (checkLocalFile md5 config file w) = w).
  { unfold checkLocalFile, getMD5.
    cbv beta iota delta [bind ret lift raise os_path_exists read_file].
    destruct (path_exists w file); [|reflexivity].
    destruct (py_getitem config "local_hashes") as [e|lh]; [reflexivity|].
    destruct (truthy lh); [|reflexivity].
    destruct (py_contains file lh) as [e|[]]; try reflexivity.
    destruct (files w !! file); [|reflexivity].
    destruct (py_getitem lh file) as [e|stored]; [reflexivity|].
    destruct (files w !! file); [|reflexivity].
    destruct (secure_compare_value _ stored) as [e|[]]; reflexivity. }
  rewrite L, checkRemoteFile_run. repeat split.
  - destruct (ssh_up w); reflexivity.
  - intros Hp. destruct (ssh_up w); [|reflexivity].
    unfold probed. cbn [final_world remote_files set_remote_files].
    apply sh_effect_plain, Hp.
Qed.

(** ** The transfers *)

(** X8: For a path that is not a directory, download always returns: True
    exactly when the host is reachable, the remote copy exists and the
    local path can be written (it is a regular file, or a file can be
    created there), and then the local file holds the remote content;
    otherwise False with no local file changed. The remote files are never
    changed. *)
Theorem download_result sep file w :
  is_dir w file = false ->
  exists b w',
    download sep file w = Ret b w' /\
    remote_files w' = remote_files w /\
    match remote_files w !! remote_path sep file with
    | Some rdata =>
        if ssh_up w && can_write w file
        then b = true /\ files w' = <[file := rdata]> (files w)
        else b = false /\ files w' = files w
    | None => b = false /\ files w' = files w
    end.
Proof.
  intros Hd. unfold download, getSCPClient, getSSHClient, scp_get. run.
  destruct (ssh_up w); run.
  - cbn [remote_files add_event].
    destruct (remote_files w !! remote_path sep file) as [rdata|]; run.
    + change (is_dir (add_event (ScpGet (remote_path sep file) file) w) file)
        with (is_dir w file).
      change (can_write (add_event (ScpGet (remote_path sep file) file) w) file)
        with (can_write w file).
      rewrite Hd. cbn [andb]. destruct (can_write w file).
      * cbn [files set_files add_event]. rewrite lookup_insert_eq.
        eexists _, _. split; [reflexivity|]. cbn. auto.
      * eexists _, _. split; [reflexivity|]. cbn. auto.
    + eexists _, _. split; [reflexivity|]. cbn. auto.
  - exists false, w. split; [reflexivity|]. split; [reflexivity|].
    destruct (remote_files w !! remote_path sep file); cbn [andb]; auto.
Qed.

(** X9: For an existing local file, upload returns True exactly when the host
    is reachable and accepts the transfer, and then the remote copy under
    .FileSync/<last component> holds the local content; otherwise the
    remote files are unchanged. The local files are never changed. *)
Theorem upload_result sep file data w :
  files w !! file = Some data ->
  exists b w',
    upload sep file w = Ret b w' /\
    files w' = files w /\
    b = ssh_up w && remote_writable w /\
    remote_files w' =
      (if b then <[remote_path sep file := data]> (remote_files w)
       else remote_files w).
Proof.
  intros Hf. destruct (upload_spec sep file data w Hf)
    as (b & w' & E & F & _ & _ & _ & _ & R).
  exists b, w'. split; [exact E|]. split; [exact F|].
  revert E R. unfold upload, getSCPClient, getSSHClient, scp_put. run.
  destruct (ssh_up w); run.
  - cbn [files add_event remote_writable]. rewrite Hf.
    destruct (remote_writable w); intros [= <- _] R; auto.
  - intros [= <- _] R. auto.
Qed.

(** X10: With a reachable host that accepts transfers, uploading an existing
    file and downloading it again succeeds and leaves the local files
    exactly as they were; the remote copy holds the file's content. *)
Theorem upload_then_download sep file data w :
  files w !! file = Some data ->
  ssh_up w = true -> remote_writable w = true ->
  returns (upload sep file >> download sep file) w (fun b w' =>
    b = true /\ files w' = files w /\
    remote_files w' = <[remote_path sep file := data]> (remote_files w) /\
    trace w' = trace w ++ [ScpPut file (remote_path sep file);
                           ScpGet (remote_path sep file) file]).
Proof.
  intros Hf Hup Hw.
  unfold returns, upload, download, getSCPClient, getSSHClient, scp_put, scp_get,
    can_write, is_dir.
  run. rewrite Hup. run. cbn [files remote_writable add_event]. rewrite Hf, Hw. run.
  cbn [ssh_up set_remote_files add_event]. rewrite Hup. run.
  cbn [remote_files set_remote_files add_event]. rewrite lookup_insert_eq. run.
  cbn [files set_files set_remote_files add_event]. rewrite Hf. run.
  cbn [files set_files set_remote_files add_event]. rewrite lookup_insert_eq.
  eexists _, _. split; [reflexivity|]. cbn.
  rewrite (insert_id _ _ _ Hf), <- app_assoc. auto.
Qed.

(** ** [updateRemoteHash] and [updateLocalHash] *)

(** X11: As the program runs, updateRemoteHash never records a digest: it
    sends the probe, closes the connection, reads nothing (lines 462-464)
    and returns None without calling updateConfig, or returns False when
    the host cannot be reached. config.json and every other local file
    stay as they were, and so do the remote files when the remote name is
    one plain word. *)
Theorem updateRemoteHash_records_nothing sep file w :
  exists r w',
    updateRemoteHash sep file w = Ret r w' /\
    r = (if ssh_up w then VNone else VBool false) /\
    files w' = files w /\
    persisted w' = persisted w /\
    trace w' = trace w ++ (if ssh_up w then [SshExec (probe_line sep file)] else []) /\
    (plain_name sep file = true -> remote_files w' = remote_files w).
Proof.
  rewrite updateRemoteHash_run. destruct (ssh_up w); eexists _, _;
    (split; [reflexivity|]); (split; [reflexivity|]); (split; [reflexivity|]);
    (split; [reflexivity|]); split; try reflexivity.
  - intros Hp. unfold probed. cbn [remote_files set_remote_files].
    apply sh_effect_plain, Hp.
  - symmetry. apply app_nil_r.
Qed.

(** ** What a pass may touch *)

Section Within.

Variable sep : ascii.
Variable md5 : string -> string.
Variable file : string.
Variable R : world -> world -> Prop.

Hypothesis R_refl : forall w, R w w.
Hypothesis R_trans : forall a b c, R a b -> R b c -> R a c.
Hypothesis R_event :
  forall e w, (forall f, e <> Log INFO (AlreadyUpToDate f)) -> R w (add_event e w).
Hypothesis R_config :
  forall doc w, R w (set_files (<["config.json" := doc]> (files w)) w).
Hypothesis R_put :
  forall data w,
    R w (set_remote_files (<[remote_path sep file := data]> (remote_files w)) w).
Hypothesis R_get :
  forall data w, R w (set_files (<[file := data]> (files w)) w).
Hypothesis R_probe :
  forall w,
    R w (set_remote_files
           (sh_effect (remote_sh w) (probe_line sep file) (remote_files w)) w).

Lemma within_bind {A B} (m : M A) (k : A -> M B) :
  within R m -> (forall a, within R (k a)) -> within R (bind m k).
Proof.
  intros Hm Hk w. unfold bind. specialize (Hm w).
  destruct (m w) as [a w'|c w'|e w'|w']; cbn [final_world] in *; try exact Hm.
  eapply R_trans; [exact Hm | apply Hk].
Qed.

Lemma within_still {A} (m : M A) :
  (forall w, final_world (m w) = w) -> within R m.
Proof. intros H w. rewrite H. apply R_refl. Qed.

Lemma within_ret {A} (a : A) : within R (ret a).
Proof. apply within_still. reflexivity. Qed.

Lemma within_lift {A} (r : exn + A) : within R (lift r).
Proof. apply within_still. destruct r; reflexivity. Qed.

Lemma within_exists p : within R (os_path_exists p).
Proof. apply within_still. reflexivity. Qed.

Lemma within_read p : within R (read_file p).
Proof. apply within_still. intros w. unfold read_file. destruct (files w !! p); reflexivity. Qed.

Lemma within_or_exit {A} (m : M A) : within R m -> within R (or_exit m).
Proof.
  intros H w. specialize (H w). unfold or_exit. destruct (m w); exact H.
Qed.

Lemma within_write_config doc : within R (write_file "config.json" doc).
Proof.
  intros w. unfold write_file.
  destruct (files w !! "config.json"); [apply R_config|].
  destruct (is_dir w "config.json"); [apply R_refl|].
  destruct (creatable w "config.json"); [apply R_config | apply R_refl].
Qed.

Ltac within_step :=
  match goal with
  | |- within _ (bind _ _) => apply within_bind; [|intros ?]
  | |- within _ (ret _) => apply within_ret
  | |- within _ (lift _) => apply within_lift
  | |- within _ (raise _) => apply within_still; reflexivity
  | |- within _ (sys_exit _) => apply within_still; reflexivity
  | |- within _ beyond => apply within_still; reflexivity
  | |- within _ (log _ _) => intros ?w; apply R_event; intros ?f; discriminate
  | |- within _ (os_path_exists _) => apply within_exists
  | |- within _ (or_exit _) => apply within_or_exit
  | |- within _ (read_file _) => apply within_read
  | |- within _ (write_file "config.json" _) => apply within_write_config
  | |- within _ (if ?b then _ else _) => destruct b
  | |- within _ (match ?x with _ => _ end) => destruct x
  end.

Lemma getMD5_within p : within R (getMD5 md5 p).
Proof. unfold getMD5. repeat within_step. Qed.

Lemma getSSHClient_within : within R getSSHClient.
Proof. apply within_still. reflexivity. Qed.

Lemma probe_within : within R (exec_close_read ("md5sum " +:+ remote_path sep file)).
Proof.
  intros w. unfold exec_close_read. cbv zeta. cbn [final_world].
  eapply R_trans;
    [apply (R_event (SshExec ("md5sum " +:+ remote_path sep file)));
     intros f; discriminate|].
  apply R_probe.
Qed.

Lemma first_field_within s : within R (first_field s).
Proof. apply within_still. intros w. unfold first_field. destruct (first_token s); reflexivity. Qed.

Lemma checkLocalFile_within config p : within R (checkLocalFile md5 config p).
Proof.
  unfold checkLocalFile.
  repeat first [apply getMD5_within | within_step].
Qed.

(** What follows [checkRemoteFile] only ever sees a falsy answer. *)
Lemma checkRemoteFile_within {B} config (k : value -> M B) :
  (forall r, truthy r = false -> within R (k r)) ->
  within R (bind (checkRemoteFile sep md5 config file) k).
Proof.
  intros Hk w. unfold bind. rewrite checkRemoteFile_run.
  destruct (ssh_up w).
  - eapply R_trans; [|apply Hk; reflexivity].
    apply (probe_within w).
  - apply Hk. reflexivity.
Qed.

Lemma recorded_in_within config key p : within R (recorded_in config key p).
Proof. unfold recorded_in. repeat within_step. Qed.

Lemma updateConfig_within key val : within R (updateConfig key val).
Proof. unfold updateConfig. repeat within_step. Qed.

Lemma updateLocalHash_within p : within R (updateLocalHash md5 p).
Proof.
  unfold updateLocalHash.
  repeat first [apply getMD5_within | apply updateConfig_within | within_step].
Qed.

Lemma updateRemoteHash_within : within R (updateRemoteHash sep file).
Proof.
  unfold updateRemoteHash.
  repeat first [apply getSSHClient_within | apply probe_within
               | apply first_field_within | apply updateConfig_within | within_step].
Qed.

Lemma upload_within : within R (upload sep file).
Proof.
  unfold upload, getSCPClient.
  repeat first [apply getSSHClient_within | within_step].
  intros w. unfold scp_put. cbv zeta.
  set (w1 := add_event (ScpPut file (remote_path sep file)) w).
  assert (H1 : R w w1) by (apply R_event; intros f; discriminate).
  destruct (files w1 !! file); [destruct (remote_writable w1)|]; cbn [final_world];
    try exact H1.
  eapply R_trans; [exact H1 | apply R_put].
Qed.

Lemma download_within : within R (download sep file).
Proof.
  unfold download, getSCPClient.
  repeat first [apply getSSHClient_within | within_step].
  intros w. unfold scp_get. cbv zeta.
  set (w1 := add_event (ScpGet (remote_path sep file) file) w).
  assert (H1 : R w w1) by (apply R_event; intros f; discriminate).
  destruct (remote_files w1 !! remote_path sep file); cbn [final_world];
    try exact H1.
  destruct (is_dir w1 file); [exact H1|].
  destruct (can_write w1 file); cbn [final_world]; [|exact H1].
  eapply R_trans; [exact H1 | apply R_get].
Qed.

Lemma sync_file_within config : within R (sync_file sep md5 config file).
Proof.
  unfold sync_file.
  repeat first [apply checkLocalFile_within
               | (apply checkRemoteFile_within; intros ?r ?Hr; rewrite Hr;
                  cbv beta iota delta [negb])
               | apply recorded_in_within | apply updateLocalHash_within
               | apply updateRemoteHash_within | apply upload_within
               | apply download_within | within_step].
Qed.

End Within.

(** The passes of [sync], when the pass over each tracked file keeps the
    relation. *)
Section Loop.

Variable sep : ascii.
Variable md5 : string -> string.
Variable config : value.
Variable R : world -> world -> Prop.

Hypothesis R_refl : forall w, R w w.
Hypothesis R_trans : forall a b c, R a b -> R b c -> R a c.
Hypothesis R_event :
  forall e w, (forall f, e <> Log INFO (AlreadyUpToDate f)) -> R w (add_event e w).
Hypothesis R_file :
  forall f, In f (tracked config) -> within R (sync_file sep md5 config f).

Lemma for_each_within todo :
  (forall f, In f todo -> In f (tracked config)) ->
  within R (for_each todo (sync_file sep md5 config)).
Proof.
  induction todo as [|f todo IH]; intros Hin; cbn [for_each].
  - intros w. apply R_refl.
  - apply (within_bind R R_trans).
    + apply R_file, Hin. left. reflexivity.
    + intros _. apply IH. intros g Hg. apply Hin. right. exact Hg.
Qed.

Lemma sync_cycle_within : within R (sync_cycle sep md5 config).
Proof.
  unfold sync_cycle.
  apply (within_bind R R_trans);
    [intros w; apply R_event; intros f; discriminate|intros _].
  intros w. unfold bind at 1. unfold lift.
  pose proof for_each_within as F. unfold tracked in F.
  destruct (py_getitem config "local_files") as [e|local_files];
    [apply R_refl|].
  cbv beta iota delta [ret].
  assert (T : forall todo, (forall f, In f todo -> In f todo) ->
            within R (for_each todo (sync_file sep md5 config)) ->
            R w (final_world
                   ((for_each todo (sync_file sep md5 config) >>
                     log INFO AllChecked) w))).
  { intros todo _ H.
    apply (within_bind R R_trans); [exact H|].
    intros _ w0. apply R_event. intros f. discriminate. }
  unfold bind at 1. unfold iterate.
  destruct local_files as [| | |s|l|d]; try apply R_refl.
  - apply T; [auto|]. apply F. auto.
  - destruct (strings_of l) as [fs|]; [|apply R_refl].
    apply T; [auto|]. apply F. auto.
  - apply T; [auto|]. apply F. auto.
Qed.

Lemma sync_within cycles : within R (sync sep md5 cycles config).
Proof.
  unfold sync.
  apply (within_bind R R_trans);
    [intros w0; apply R_event; intros f; discriminate|intros _].
  induction cycles as [|n IH]; cbn [sync_loop].
  - intros w0. apply R_refl.
  - apply (within_bind R R_trans); [apply sync_cycle_within | intros _; exact IH].
Qed.

End Loop.

(** *** The local side *)

Lemma local_frame_refl file w : local_frame file w w.
Proof. repeat split; auto. exists []. rewrite app_nil_r. reflexivity. Qed.

Lemma local_frame_trans file a b c :
  local_frame file a b -> local_frame file b c -> local_frame file a c.
Proof.
  intros (F1 & K1 & e1 & T1) (F2 & K2 & e2 & T2). repeat split; auto.
  - intros p H1 H2. rewrite F2, F1 by assumption. reflexivity.
  - exists (e1 ++ e2). rewrite T2, T1, app_assoc. reflexivity.
Qed.

Lemma local_frame_remote file remote w :
  local_frame file w (set_remote_files remote w).
Proof. repeat split; auto. exists []. rewrite app_nil_r. reflexivity. Qed.

Lemma local_frame_insert file p data w :
  p = file \/ p = "config.json" ->
  local_frame file w (set_files (<[p := data]> (files w)) w).
Proof.
  intros Hp. repeat split; cbn [files trace set_files].
  - intros q H1 H2. apply lookup_insert_ne. destruct Hp; congruence.
  - intros q Hq. destruct (decide (p = q)) as [<-|Hne].
    + rewrite lookup_insert_eq. eauto.
    + rewrite lookup_insert_ne by exact Hne. exact Hq.
  - exists []. rewrite app_nil_r. reflexivity.
Qed.

Lemma sync_file_local sep md5 config file :
  within (local_frame file) (sync_file sep md5 config file).
Proof.
  apply sync_file_within.
  - apply local_frame_refl.
  - apply local_frame_trans.
  - intros e w _. repeat split; auto. exists [e]. reflexivity.
  - intros doc w. apply local_frame_insert. auto.
  - intros data w. apply local_frame_remote.
  - intros data w. apply local_frame_insert. auto.
  - intros w. apply local_frame_remote.
Qed.

(** *** The remote side *)

Lemma remote_frame_refl sep file w : remote_frame sep file w w.
Proof. split; auto. Qed.

Lemma remote_frame_trans sep file a b c :
  remote_frame sep file a b -> remote_frame sep file b c -> remote_frame sep file a c.
Proof.
  intros (F1 & K1) (F2 & K2). split; auto.
  intros r Hr. rewrite F2, F1 by assumption. reflexivity.
Qed.

Lemma sync_file_remote sep md5 config file :
  plain_name sep file = true ->
  within (remote_frame sep file) (sync_file sep md5 config file).
Proof.
  intros Hp. apply sync_file_within.
  - apply remote_frame_refl.
  - apply remote_frame_trans.
  - intros e w _. split; auto.
  - intros doc w. split; auto.
  - intros data w. split; cbn [remote_files set_remote_files].
    + intros r Hr. apply lookup_insert_ne. congruence.
    + intros r Hr. destruct (decide (remote_path sep file = r)) as [<-|Hne].
      * rewrite lookup_insert_eq. eauto.
      * rewrite lookup_insert_ne by exact Hne. exact Hr.
  - intros data w. split; auto.
  - intros w. rewrite (sh_effect_plain _ _ _ _ Hp).
    split; cbn [remote_files set_remote_files]; auto.
Qed.

(** X17: Whenever the model follows a pass over one file to its end (return,
    exit or exception), the only local files the pass may have changed
    are that file and config.json; and when the remote name of the file is
    one plain word, the only remote file it may have changed is that
    file's remote copy. *)
Theorem pass_touches_only_its_file sep md5 config file w :
  completed (sync_file sep md5 config file w) = true ->
  let w' := final_world (sync_file sep md5 config file w) in
  (forall p, p <> file -> p <> "config.json" -> files w' !! p = files w !! p) /\
  (plain_name sep file = true ->
   forall r, r <> remote_path sep file ->
             remote_files w' !! r = remote_files w !! r).
Proof.
  intros _. split.
  - apply (sync_file_local sep md5 config file w).
  - intros Hp. apply (sync_file_remote sep md5 config file Hp w).
Qed.

Lemma local_kept_refl w : local_kept w w.
Proof. split; auto. exists []. rewrite app_nil_r. reflexivity. Qed.

Lemma local_kept_trans a b c : local_kept a b -> local_kept b c -> local_kept a c.
Proof.
  intros (K1 & e1 & T1) (K2 & e2 & T2). split; auto.
  exists (e1 ++ e2). rewrite T2, T1, app_assoc. reflexivity.
Qed.

Lemma remote_kept_trans a b c : remote_kept a b -> remote_kept b c -> remote_kept a c.
Proof. unfold remote_kept. auto. Qed.

(** X18: Whenever the model follows sync to an end (an exit or an exception,
    or the end of the passes considered), every local file that existed
    before still exists and the log has only grown; and when the remote
    name of every tracked file is one plain word, every remote file that
    existed before still exists. *)
Theorem sync_never_deletes sep md5 cycles config w :
  completed (sync sep md5 cycles config w) = true ->
  let w' := final_world (sync sep md5 cycles config w) in
  (forall p, is_Some (files w !! p) -> is_Some (files w' !! p)) /\
  (exists evs, trace w' = trace w ++ evs) /\
  ((forall f, In f (tracked config) -> plain_name sep f = true) ->
   forall r, is_Some (remote_files w !! r) -> is_Some (remote_files w' !! r)).
Proof.
  intros _. cbv zeta.
  assert (L : local_kept w (final_world (sync sep md5 cycles config w))).
  { apply (sync_within sep md5 config local_kept local_kept_refl local_kept_trans).
    - intros e w0 _. split; auto. exists [e]. reflexivity.
    - intros f _ w0. destruct (sync_file_local sep md5 config f w0) as (_ & K & T).
      split; assumption. }
  destruct L as (K & T). split; [exact K|]. split; [exact T|].
  intros Hp.
  apply (sync_within sep md5 config remote_kept (fun _ _ H => H) remote_kept_trans).
  - intros e w0 _ r Hr. exact Hr.
  - intros f Hf w0. exact (proj2 (sync_file_remote sep md5 config f (Hp f Hf) w0)).
Qed.

(** *** What is never logged *)

Lemma quiet_still w w' : trace w' = trace w -> quiet w w'.
Proof.
  intros E. exists []. split; [rewrite app_nil_r; exact E | intros f []].
Qed.

Lemma quiet_refl w : quiet w w.
Proof. apply quiet_still. reflexivity. Qed.

Lemma quiet_trans a b c : quiet a b -> quiet b c -> quiet a c.
Proof.
  intros (e1 & T1 & Q1) (e2 & T2 & Q2). exists (e1 ++ e2). split.
  - rewrite T2, T1, app_assoc. reflexivity.
  - intros f H. apply in_app_or in H as [H|H]; [apply (Q1 f H) | apply (Q2 f H)].
Qed.

Lemma quiet_event e w :
  (forall f, e <> Log INFO (AlreadyUpToDate f)) -> quiet w (add_event e w).
Proof.
  intros He. exists [e]. split; [reflexivity|].
  intros f [H|[]]. apply (He f H).
Qed.

Lemma sync_file_quiet sep md5 config file :
  within quiet (sync_file sep md5 config file).
Proof.
  apply sync_file_within.
  - apply quiet_refl.
  - apply quiet_trans.
  - apply quiet_event.
  - intros doc w. apply quiet_still. reflexivity.
  - intros data w. apply quiet_still. reflexivity.
  - intros data w. apply quiet_still. reflexivity.
  - intros w. apply quiet_still. reflexivity.
Qed.

(** X13: As the program runs, sync never reports a file as up to date: the
    message of line 539 is logged only after a truthy answer of
    checkRemoteFile, which never comes. *)
Theorem file_is_never_reported_up_to_date sep md5 cycles config w :
  completed (sync sep md5 cycles config w) = true ->
  exists evs,
    trace (final_world (sync sep md5 cycles config w)) = trace w ++ evs /\
    forall f, ~ In (Log INFO (AlreadyUpToDate f)) evs.
Proof.
  intros _.
  apply (sync_within sep md5 config quiet quiet_refl quiet_trans quiet_event).
  intros f _. apply sync_file_quiet.
Qed.

(** ** The branches of a pass *)

Lemma checkLocalFile_same md5 config file data w :
  files w !! file = Some data ->
  stored_local config file = Some (VStr (md5 data)) ->
  checkLocalFile md5 config file w = Ret true w.
Proof.
  intros Hf Hs. destruct (stored_local_dict _ _ _ Hs) as (d & E & Hg & Ht).
  unfold checkLocalFile, getMD5. run. rewrite Hf. run. rewrite E. run. rewrite Ht.
  cbn [py_contains py_getitem]. rewrite Hg. run. rewrite Hf. run. rewrite ?Hf. run.
  cbn [secure_compare_value]. rewrite secure_compare_eqb, String.eqb_refl. reflexivity.
Qed.

Lemma absent_not_dir w file : path_exists w file = false -> is_dir w file = false.
Proof.
  unfold path_exists, is_dir. destruct (files w !! file); [discriminate | auto].
Qed.

Lemma absent_no_file w file : path_exists w file = false -> files w !! file = None.
Proof. unfold path_exists. destruct (files w !! file); [discriminate | auto]. Qed.

(** X14: When the local file is missing but a file can be created at its path,
    the host is reachable, the remote copy exists and config.json is as
    the program writes it, a pass downloads it: afterwards the local file
    holds the remote content, no other local file but config.json is
    written, and the remote files are as they were when the remote name
    is one plain word. *)
Theorem lost_local_copy_is_restored sep md5 config file rdata w :
  path_exists w file = false ->
  creatable w file = true ->
  ssh_up w = true ->
  remote_files w !! remote_path sep file = Some rdata ->
  store_ok w = true ->
  returns (sync_file sep md5 config file) w (fun _ w' =>
    files w' !! file = Some rdata /\
    (plain_name sep file = true -> remote_files w' = remote_files w) /\
    (forall p, p <> file -> p <> "config.json" -> files w' !! p = files w !! p) /\
    trace w' = trace w ++
      [Log INFO (LocalCopyNotFound file); ScpGet (remote_path sep file) file;
       SshExec ("md5sum " +:+ remote_path sep file); Log INFO FileCopied]).
Proof.
  intros Hex Hc Hup Hr Hok. apply store_ok_written in Hok.
  pose proof (absent_no_file _ _ Hex) as Hf.
  pose proof (absent_not_dir _ _ Hex) as Hd.
  assert (Hne : file <> "config.json").
  { intros ->. destruct Hok as (d & Hd' & _). congruence. }
  set (w1 := set_files (<[file := rdata]> (files w))
               (add_event (ScpGet (remote_path sep file) file)
                  (add_event (Log INFO (LocalCopyNotFound file)) w))).
  assert (Hdl : download sep file (add_event (Log INFO (LocalCopyNotFound file)) w)
               = Ret true w1).
  { unfold download, getSCPClient, getSSHClient, scp_get. run.
    cbn [ssh_up add_event]. rewrite Hup. run.
    cbn [remote_files add_event]. rewrite Hr.
    change (is_dir (add_event (ScpGet (remote_path sep file) file)
                      (add_event (Log INFO (LocalCopyNotFound file)) w)) file)
      with (is_dir w file).
    change (can_write (add_event (ScpGet (remote_path sep file) file)
                         (add_event (Log INFO (LocalCopyNotFound file)) w)) file)
      with (can_write w file).
    unfold can_write. rewrite Hd, Hf, Hc. cbv beta iota delta [negb andb].
    cbn [files set_files add_event]. rewrite lookup_insert_eq. reflexivity. }
  assert (Hok1 : store_written w1).
  { apply (store_written_same_config w); [|exact Hok].
    cbn [files set_files w1 add_event]. apply lookup_insert_ne. exact Hne. }
  destruct (updateLocalHash_spec md5 file w1 Hok1)
    as (b2 & w2 & E2 & Hok2 & (A2 & _ & R2 & U2 & _ & _ & _ & S2) & T2).
  { cbn [files set_files w1]. rewrite lookup_insert_eq. eauto. }
  exists tt, (add_event (Log INFO FileCopied) (probed sep file w2)). split.
  - unfold sync_file.
    rewrite (bind_Ret _ _ w false w) by (unfold os_path_exists; rewrite Hex; reflexivity).
    cbv beta iota.
    rewrite (bind_Ret _ _ w tt (add_event (Log INFO (LocalCopyNotFound file)) w))
      by reflexivity.
    rewrite (bind_Ret _ _ _ _ _ Hdl). cbv beta iota.
    rewrite (bind_Ret _ _ _ _ _ E2).
    rewrite (bind_Ret _ _ w2 VNone (probed sep file w2)); [reflexivity|].
    rewrite updateRemoteHash_run, U2. cbn [ssh_up set_files add_event w1].
    rewrite Hup. reflexivity.
  - unfold probed. cbn [files remote_files trace add_event set_remote_files].
    rewrite A2 by exact Hne. rewrite R2, T2.
    cbn [files remote_files trace ssh_up set_files add_event w1].
    rewrite lookup_insert_eq, <- !app_assoc.
    split; [reflexivity|]. split; [|split; [|reflexivity]].
    + intros Hp. apply sh_effect_plain, Hp.
    + intros p Hp Hcfg. rewrite A2 by exact Hcfg.
      cbn [files set_files w1 add_event]. apply lookup_insert_ne. congruence.
Qed.

(** X27: When the local file is missing and no file can be created at its path
    (its directory is gone, say), a pass reports it as found neither on
    the remote side nor locally, even when the remote copy exists: the
    failed download is all that happens, and no file changes on either
    side. *)
Theorem lost_copy_without_directory_is_reported_missing sep md5 config file w :
  path_exists w file = false ->
  creatable w file = false ->
  returns (sync_file sep md5 config file) w (fun _ w' =>
    files w' = files w /\ remote_files w' = remote_files w /\
    trace w' = trace w ++ [Log INFO (LocalCopyNotFound file)] ++
      (if ssh_up w then [ScpGet (remote_path sep file) file] else []) ++
      [Log ERROR (NotFoundRemoteAndLocal file)]).
Proof.
  intros Hex Hc.
  pose proof (absent_no_file _ _ Hex) as Hf.
  pose proof (absent_not_dir _ _ Hex) as Hd.
  unfold returns, sync_file, download, getSCPClient, getSSHClient, scp_get.
  cbv beta iota delta [bind ret lift raise sys_exit beyond os_path_exists emit log].
  rewrite Hex. cbn [ssh_up add_event].
  destruct (ssh_up w); cbv beta iota.
  - cbn [remote_files add_event].
    destruct (remote_files w !! remote_path sep file) as [rdata|].
    + change (is_dir (add_event (ScpGet (remote_path sep file) file)
                        (add_event (Log INFO (LocalCopyNotFound file)) w)) file)
        with (is_dir w file).
      change (can_write (add_event (ScpGet (remote_path sep file) file)
                           (add_event (Log INFO (LocalCopyNotFound file)) w)) file)
        with (can_write w file).
      unfold can_write. rewrite Hd, Hf, Hc. cbv beta iota delta [negb andb].
      eexists _, _. split; [reflexivity|]. cbn. rewrite <- !app_assoc. auto.
    + eexists _, _. split; [reflexivity|]. cbn. rewrite <- !app_assoc. auto.
  - eexists _, _. split; [reflexivity|]. cbn. rewrite <- !app_assoc. auto.
Qed.

(** X15: When the local file matches its stored digest and remote_hashes has no
    entry under the local path (its keys are remote names), a pass never
    looks at what the remote copy holds and never downloads it: it sends
    the probe, warns that the remote hash is missing, sends the probe
    again, and writes no local file, config.json included.  A change
    made to the remote copy is not fetched. *)
Theorem remote_change_is_not_downloaded sep md5 config file data rh w :
  files w !! file = Some data ->
  stored_local config file = Some (VStr (md5 data)) ->
  hashes_of config "remote_hashes" = Some rh ->
  dict_get file rh = None ->
  returns (sync_file sep md5 config file) w (fun _ w' =>
    files w' = files w /\
    trace w' = trace w ++
      (if ssh_up w then [SshExec ("md5sum " +:+ remote_path sep file)] else []) ++
      [Log WARNING (RemoteHashNotFound file)] ++
      (if ssh_up w then [SshExec ("md5sum " +:+ remote_path sep file)] else []) /\
    (plain_name sep file = true -> remote_files w' = remote_files w)).
Proof.
  intros Hf Hl Hh Hfile.
  assert (Pass : forall (r : value) (w1 w3 : world),
            truthy r = false ->
            checkRemoteFile sep md5 config file w = Ret r w1 ->
            updateRemoteHash sep file
              (add_event (Log WARNING (RemoteHashNotFound file)) w1) = Ret r w3 ->
            files w3 = files w ->
            sync_file sep md5 config file w = Ret tt w3).
  { intros r w1 w3 Hr E1 E3 F3. unfold sync_file.
    rewrite (bind_Ret _ _ w true w)
      by (unfold os_path_exists, path_exists; rewrite Hf; reflexivity).
    rewrite (bind_Ret _ _ w true w)
      by exact (checkLocalFile_same md5 config file data w Hf Hl).
    cbv beta iota delta [negb].
    rewrite (bind_Ret _ _ _ _ _ E1). rewrite Hr. cbv beta iota.
    rewrite (bind_Ret _ _ w1 false w1)
      by exact (recorded_in_unrecorded config "remote_hashes" file rh w1 Hh Hfile).
    cbv beta iota.
    rewrite (bind_Ret _ _ w1 tt (add_event (Log WARNING (RemoteHashNotFound file)) w1))
      by reflexivity.
    rewrite (bind_Ret _ _ _ _ _ E3).
    rewrite (bind_Ret _ _ w3 true w3); [reflexivity|].
    apply (checkLocalFile_same md5 config file data w3); [|exact Hl].
    rewrite F3. exact Hf. }
  destruct (ssh_up w) eqn:Hup.
  - exists tt, (probed sep file
                  (add_event (Log WARNING (RemoteHashNotFound file))
                     (probed sep file w))).
    split.
    + apply (Pass VNone (probed sep file w)); try reflexivity.
      * rewrite checkRemoteFile_run, Hup. reflexivity.
      * rewrite updateRemoteHash_run. unfold probed at 1.
        cbn [ssh_up add_event set_remote_files]. rewrite Hup. reflexivity.
    + split; [reflexivity|]. unfold probed.
      cbn [trace remote_files remote_sh add_event set_remote_files].
      split; [rewrite <- !app_assoc; reflexivity|].
      intros Hp. rewrite !(sh_effect_plain _ _ _ _ Hp). reflexivity.
  - exists tt, (add_event (Log WARNING (RemoteHashNotFound file)) w).
    split.
    + apply (Pass (VBool false) w); try reflexivity.
      * rewrite checkRemoteFile_run, Hup. reflexivity.
      * rewrite updateRemoteHash_run. cbn [ssh_up add_event]. rewrite Hup. reflexivity.
    + split; [reflexivity|]. split; reflexivity.
Qed.

(** ** Pass after pass *)

Lemma local_change_pass sep md5 config file data h0 w :
  files w !! file = Some data ->
  stored_local config file = Some (VStr h0) ->
  md5 data <> h0 ->
  file <> "config.json" ->
  ssh_up w = true ->
  store_written w ->
  returns (sync_file sep md5 config file) w (fun _ w' =>
    store_written w' /\ files w' !! file = Some data /\ ssh_up w' = true /\
    trace w' = trace w ++
      [Log INFO (LocalChangedUpload file); ScpPut file (remote_path sep file);
       SshExec ("md5sum " +:+ remote_path sep file);
       Log INFO (RemoteCopyUpdated file)]).
Proof.
  intros Hf Hs Hne Hcfg Hup Hok.
  destruct (upload_block_spec sep md5 file data
              (add_event (Log INFO (LocalChangedUpload file)) w)
              (store_written_event _ _ Hok) Hf)
    as (u & w' & E & Hok' & T & _ & F & _ & U).
  assert (Es : sync_file sep md5 config file w = Ret tt w').
  { unfold sync_file.
    rewrite (bind_Ret _ _ w true w)
      by (unfold os_path_exists, path_exists; rewrite Hf; reflexivity).
    rewrite (bind_Ret _ _ w false w)
      by exact (checkLocalFile_changed md5 config file data h0 w Hf Hs Hne).
    cbv beta iota delta [negb].
    rewrite (bind_Ret _ _ w true w) by exact (recorded_in_recorded config file _ w Hs).
    cbv beta iota.
    rewrite (bind_Ret _ _ w tt (add_event (Log INFO (LocalChangedUpload file)) w))
      by reflexivity.
    destruct u. exact E. }
  exists tt, w'. split; [exact Es|].
  cbn [trace ssh_up files add_event] in T, F, U.
  split; [exact Hok'|]. split; [rewrite F by exact Hcfg; exact Hf|].
  split; [congruence|]. rewrite T, Hup, <- !app_assoc. reflexivity.
Qed.

(** X16: self.config is never reloaded, so with a reachable host a file whose
    content differs from the digest loaded at startup is uploaded again on
    every pass of the loop: n passes produce n uploads. *)
Theorem changed_file_is_uploaded_on_every_pass sep md5 config file data h0 n w :
  py_getitem config "local_files" = inr (VList [VStr file]) ->
  files w !! file = Some data ->
  stored_local config file = Some (VStr h0) ->
  md5 data <> h0 ->
  file <> "config.json" ->
  ssh_up w = true ->
  store_ok w = true ->
  returns (sync_loop sep md5 n config) w (fun _ w' =>
    trace w' = trace w ++
      concat (replicate n
        [Log INFO StartChecking;
         Log INFO (LocalChangedUpload file); ScpPut file (remote_path sep file);
         SshExec ("md5sum " +:+ remote_path sep file);
         Log INFO (RemoteCopyUpdated file);
         Log INFO AllChecked])).
Proof.
  intros Hl Hf Hs Hne Hcfg Hup Hok. apply store_ok_written in Hok.
  revert w Hf Hup Hok. induction n as [|n IH]; intros w Hf Hup Hok.
  - exists tt, w. split; [reflexivity|]. cbn. rewrite app_nil_r. reflexivity.
  - destruct (local_change_pass sep md5 config file data h0
                (add_event (Log INFO StartChecking) w) Hf Hs Hne Hcfg Hup
                (store_written_event _ _ Hok))
      as (u & w1 & E1 & Hok1 & Hf1 & Hup1 & T1).
    destruct (IH (add_event (Log INFO AllChecked) w1) Hf1 Hup1
                (store_written_event _ _ Hok1)) as (u2 & w2 & E2 & T2).
    exists u2, w2. split.
    + cbn [sync_loop].
      rewrite (bind_Ret _ _ w tt (add_event (Log INFO AllChecked) w1)); [exact E2|].
      unfold sync_cycle.
      rewrite (bind_Ret _ _ w tt (add_event (Log INFO StartChecking) w)) by reflexivity.
      rewrite Hl.
      rewrite (bind_Ret _ _ _ (VList [VStr file]) (add_event (Log INFO StartChecking) w))
        by reflexivity.
      rewrite (bind_Ret _ _ _ [file] (add_event (Log INFO StartChecking) w))
        by reflexivity.
      rewrite (bind_Ret _ _ _ tt w1); [reflexivity|].
      cbn [for_each].
      rewrite (bind_Ret _ _ _ _ _ E1). destruct u. reflexivity.
    + rewrite T2. cbn [trace add_event]. rewrite T1. cbn [trace add_event].
      cbn [replicate concat]. rewrite <- !app_assoc. reflexivity.
Qed.

(** ** The first run *)

(** X20: The file dialogue of initConfig never calls sys.exit: the guard of
    line 116 tests len(...) < 0, so the 'No files added' exit is
    unreachable, and 'stop' is accepted even when no file has been
    entered. The dialogue returns its list, or input() raises EOFError
    when the input ends before a 'stop'. *)
Theorem file_dialogue_never_exits lines acc stop_count w :
  ((exists kept w', ask_files lines acc stop_count w = Ret kept w') \/
   (exists w', ask_files lines acc stop_count w = Raise EOFError w')) /\
  (forall rest,
     ask_files ("stop" :: rest) [] stop_count w = Ret [] (set_stdin rest w)).
Proof.
  split; [|reflexivity].
  revert acc stop_count w. induction lines as [|l lines IH]; intros acc sc w.
  - right. eexists. reflexivity.
  - cbn [ask_files]. destruct (String.eqb (lower l) "stop").
    + replace (Z.of_nat (List.length acc) <? 0) with false
        by (symmetry; apply Z.ltb_ge; lia).
      left. eauto.
    + destruct (path_exists (set_stdin lines w) l); apply IH.
Qed.

Lemma ask_files_run paths stopword rest acc sc w :
  Forall (fun p => lower p <> "stop") paths ->
  lower stopword = "stop" ->
  ask_files (paths ++ stopword :: rest) acc sc w
  = Ret (acc ++ existing w paths) (set_stdin rest w).
Proof.
  intros Hp Hs. revert acc w. induction Hp as [|p paths Hne _ IH]; intros acc w.
  - cbn [app ask_files]. rewrite Hs. cbn [String.eqb Ascii.eqb Bool.eqb].
    replace (Z.of_nat (List.length acc) <? 0) with false
      by (symmetry; apply Z.ltb_ge; lia).
    cbn [existing List.filter]. rewrite app_nil_r. reflexivity.
  - cbn [app ask_files]. apply String.eqb_neq in Hne. rewrite Hne.
    change (path_exists (set_stdin (paths ++ stopword :: rest) w) p)
      with (path_exists w p).
    cbn [existing List.filter].
    destruct (path_exists w p) eqn:Hf.
    + rewrite IH. unfold existing. rewrite <- app_assoc. reflexivity.
    + rewrite IH. reflexivity.
Qed.

(** X21: The file dialogue keeps, in the order entered and with repetitions,
    exactly the paths that exist among those typed before the first 'stop'
    (in any letter case), and leaves the later input unread. *)
Theorem file_dialogue_keeps_existing_paths paths stopword rest w :
  Forall (fun p => lower p <> "stop") paths ->
  lower stopword = "stop" ->
  ask_files (paths ++ stopword :: rest) [] 0 w
  = Ret (existing w paths) (set_stdin rest w).
Proof. intros Hp Hs. apply (ask_files_run paths stopword rest [] 0 w Hp Hs). Qed.

Lemma hash_files_run md5 paths acc w :
  Forall (fun p => is_Some (files w !! p)) paths ->
  hash_files md5 paths acc w = Ret (digests md5 (files w) paths acc) w.
Proof.
  intros H. revert acc. induction H as [|p paths [data Hd] _ IH]; intros acc.
  - reflexivity.
  - cbn [hash_files digests fold_left]. unfold getMD5. run. rewrite Hd. run.
    rewrite IH. reflexivity.
Qed.

Lemma existing_files w paths :
  Forall (fun p => is_dir w p = false) paths ->
  Forall (fun p => is_Some (files w !! p)) (existing w paths).
Proof.
  unfold existing. induction 1 as [|p paths Hd _ IH]; cbn [List.filter].
  - constructor.
  - destruct (path_exists w p) eqn:E; [|exact IH].
    constructor; [|exact IH]. unfold path_exists in E.
    destruct (files w !! p); [eauto | congruence].
Qed.

Lemma decimal_is_digit s : all_chars is_decimal s = true -> all_chars is_digit_char s = true.
Proof.
  induction s as [|c s IH]; cbn [all_chars]; [reflexivity|].
  intros H. apply andb_prop in H as [Hc Hs]. rewrite IH by exact Hs.
  unfold is_digit_char. rewrite Hc. reflexivity.
Qed.

Lemma ask_port_decimal port rest w :
  all_chars is_decimal port = true ->
  ask_port (port :: rest) w
  = Ret (if nonempty port then Some (Z.of_N (decimal_value 0 port)) else None)
        (set_stdin rest w).
Proof.
  intros Hport. cbn [ask_port].
  unfold isdigit, py_int, nonempty. rewrite Hport, (decimal_is_digit _ Hport).
  destruct (negb (String.eqb port "")); reflexivity.
Qed.

(** The dialogue of a first run, up to the list of files. *)
Lemma first_run_dialogue md5 host port user pw paths rest w :
  path_exists w "config.json" = false ->
  stdin w = host :: port :: user :: pw :: paths ++ "stop" :: rest ->
  all_chars is_decimal port = true ->
  Forall (fun p => lower p <> "stop") paths ->
  initConfig md5 w
  = (let* local_hashes := hash_files md5 (existing w paths) [] in
     save_config
       (VDict
          (dict_set "local_hashes" (VDict local_hashes)
             (dict_set "local_files" (VList (map VStr (existing w paths)))
                (dict_set "password" (VStr pw)
                   (dict_set "username"
                      (if nonempty user then VStr user
                       else match env_username w with
                            | Some u => VStr u
                            | None => VNone
                            end)
                      (match (if nonempty port
                              then Some (Z.of_N (decimal_value 0 port))
                              else None) with
                       | Some n => dict_set "port" (VInt n)
                                     (dict_set "hostname" (VStr host) CONFIG_TEMPLATE)
                       | None => dict_set "hostname" (VStr host) CONFIG_TEMPLATE
                       end)))))))
      (set_stdin rest w).
Proof.
  intros Hnone Hin Hport Hpaths.
  set (in1 := port :: user :: pw :: paths ++ "stop" :: rest).
  set (in2 := user :: pw :: paths ++ "stop" :: rest).
  set (in3 := pw :: paths ++ "stop" :: rest).
  set (in4 := paths ++ "stop" :: rest).
  unfold initConfig.
  rewrite (bind_Ret _ _ w false w)
    by (unfold os_path_exists; rewrite Hnone; reflexivity).
  cbv beta iota.
  rewrite (bind_Ret _ _ w host (set_stdin in1 w))
    by (unfold input; rewrite Hin; reflexivity).
  rewrite (bind_Ret _ _ _ (if nonempty port then Some (Z.of_N (decimal_value 0 port))
                           else None) (set_stdin in2 w))
    by exact (ask_port_decimal port in2 (set_stdin in1 w) Hport).
  rewrite (bind_Ret _ _ _ user (set_stdin in3 w)) by reflexivity.
  rewrite (bind_Ret _ _ _ (if nonempty user then VStr user
                           else match env_username w with
                                | Some u => VStr u
                                | None => VNone
                                end) (set_stdin in3 w))
    by (destruct (nonempty user); reflexivity).
  rewrite (bind_Ret _ _ _ pw (set_stdin in4 w)) by reflexivity.
  rewrite (bind_Ret _ _ _ (existing w paths) (set_stdin rest w))
    by exact (ask_files_run paths "stop" rest [] 0 (set_stdin in4 w) Hpaths eq_refl).
  reflexivity.
Qed.

(** X22: On a first run (no config.json, which can be created) with a host, a
    port of decimal digits or an empty line, a user name, a password,
    paths of which none is a directory, and 'stop' typed in, initConfig
    returns and writes to config.json the configuration with those
    values: port 22 for the empty line, the USERNAME variable (or null)
    for an empty user name, the existing paths as local_files, one MD5
    digest per listed path as local_hashes, and empty remote_hashes. *)
Theorem first_run_builds_the_configuration md5 host port user pw paths rest w :
  path_exists w "config.json" = false ->
  creatable w "config.json" = true ->
  stdin w = host :: port :: user :: pw :: paths ++ "stop" :: rest ->
  all_chars is_decimal port = true ->
  Forall (fun p => lower p <> "stop") paths ->
  Forall (fun p => is_dir w p = false) paths ->
  let kept := existing w paths in
  let config :=
    VDict [("hostname", VStr host);
           ("port", VInt (if nonempty port then Z.of_N (decimal_value 0 port) else 22));
           ("username",
            if nonempty user then VStr user
            else match env_username w with Some u => VStr u | None => VNone end);
           ("password", VStr pw);
           ("local_files", VList (map VStr kept));
           ("local_hashes", VDict (digests md5 (files w) kept []));
           ("remote_hashes", VDict [])] in
  initConfig md5 w
  = Ret config (set_files (<["config.json" := json_dumps config]> (files w))
                          (set_stdin rest w)).
Proof.
  intros Hnone Hc Hin Hport Hpaths Hdirs kept config.
  rewrite (first_run_dialogue md5 host port user pw paths rest w
             Hnone Hin Hport Hpaths).
  rewrite (bind_Ret _ _ _ (digests md5 (files w) kept []) (set_stdin rest w))
    by exact (hash_files_run md5 kept [] (set_stdin rest w)
                 (existing_files w paths Hdirs)).
  unfold save_config, write_file, or_exit, bind, ret.
  cbn [files set_stdin].
  rewrite (absent_no_file _ _ Hnone).
  change (is_dir (set_stdin rest w) "config.json") with (is_dir w "config.json").
  rewrite (absent_not_dir _ _ Hnone).
  change (creatable (set_stdin rest w) "config.json") with (creatable w "config.json").
  rewrite Hc.
  unfold config. destruct (nonempty port); reflexivity.
Qed.

Lemma hash_files_directory md5 paths acc w :
  Forall (fun p => path_exists w p = true) paths ->
  Exists (fun p => is_dir w p = true) paths ->
  hash_files md5 paths acc w = Raise IsADirectoryError w.
Proof.
  intros Hall. revert acc. induction Hall as [|p paths Hp _ IH]; intros acc Hex.
  - inversion Hex.
  - cbn [hash_files]. unfold getMD5. run.
    unfold path_exists in Hp. unfold is_dir in Hex.
    destruct (files w !! p) as [data|] eqn:Hf.
    + run. apply IH. inversion Hex as [? ? Hd|? ? Ht]; subst.
      * rewrite Hf in Hd. discriminate Hd.
      * exact Ht.
    + run. rewrite Hp. reflexivity.
Qed.

Lemma existing_exist w paths :
  Forall (fun p => path_exists w p = true) (existing w paths).
Proof.
  unfold existing. induction paths as [|p paths IH]; cbn [List.filter].
  - constructor.
  - destruct (path_exists w p) eqn:E; [constructor; assumption | exact IH].
Qed.

Lemma is_dir_exists w p : is_dir w p = true -> path_exists w p = true.
Proof. unfold path_exists, is_dir. destruct (files w !! p); auto. Qed.

(** X28: A directory typed at the file prompt of the first run passes the test
    of line 124 (os.path.exists) and is kept; hashing it on line 127
    raises IsADirectoryError, which nothing catches: the first run ends
    there, after the dialogue and before config.json is written. *)
Theorem directory_at_the_prompt_stops_the_first_run
    md5 host port user pw paths rest dir w :
  path_exists w "config.json" = false ->
  stdin w = host :: port :: user :: pw :: paths ++ "stop" :: rest ->
  all_chars is_decimal port = true ->
  Forall (fun p => lower p <> "stop") paths ->
  In dir paths -> is_dir w dir = true ->
  initConfig md5 w = Raise IsADirectoryError (set_stdin rest w).
Proof.
  intros Hnone Hin Hport Hpaths Hdir Hd.
  rewrite (first_run_dialogue md5 host port user pw paths rest w
             Hnone Hin Hport Hpaths).
  unfold bind at 1.
  rewrite (hash_files_directory md5 (existing w paths) [] (set_stdin rest w)).
  - reflexivity.
  - apply (existing_exist w paths).
  - apply List.Exists_exists. exists dir. split; [|exact Hd].
    unfold existing. apply filter_In. split; [exact Hdir|].
    apply is_dir_exists, Hd.
Qed.

(** ** Names *)

Lemma hd_rev_cons {A} (d h : A) t : t <> [] -> hd d (rev (h :: t)) = hd d (rev t).
Proof.
  intros Ht. cbn [rev]. destruct (rev t) as [|x r] eqn:E.
  - apply (f_equal (@rev A)) in E. rewrite rev_involutive in E. contradiction.
  - reflexivity.
Qed.

Lemma last_component_split sep f :
  (split_on sep f = [f] /\ no_separator sep f = true) \/
  ((exists h t, split_on sep f = h :: t /\ t <> []) /\
   exists d, f = d +:+ String sep (last_component sep f) /\
             no_separator sep (last_component sep f) = true).
Proof.
  unfold last_component, no_separator.
  induction f as [|c r IH]; [left; split; reflexivity|].
  cbn [split_on]. destruct (Ascii.eqb_spec c sep) as [->|Hne].
  - right. assert (Hn : split_on sep r <> []) by (destruct r; cbn; [|destruct (Ascii.eqb _ _); [|destruct (split_on sep r)]]; discriminate).
    split; [eauto|]. rewrite hd_rev_cons by exact Hn.
    destruct IH as [[E Hs]|[_ (d & E & Hs)]].
    + rewrite E. cbn. exists EmptyString. split; [reflexivity | exact Hs].
    + exists (String sep d). split; [|exact Hs]. rewrite E at 1. reflexivity.
  - destruct IH as [[E Hs]|[(h & t & E & Ht) (d & Ed & Hs)]].
    + left. rewrite E. split; [reflexivity|]. cbn [all_chars].
      rewrite Hs. apply Ascii.eqb_neq in Hne. rewrite Hne. reflexivity.
    + right. rewrite E in *. split; [eauto|].
      rewrite hd_rev_cons by exact Ht. rewrite hd_rev_cons in Ed, Hs by exact Ht.
      exists (String c d). split; [|exact Hs]. rewrite Ed at 1. reflexivity.
Qed.

(** X24: The name used on the remote side is what follows the last os.path.sep
    of the path (the whole path when it has none), and it never contains
    os.path.sep.  (Where os.path.sep is a backslash the name may still
    contain a slash.) *)
Theorem remote_name_is_what_follows_the_last_separator sep f :
  no_separator sep (last_component sep f) = true /\
  (f = last_component sep f \/
   exists dir, f = dir +:+ String sep (last_component sep f)).
Proof.
  destruct (last_component_split sep f) as [[E Hs]|[_ (d & E & Hs)]].
  - unfold last_component. rewrite E. cbn. auto.
  - split; [exact Hs|]. right. exists d. exact E.
Qed.

Lemma uint_chars_inj u u' : uint_chars u = uint_chars u' -> u = u'.
Proof.
  revert u'. induction u; intros u'; destruct u'; cbn [uint_chars]; intros H;
    try discriminate H; try reflexivity;
    injection H as H; f_equal; apply IHu; exact H.
Qed.

Lemma text_inj l l' : text l = text l' -> l = l'.
Proof. intros H. rewrite <- (chars_text l), <- (chars_text l'), H. reflexivity. Qed.

(** X25: getTempFileName returns sunc_temp_ followed by the decimal print of
    the random draw, so two names are equal exactly when the draws are
    equal. *)
Theorem getTempFileName_injective a b :
  getTempFileName a = getTempFileName b <-> a = b.
Proof.
  split; [|intros ->; reflexivity].
  unfold getTempFileName. cbn [String.append]. intros H. injection H as H.
  apply DecimalN.Unsigned.to_uint_inj, uint_chars_inj, text_inj, H.
Qed.

(** ** Missing fields *)

(** X19: With a configuration that has no local_hashes key, a pass over an
    existing file raises KeyError before anything is transferred or
    written. *)
Theorem pass_needs_the_digest_field sep md5 d file data w :
  dict_get "local_hashes" d = None ->
  files w !! file = Some data ->
  sync_file sep md5 (VDict d) file w = Raise KeyError w.
Proof.
  intros Hg Hf. unfold sync_file, checkLocalFile. run. rewrite Hf. run.
  cbn [py_getitem]. rewrite Hg. run. rewrite ?Hf. reflexivity.
Qed.

(** X12: For an existing file, updateLocalHash returns True and rewrites only
    the local_hashes key of config.json: to the one-entry mapping {path:
    MD5 of the file} when the key was absent or falsy, and to null when it
    held a non-empty mapping. Nothing but config.json is written. *)
Theorem updateLocalHash_records_local_digest md5 file data d w :
  files w !! "config.json" = Some (json_dumps (VDict d)) ->
  valid (VDict d) = true ->
  updatable d "local_hashes" = true ->
  files w !! file = Some data ->
  exists d',
    returns (updateLocalHash md5 file) w (fun b w' =>
      b = true /\ persisted w' = Some (VDict d') /\ config_only w w') /\
    (forall k, k <> "local_hashes" -> dict_get k d' = dict_get k d) /\
    dict_get "local_hashes" d'
    = Some (match dict_get "local_hashes" d with
            | Some current =>
                if truthy current then VNone else VDict [(file, VStr (md5 data))]
            | None => VDict [(file, VStr (md5 data))]
            end).
Proof.
  intros Hc Hv Hu Hf.
  exists (dict_set "local_hashes"
            (value_after "local_hashes" (VDict [(file, VStr (md5 data))]) d) d).
  split; [|split].
  - unfold returns, updateLocalHash, getMD5. run. rewrite Hf. run. rewrite ?Hf. run.
    rewrite (updateConfig_written "local_hashes" _ d w Hc Hv (fun _ => Hu)).
    eexists _, _. split; [reflexivity|]. split; [reflexivity|].
    split; [|apply config_only_write].
    apply persisted_written, valid_dict_set; [|exact Hv].
    apply valid_value_after. reflexivity.
  - intros k Hk. apply dict_get_set_ne. congruence.
  - rewrite dict_get_set_eq. unfold value_after.
    destruct (dict_get "local_hashes" d) as [c|]; [|reflexivity].
    cbn [is_dict]. rewrite andb_true_r. reflexivity.
Qed.

(** ** What is written to [config.json] *)

Lemma escape_char_printable c : forallb is_printable (escape_char c) = true.
Proof. destruct c as [[] [] [] [] [] [] [] []]; reflexivity. Qed.

Lemma forallb_app_true {A} (p : A -> bool) l l' :
  forallb p l = true -> forallb p l' = true -> forallb p (l ++ l') = true.
Proof. intros H H'. rewrite forallb_app, H, H'. reflexivity. Qed.

Lemma dumps_str_printable s : forallb is_printable (dumps_str s) = true.
Proof.
  unfold dumps_str. cbn [forallb]. change (is_printable quote) with true. cbn [andb].
  apply forallb_app_true; [|reflexivity].
  induction s as [|c s IH]; [reflexivity|]. cbn [escape].
  apply forallb_app_true; [apply escape_char_printable | exact IH].
Qed.

Lemma uint_chars_printable u : forallb is_printable (uint_chars u) = true.
Proof. induction u; cbn [uint_chars forallb]; try reflexivity; exact IHu. Qed.

Lemma dumps_printable v : forallb is_printable (dumps_chars v) = true.
Proof.
  revert v. fix IH 1. intros v. destruct v as [|[]|z|s|l|d]; try reflexivity.
  - cbn [dumps_chars]. unfold dumps_int.
    destruct (z <? 0); cbn [forallb]; apply uint_chars_printable.
  - apply dumps_str_printable.
  - rewrite dumps_list. cbn [forallb]. change (is_printable "[") with true. cbn [andb].
    apply forallb_app_true; [|reflexivity].
    induction l as [|x l IHl]; [reflexivity|].
    destruct l as [|y l]; [apply IH|].
    change (dumps_items (x :: y :: l))
      with (dumps_chars x ++ chars ", " ++ dumps_items (y :: l)).
    apply forallb_app_true; [apply IH|].
    apply forallb_app_true; [reflexivity | exact IHl].
  - rewrite dumps_dict. cbn [forallb]. change (is_printable "{") with true. cbn [andb].
    apply forallb_app_true; [|reflexivity].
    induction d as [|[k x] d IHd]; [reflexivity|].
    destruct d as [|[k' y] d].
    + cbn [dumps_members]. apply forallb_app_true; [apply dumps_str_printable|].
      apply forallb_app_true; [reflexivity | apply IH].
    + change (dumps_members ((k, x) :: (k', y) :: d))
        with (dumps_str k ++ chars ": " ++ dumps_chars x ++ chars ", "
              ++ dumps_members ((k', y) :: d)).
      apply forallb_app_true; [apply dumps_str_printable|].
      apply forallb_app_true; [reflexivity|].
      apply forallb_app_true; [apply IH|].
      apply forallb_app_true; [reflexivity | exact IHd].
Qed.

Lemma all_chars_text p l : all_chars p (text l) = forallb p l.
Proof. induction l as [|c l IH]; cbn; [reflexivity|]. rewrite IH. reflexivity. Qed.

(** X26: Whenever updateConfig returns, config.json consists of printable ASCII
    characters only (json.dumps escapes everything else), whatever strings
    the configuration holds. *)
Theorem written_config_is_printable_ascii key val b w w' :
  updateConfig key val w = Ret b w' ->
  exists doc, files w' !! "config.json" = Some doc /\
              all_chars is_printable doc = true.
Proof.
  unfold updateConfig. run.
  destruct (files w !! "config.json") as [data|] eqn:Hc; run.
  2:{ destruct (is_dir w "config.json"); [run; rewrite Hc|]; discriminate. }
  rewrite Hc. run.
  destruct (json_loads data) as [config| |]; try discriminate.
  assert (Done : forall c w0,
             Ret true (set_files (<["config.json" := json_dumps c]> (files w)) w)
             = Ret b w0 ->
             exists doc, files w0 !! "config.json" = Some doc /\
                         all_chars is_printable doc = true).
  { intros c w0 [= _ <-]. eexists. split; [cbn [files set_files]; apply lookup_insert_eq|].
    unfold json_dumps. rewrite all_chars_text. apply dumps_printable. }
  destruct (py_contains key config) as [e0|[]]; run; try discriminate.
  - destruct (py_getitem config key) as [e1|current]; run; try discriminate.
    destruct (truthy current && is_dict val).
    + destruct (is_dict current); run; try discriminate.
      destruct (py_setitem config key VNone) as [e2|c]; run; try discriminate.
      rewrite Hc. apply Done.
    + destruct (py_setitem config key val) as [e2|c]; run; try discriminate.
      rewrite Hc. apply Done.
  - destruct (py_setitem config key val) as [e2|c]; run; try discriminate.
    rewrite Hc. apply Done.
Qed.

(** ** The properties at sample inputs *)

Lemma updateConfig_effect_witness :
  exists d',
    returns (updateConfig "hostname" (VStr "backup.example.org")) double_change_world
      (fun b w' =>
         b = true /\ persisted w' = Some (VDict d') /\
         config_only double_change_world w' /\
         trace w' = trace double_change_world) /\
    dict_get "hostname" d'
    = Some (value_after "hostname" (VStr "backup.example.org") (fields recorded_config)) /\
    (forall k, k <> "hostname" -> dict_get k d' = dict_get k (fields recorded_config)).
Proof.
  apply (updateConfig_effect "hostname" (VStr "backup.example.org")
           (fields recorded_config) double_change_world).
  - reflexivity.
  - reflexivity.
  - reflexivity.
  - discriminate.
Defined.

Lemma updateConfig_rejects_non_object_witness :
  updateConfig "local_hashes" (VDict []) list_document_world
  = Raise TypeError list_document_world.
Proof.
  apply (updateConfig_rejects_non_object "local_hashes" (VDict []) "[1, 2]"
           (VList [VInt 1; VInt 2]) list_document_world); reflexivity.
Defined.

Lemma updateConfig_needs_a_mapping_witness :
  updateConfig "local_hashes" (VDict [("b.txt", VStr "62")]) odd_store_world
  = Raise AttributeError odd_store_world.
Proof.
  apply (updateConfig_needs_a_mapping "local_hashes" (VDict [("b.txt", VStr "62")])
           [("local_hashes", VStr "oops")] (VStr "oops") odd_store_world);
    reflexivity.
Defined.

Lemma checkLocalFile_verifies_witness :
  exists b,
    checkLocalFile sample_md5 recorded_config "docs/a.txt" verified_world
    = Ret b verified_world /\
    (b = true <->
     exists data, files verified_world !! "docs/a.txt" = Some data /\
                  dict_get "docs/a.txt" [("docs/a.txt", VStr (sample_md5 "old"))]
                  = Some (VStr (sample_md5 data))).
Proof.
  apply (checkLocalFile_verifies sample_md5 recorded_config "docs/a.txt"
           [("docs/a.txt", VStr (sample_md5 "old"))] verified_world).
  - reflexivity.
  - intros v [= <-]. eauto.
Defined.

Lemma download_result_witness :
  exists b w',
    download "/" "docs/a.txt" lost_world = Ret b w' /\
    remote_files w' = remote_files lost_world /\
    b = true /\ files w' = <["docs/a.txt" := "old"]> (files lost_world).
Proof.
  apply (download_result "/" "docs/a.txt" lost_world). reflexivity.
Defined.

Lemma upload_result_witness :
  exists b w',
    upload "/" "docs/a.txt" refused_world = Ret b w' /\
    files w' = files refused_world /\
    b = ssh_up refused_world && remote_writable refused_world /\
    remote_files w' =
      (if b then <[remote_path "/" "docs/a.txt" := "new"]> (remote_files refused_world)
       else remote_files refused_world).
Proof.
  apply (upload_result "/" "docs/a.txt" "new" refused_world). reflexivity.
Defined.

Lemma upload_then_download_witness :
  returns (upload "/" "docs/a.txt" >> download "/" "docs/a.txt") double_change_world
    (fun b w' =>
       b = true /\ files w' = files double_change_world /\
       remote_files w'
       = <[remote_path "/" "docs/a.txt" := "new"]> (remote_files double_change_world) /\
       trace w' = trace double_change_world ++
                  [ScpPut "docs/a.txt" (remote_path "/" "docs/a.txt");
                   ScpGet (remote_path "/" "docs/a.txt") "docs/a.txt"]).
Proof.
  apply (upload_then_download "/" "docs/a.txt" "new" double_change_world);
    reflexivity.
Defined.

Lemma updateLocalHash_records_local_digest_witness :
  exists d',
    returns (updateLocalHash sample_md5 "docs/a.txt") refused_world (fun b w' =>
      b = true /\ persisted w' = Some (VDict d') /\ config_only refused_world w') /\
    (forall k, k <> "local_hashes" ->
               dict_get k d' = dict_get k (fields (sample_config VNone VNone))) /\
    dict_get "local_hashes" d'
    = Some (match dict_get "local_hashes" (fields (sample_config VNone VNone)) with
            | Some current =>
                if truthy current then VNone
                else VDict [("docs/a.txt", VStr (sample_md5 "new"))]
            | None => VDict [("docs/a.txt", VStr (sample_md5 "new"))]
            end).
Proof.
  apply (updateLocalHash_records_local_digest sample_md5 "docs/a.txt" "new"
           (fields (sample_config VNone VNone)) refused_world);
    reflexivity.
Defined.

Lemma file_is_never_reported_up_to_date_witness :
  exists evs,
    trace (final_world (sync "/" sample_md5 2 single_config verified_world))
    = trace verified_world ++ evs /\
    forall f, ~ In (Log INFO (AlreadyUpToDate f)) evs.
Proof.
  apply (file_is_never_reported_up_to_date "/" sample_md5 2 single_config
           verified_world).
  vm_compute. reflexivity.
Defined.

Lemma lost_local_copy_is_restored_witness :
  returns (sync_file "/" sample_md5 recorded_config "docs/a.txt") lost_world
    (fun _ w' =>
       files w' !! "docs/a.txt" = Some "old" /\
       (plain_name "/" "docs/a.txt" = true ->
        remote_files w' = remote_files lost_world) /\
       (forall p, p <> "docs/a.txt" -> p <> "config.json" ->
                  files w' !! p = files lost_world !! p) /\
       trace w' = trace lost_world ++
         [Log INFO (LocalCopyNotFound "docs/a.txt");
          ScpGet (remote_path "/" "docs/a.txt") "docs/a.txt";
          SshExec ("md5sum " +:+ remote_path "/" "docs/a.txt"); Log INFO FileCopied]).
Proof.
  apply (lost_local_copy_is_restored "/" sample_md5 recorded_config "docs/a.txt"
           "old" lost_world); reflexivity.
Defined.

Lemma lost_copy_without_directory_is_reported_missing_witness :
  returns (sync_file "/" sample_md5 recorded_config "docs/a.txt") orphan_world
    (fun _ w' =>
       files w' = files orphan_world /\ remote_files w' = remote_files orphan_world /\
       trace w' = [Log INFO (LocalCopyNotFound "docs/a.txt");
                   ScpGet ".FileSync/a.txt" "docs/a.txt";
                   Log ERROR (NotFoundRemoteAndLocal "docs/a.txt")]).
Proof.
  apply (lost_copy_without_directory_is_reported_missing "/" sample_md5
           recorded_config "docs/a.txt" orphan_world); reflexivity.
Defined.

Lemma remote_change_is_not_downloaded_witness :
  returns (sync_file "/" sample_md5 recorded_config "docs/a.txt") remote_change_world
    (fun _ w' =>
       files w' = files remote_change_world /\
       trace w' = [SshExec "md5sum .FileSync/a.txt";
                   Log WARNING (RemoteHashNotFound "docs/a.txt");
                   SshExec "md5sum .FileSync/a.txt"] /\
       (plain_name "/" "docs/a.txt" = true ->
        remote_files w' = remote_files remote_change_world)).
Proof.
  apply (remote_change_is_not_downloaded "/" sample_md5 recorded_config "docs/a.txt"
           "old" [(".FileSync/a.txt", VStr (sample_md5 "old"))] remote_change_world);
    reflexivity.
Defined.

Lemma changed_file_is_uploaded_on_every_pass_witness :
  returns (sync_loop "/" sample_md5 2 single_config) double_change_world
    (fun _ w' =>
       trace w' = trace double_change_world ++
         concat (replicate 2
           [Log INFO StartChecking;
            Log INFO (LocalChangedUpload "docs/a.txt");
            ScpPut "docs/a.txt" (remote_path "/" "docs/a.txt");
            SshExec ("md5sum " +:+ remote_path "/" "docs/a.txt");
            Log INFO (RemoteCopyUpdated "docs/a.txt");
            Log INFO AllChecked])).
Proof.
  apply (changed_file_is_uploaded_on_every_pass "/" sample_md5 single_config
           "docs/a.txt" "new" (sample_md5 "old") 2 double_change_world);
    try reflexivity; discriminate.
Defined.

Lemma pass_touches_only_its_file_witness :
  let w' := final_world (sync_file "/" sample_md5 recorded_config "docs/a.txt"
                           double_change_world) in
  (forall p, p <> "docs/a.txt" -> p <> "config.json" ->
             files w' !! p = files double_change_world !! p) /\
  (plain_name "/" "docs/a.txt" = true ->
   forall r, r <> remote_path "/" "docs/a.txt" ->
             remote_files w' !! r = remote_files double_change_world !! r).
Proof.
  apply (pass_touches_only_its_file "/" sample_md5 recorded_config "docs/a.txt"
           double_change_world).
  vm_compute. reflexivity.
Defined.

Lemma sync_never_deletes_witness :
  let w' := final_world (sync "/" sample_md5 2 single_config double_change_world) in
  (forall p, is_Some (files double_change_world !! p) -> is_Some (files w' !! p)) /\
  (exists evs, trace w' = trace double_change_world ++ evs) /\
  ((forall f, In f (tracked single_config) -> plain_name "/" f = true) ->
   forall r, is_Some (remote_files double_change_world !! r) ->
             is_Some (remote_files w' !! r)).
Proof.
  apply (sync_never_deletes "/" sample_md5 2 single_config double_change_world).
  vm_compute. reflexivity.
Defined.

Lemma pass_needs_the_digest_field_witness :
  sync_file "/" sample_md5 (VDict [("local_files", VList [VStr "docs/a.txt"])])
            "docs/a.txt" verified_world
  = Raise KeyError verified_world.
Proof.
  apply (pass_needs_the_digest_field "/" sample_md5
           [("local_files", VList [VStr "docs/a.txt"])] "docs/a.txt" "old"
           verified_world); reflexivity.
Defined.

Lemma file_dialogue_keeps_existing_paths_witness :
  ask_files (["x.txt"; "nope.txt"; "docs"; "x.txt"] ++ "Stop" :: ["later"]) [] 0
            setup_world
  = Ret ["x.txt"; "docs"; "x.txt"] (set_stdin ["later"] setup_world).
Proof.
  apply (file_dialogue_keeps_existing_paths ["x.txt"; "nope.txt"; "docs"; "x.txt"]
           "Stop" ["later"] setup_world).
  - repeat constructor; discriminate.
  - reflexivity.
Defined.

Lemma first_run_builds_the_configuration_witness :
  initConfig sample_md5 setup_world
  = Ret setup_config
        (set_files (<["config.json" := json_dumps setup_config]> (files setup_world))
                   (set_stdin ["later"] setup_world)).
Proof.
  apply (first_run_builds_the_configuration sample_md5 "example.org" "2222" ""
           "secret" ["x.txt"; "nope.txt"; "y.txt"; "x.txt"] ["later"] setup_world).
  - reflexivity.
  - reflexivity.
  - reflexivity.
  - reflexivity.
  - repeat constructor; discriminate.
  - repeat constructor.
Defined.

Lemma directory_at_the_prompt_stops_the_first_run_witness :
  initConfig sample_md5 setup_dir_world
  = Raise IsADirectoryError (set_stdin ["later"] setup_dir_world).
Proof.
  apply (directory_at_the_prompt_stops_the_first_run sample_md5 "example.org" "2222"
           "" "secret" ["x.txt"; "docs"] ["later"] "docs" setup_dir_world).
  - reflexivity.
  - reflexivity.
  - reflexivity.
  - repeat constructor; discriminate.
  - right. left. reflexivity.
  - reflexivity.
Defined.

Lemma first_run_then_restart_witness :
  initConfig sample_md5 (final_world (initConfig sample_md5 setup_world))
  = Ret setup_config (final_world (initConfig sample_md5 setup_world)).
Proof.
  apply (first_run_then_restart sample_md5 setup_world).
  - reflexivity.
  - vm_compute. reflexivity.
Defined.

Lemma written_config_is_printable_ascii_witness :
  exists doc,
    files (final_world (updateConfig "hostname" (VStr (String (chr 233) "t"))
                          double_change_world)) !! "config.json" = Some doc /\
    all_chars is_printable doc = true.
Proof.
  apply (written_config_is_printable_ascii "hostname" (VStr (String (chr 233) "t"))
           true double_change_world).
  vm_compute. reflexivity.
Defined.
